(** * BookNest: the catalog import/export pipeline

    A shallow embedding of [backend/app/routers/import_export.py] together
    with the parts of [routers/books.py], [models.py] and [schemas.py] it
    relies on, of the endpoints of [routers/books.py] that create, read,
    delete and move a book through its reading states, and of the
    endpoints of [routers/authors.py] and [routers/genres.py] that create,
    read and delete a name; and the properties proved over them.

    Conventions of the embedding.
    - A Python [str] is a list of Unicode code points ([text]); a [bytes]
      object is a list of byte values.  The code points are scalar values:
      a lone surrogate, which only an escape in a JSON document can put
      into a string and which the engine refuses to write, is outside the
      model.
    - Python values of dynamic type (JSON data, column values) are [pyval].
    - The SQLAlchemy session is a pair of stores: what the database holds
      ([committed]) and what the open transaction sees ([current]).  The
      session is created with [autoflush=False], but no query of the import
      code can tell a pending object from a flushed one (books are queried
      only on the tracker path, which flushes each book at once; authors and
      genres are flushed on creation), so [db.add] writes to [current].
    - The engine refuses some values when a row is written (see "What the
      engine takes").  The tracker import writes the row of a book in the
      body of its record ([db.flush()]), where a refusal fails the record.
      The generic importers and the book endpoints write it later: the row
      of a book added by a generic importer is written by the first flush
      that follows, that of a later [get_or_create_*] or that of the final
      commit.  A session whose flush was refused refuses every statement
      until it is rolled back, and the generic importers roll back only
      once, after the loop: whichever flush meets the refused row, the
      commit raises and the endpoint answers 500.  So the record loops
      [csv_loop] and [json_loop] follow the records of a file none of whose
      books is refused, and [import_csv_rows] and [import_json_data] answer
      500 for every other file.
    - The store holds the value of a column as it was bound.  SQLite may
      keep a value of another type than the column's in its own way (a
      numeral given as a string in an integer column, a number in a text
      column); statements about what is read back are made for values of
      the column's type.
    - The rows of the two association tables are the lists [authors] and
      [genres] of a book, in the order the names were attached.  The
      database gives them back in no particular order, so statements about
      the names read back are made up to order.  What the association
      tables make of a name attached twice to one book depends on the
      unit of work of the session; the generic importers and [create_book],
      which do not drop a repeated name, are followed on lists without
      repetition.
    - Library functions with no closed form worth restating ([str.lower],
      [float()], the text codecs, [chardet], [csv.DictReader], [json.loads],
      [str()] of a float) are variables of the section that uses them.
    - [started_at], [finished_at], [external_id], [created_at] and
      [updated_at] are not tracked: no import raises while computing them
      once its operands are known, and the generic importers never read
      them back.  The [.strip()] calls that feed them are kept, since they
      can raise.  Of the computed [progress] the model keeps whether it
      raises. *)

From Stdlib Require Import ZArith List Bool Lia String Ascii Floats QArith Qabs
  Permutation.
Import ListNotations.
Open Scope Z_scope.
Set Warnings "-register-all".

(** ** Text *)

Definition text := list Z.
Definition bytes := list Z.

(** A literal, written in ASCII. *)
Definition T (s : string) : text :=
  map (fun a => Z.of_nat (nat_of_ascii a)) (list_ascii_of_string s).

Fixpoint text_eqb (a b : text) : bool :=
  match a, b with
  | [], [] => true
  | x :: a', y :: b' => (x =? y) && text_eqb a' b'
  | _, _ => false
  end.

(** [str.isspace] on one code point, as CPython's [_PyUnicode_IsWhitespace]. *)
Definition is_space (c : Z) : bool :=
  ((9 <=? c) && (c <=? 13)) || ((28 <=? c) && (c <=? 32))
  || (c =? 133) || (c =? 160) || (c =? 5760)
  || ((8192 <=? c) && (c <=? 8202))
  || (c =? 8232) || (c =? 8233) || (c =? 8239) || (c =? 8287) || (c =? 12288).

Fixpoint lstrip (s : text) : text :=
  match s with
  | [] => []
  | c :: r => if is_space c then lstrip r else s
  end.

Definition rstrip (s : text) : text := rev (lstrip (rev s)).

(** [s.strip()] *)
Definition strip (s : text) : text := rstrip (lstrip s).

(** [s.split(sep)] for a one-character separator: never the empty list. *)
Fixpoint split_on (sep : Z) (s : text) : list text :=
  match s with
  | [] => [[]]
  | c :: r =>
      if c =? sep then [] :: split_on sep r
      else match split_on sep r with
           | w :: ws => (c :: w) :: ws
           | [] => [[c]]
           end
  end.

Definition comma : Z := 44.
Definition semicolon : Z := 59.
Definition newline : Z := 10.

Fixpoint startswith (s p : text) : bool :=
  match p, s with
  | [], _ => true
  | x :: p', y :: s' => (x =? y) && startswith s' p'
  | _ :: _, [] => false
  end.

(** [s.endswith(p)] *)
Definition endswith (s p : text) : bool := startswith (rev s) (rev p).

(** [p in s] for strings. *)
Fixpoint contains (s p : text) : bool :=
  startswith s p || match s with [] => false | _ :: r => contains r p end.

(** [sep.join(parts)] *)
Fixpoint join (sep : text) (parts : list text) : text :=
  match parts with
  | [] => []
  | [p] => p
  | p :: rest => p ++ sep ++ join sep rest
  end.

(** The truth value of a string: non-empty. *)
Definition nonempty (s : text) : bool :=
  match s with [] => false | _ => true end.

(** [[a.strip() for a in s.split(',') if a.strip()]] *)
Definition split_names (s : text) : list text :=
  filter nonempty (map strip (split_on comma s)).

(** *** [int(s)] for a string (CPython 3.11, Unicode 14.0)
    Surrounding whitespace is dropped, then an optional sign and decimal
    digits follow, single underscores allowed between digits.  The digits
    are the decimal digits of every script.  The whitespace [int] skips is
    not quite that of [str.strip]: the separators U+001C to U+001F are not
    part of it.  A numeral of more than 4300 digits is refused.  [None]
    stands for [ValueError]. *)

(** The digit zero of each script (the characters of category [Nd] come in
    runs of ten, zero first). *)
Definition decimal_zeros : list Z :=
  [48; 1632; 1776; 1984; 2406; 2534; 2662; 2790; 2918; 3046; 3174; 3302;
   3430; 3558; 3664; 3792; 3872; 4160; 4240; 6112; 6160; 6470; 6608;
   6784; 6800; 6992; 7088; 7232; 7248; 42528; 43216; 43264; 43472; 43504;
   43600; 44016; 65296; 66720; 68912; 69734; 69872; 69942; 70096; 70384;
   70736; 70864; 71248; 71360; 71472; 71904; 72016; 72784; 73040; 73120;
   92768; 92864; 93008; 120782; 120792; 120802; 120812; 120822; 123200;
   123632; 125264; 130032].

Definition digit_of (c : Z) : option Z :=
  option_map (fun zero => c - zero)
             (find (fun zero => (zero <=? c) && (c <? zero + 10)) decimal_zeros).

Definition underscore : Z := 95.

(** [digits_from acc s]: [s] continues a numeral whose value so far is [acc]
    and whose last character was a digit. *)
Fixpoint digits_from (acc : Z) (s : text) : option Z :=
  match s with
  | [] => Some acc
  | c :: r =>
      match digit_of c with
      | Some d => digits_from (10 * acc + d) r
      | None =>
          if c =? underscore then
            match r with
            | c' :: r' =>
                match digit_of c' with
                | Some d => digits_from (10 * acc + d) r'
                | None => None
                end
            | [] => None
            end
          else None
      end
  end.

(** [sys.int_info.default_max_str_digits] *)
Definition max_str_digits : Z := 4300.

Definition unsigned_int (s : text) : option Z :=
  if max_str_digits
     <? Z.of_nat (List.length (filter (fun c => negb (c =? underscore)) s))
  then None
  else
    match s with
    | c :: r => match digit_of c with
                | Some d => digits_from d r
                | None => None
                end
    | [] => None
    end.

(** The whitespace [int] skips. *)
Definition is_int_space (c : Z) : bool :=
  is_space c && negb ((28 <=? c) && (c <=? 31)).

Fixpoint int_lstrip (s : text) : text :=
  match s with
  | [] => []
  | c :: r => if is_int_space c then int_lstrip r else s
  end.

Definition py_int (s : text) : option Z :=
  match rev (int_lstrip (rev (int_lstrip s))) with
  | 45 :: r => option_map Z.opp (unsigned_int r)
  | 43 :: r => unsigned_int r
  | r => unsigned_int r
  end.

(** [str(n)] for an integer. *)
Fixpoint pos_digits (fuel : nat) (n : Z) (acc : text) : text :=
  match fuel with
  | O => acc
  | S fuel' =>
      if n <? 10 then (48 + n) :: acc
      else pos_digits fuel' (n / 10) ((48 + n mod 10) :: acc)
  end.

Definition str_int (n : Z) : text :=
  if n <? 0 then 45 :: pos_digits (Z.to_nat (- n)) (- n) []
  else pos_digits (S (Z.to_nat n)) n [].

(** ** Python values and exceptions *)

(** The values [json.loads] produces, which are also the values a column
    attribute can hold. *)
Inductive pyval : Type :=
| PNone
| PBool (b : bool)
| PInt (n : Z)
| PFloat (f : float)
| PStr (s : text)
| PList (l : list pyval)
| PDict (kvs : list (text * pyval)).

(** [type(v).__name__], as it appears in error messages. *)
Definition type_name (v : pyval) : string :=
  match v with
  | PNone => "NoneType"
  | PBool _ => "bool"
  | PInt _ => "int"
  | PFloat _ => "float"
  | PStr _ => "str"
  | PList _ => "list"
  | PDict _ => "dict"
  end.

(** The exceptions the import code can meet.  [str(e)] is determined by the
    constructor: ['T' object has no attribute 'a'], ['T' object is not
    iterable], [cannot convert float infinity to integer]. *)
Inductive exn : Type :=
| AttributeError (type_of_object attribute : string)
| TypeError_not_iterable (type_of_object : string)
| OverflowError
| ValueError.

Definition result (A : Type) : Type := (A + exn)%type.

(** The truth value of a Python value. *)
Definition truthy (v : pyval) : bool :=
  match v with
  | PNone => false
  | PBool b => b
  | PInt n => negb (n =? 0)
  | PFloat f => negb (PrimFloat.eqb f 0%float)
  | PStr s => nonempty s
  | PList l => match l with [] => false | _ => true end
  | PDict kvs => match kvs with [] => false | _ => true end
  end.

(** [a or b] *)
Definition py_or (a b : pyval) : pyval := if truthy a then a else b.

(** [s or None] for a string [s]. *)
Definition str_or_none (s : text) : pyval :=
  if nonempty s then PStr s else PNone.

(** [v.strip()] *)
Definition py_strip (v : pyval) : result text :=
  match v with
  | PStr s => inl (strip s)
  | _ => inr (AttributeError (type_name v) "strip")
  end.

(** [int(f)] for a float: truncation toward zero; [OverflowError] on an
    infinity, [ValueError] on a NaN. *)
Definition int_of_float (f : float) : result Z :=
  match Prim2SF f with
  | S754_zero _ => inl 0
  | S754_infinity _ => inr OverflowError
  | S754_nan => inr ValueError
  | S754_finite s m e =>
      let v := if 0 <=? e then Zpos m * 2 ^ e else Zpos m / 2 ^ (- e) in
      inl (if s then - v else v)
  end.

(** ** Input records *)

(** A row as [csv.DictReader] yields it: a dict from the header's column
    names to the cell, [None] for a cell the line is too short to have
    ([restval]).  Lookup takes the first binding of a key. *)
Definition row := list (text * option text).

Fixpoint lookup {V : Type} (k : text) (d : list (text * V)) : option V :=
  match d with
  | [] => None
  | (k', v) :: rest => if text_eqb k k' then Some v else lookup k rest
  end.

(** [row.get(key, default)]: [None] is a Python [None], [Some s] a string. *)
Definition row_get (r : row) (key : string) (default : string) : option text :=
  match lookup (T key) r with
  | Some v => v
  | None => Some (T default)
  end.

(** [row.get(key)], default [None]. *)
Definition row_get_none (r : row) (key : string) : option text :=
  match lookup (T key) r with
  | Some v => v
  | None => None
  end.

(** [x.strip()] where [x] is a cell. *)
Definition cell_strip (x : option text) : result text :=
  match x with
  | Some s => inl (strip s)
  | None => inr (AttributeError "NoneType" "strip")
  end.

(** [x.split(',')] followed by the strip-and-filter comprehension. *)
Definition cell_split_names (x : option text) : result (list text) :=
  match x with
  | Some s => inl (split_names s)
  | None => inr (AttributeError "NoneType" "split")
  end.

(** [a or b] on cells: [a] when it is a non-empty string. *)
Definition cell_or (a b : option text) : option text :=
  match a with
  | Some (_ :: _) => a
  | _ => b
  end.

(** [d.get(key, default)] on a JSON value; only a dict has [get]. *)
Definition dict_get (d : pyval) (key : string) (default : pyval) : result pyval :=
  match d with
  | PDict kvs => inl (match lookup (T key) kvs with
                      | Some v => v
                      | None => default
                      end)
  | _ => inr (AttributeError (type_name d) "get")
  end.

(** What a [for] loop over the value iterates: the items of a list, the keys
    of a dict, the characters of a string. *)
Definition py_iter (v : pyval) : result (list pyval) :=
  match v with
  | PList l => inl l
  | PDict kvs => inl (map (fun kv => PStr (fst kv)) kvs)
  | PStr s => inl (map (fun c => PStr [c]) s)
  | _ => inr (TypeError_not_iterable (type_name v))
  end.

(** ** The catalog ([models.py]) *)

Record Author : Type := { author_id : Z; author_name : text }.
Record Genre : Type := { genre_id : Z; genre_name : text }.

Record Book : Type := {
  id : Z;
  title : text;
  subtitle : pyval;
  description : pyval;
  language : pyval;
  format : pyval;
  status : pyval;
  total_pages : pyval;
  current_page : pyval;
  published_year : pyval;
  rating : pyval;
  notes : pyval;
  quotes : pyval;
  location : pyval;
  cover_url : pyval;
  isbn : pyval;
  authors : list Author;
  genres : list Genre
}.

Record Store : Type := {
  books : list Book;
  author_table : list Author;
  genre_table : list Genre
}.

Record Session : Type := {
  committed : Store;
  current : Store
}.

Definition empty_store : Store :=
  {| books := []; author_table := []; genre_table := [] |}.

Definition empty_session : Session :=
  {| committed := empty_store; current := empty_store |}.

(** A session opened on a database holding [s]. *)
Definition session_on (s : Store) : Session :=
  {| committed := s; current := s |}.

Definition db_commit (db : Session) : Session :=
  {| committed := current db; current := current db |}.

Definition db_rollback (db : Session) : Session :=
  {| committed := committed db; current := committed db |}.

(** The next primary key of a table: one past the largest in use. *)
Definition next_id (ids : list Z) : Z := 1 + fold_right Z.max 0 ids.

(** [db.query(Author).filter(Author.name == name).first()] *)
Definition find_author (s : Store) (name : text) : option Author :=
  find (fun a => text_eqb (author_name a) name) (author_table s).

Definition find_genre (s : Store) (name : text) : option Genre :=
  find (fun g => text_eqb (genre_name g) name) (genre_table s).

(** [get_or_create_author(db, name)] of [routers/books.py]. *)
Definition get_or_create_author (db : Session) (name : text) : Author * Session :=
  match find_author (current db) name with
  | Some author => (author, db)
  | None =>
      let cur := current db in
      let author := {| author_id := next_id (map author_id (author_table cur));
                       author_name := name |} in
      (author,
       {| committed := committed db;
          current := {| books := books cur;
                        author_table := author_table cur ++ [author];
                        genre_table := genre_table cur |} |})
  end.

(** [get_or_create_genre(db, name)] of [routers/books.py]. *)
Definition get_or_create_genre (db : Session) (name : text) : Genre * Session :=
  match find_genre (current db) name with
  | Some genre => (genre, db)
  | None =>
      let cur := current db in
      let genre := {| genre_id := next_id (map genre_id (genre_table cur));
                      genre_name := name |} in
      (genre,
       {| committed := committed db;
          current := {| books := books cur;
                        author_table := author_table cur;
                        genre_table := genre_table cur ++ [genre] |} |})
  end.

(** A column default of [models.py]: the ORM leaves a [None] attribute out of
    the INSERT, so the default takes its place.  The JSON column [quotes] is
    the exception: a [None] given for it is stored, as JSON [null]; where no
    value is given for it the book object holds the default, the empty
    list. *)
Definition column_default (v default : pyval) : pyval :=
  match v with PNone => default | _ => v end.

(** The row an INSERT of [b] leaves in the [books] table, under key [k]. *)
Definition inserted (k : Z) (b : Book) : Book :=
  {| id := k;
     title := title b;
     subtitle := subtitle b;
     description := description b;
     language := column_default (language b) (PStr (T "ru"));
     format := column_default (format b) (PStr (T "paper"));
     status := column_default (status b) (PStr (T "planned"));
     total_pages := total_pages b;
     current_page := column_default (current_page b) (PInt 0);
     published_year := published_year b;
     rating := rating b;
     notes := notes b;
     quotes := quotes b;
     location := location b;
     cover_url := cover_url b;
     isbn := isbn b;
     authors := authors b;
     genres := genres b |}.

(** [db.add(book)], with the key the row gets when it is written. *)
Definition db_add_book (db : Session) (b : Book) : Z * Session :=
  let cur := current db in
  let k := next_id (map id (books cur)) in
  (k, {| committed := committed db;
         current := {| books := books cur ++ [inserted k b];
                       author_table := author_table cur;
                       genre_table := genre_table cur |} |}).

(** ** What the engine takes

    SQLite keeps an integer in 64 bits, and its driver binds [None],
    numbers and strings to the parameters of a statement.  When a row is
    written ([db.flush()], [db.commit()]) an integer outside 64 bits raises
    [OverflowError], and a list or an object in a column other than the
    JSON column [quotes] raises an error of the driver. *)

Definition int64 (n : Z) : bool := (- 2 ^ 63 <=? n) && (n <? 2 ^ 63).

Definition bindable (v : pyval) : bool :=
  match v with
  | PInt n => int64 n
  | PList _ | PDict _ => false
  | _ => true
  end.

(** The columns of a book that are bound as they are (the title is a
    string on every path). *)
Definition scalars (b : Book) : list pyval :=
  [subtitle b; description b; language b; format b; status b;
   total_pages b; current_page b; published_year b; rating b; notes b;
   location b; cover_url b; isbn b].

(** The row of [b] can be written. *)
Definition storable (b : Book) : bool := forallb bindable (scalars b).

(** The books the session holds and the database does not: the importers
    only append to the table. *)
Definition uncommitted (db : Session) : list Book :=
  skipn (List.length (books (committed db))) (books (current db)).

(** [Book(title=...)] before any other attribute is given. *)
Definition new_book (t : text) : Book :=
  {| id := 0; title := t; subtitle := PNone; description := PNone;
     language := PNone; format := PNone; status := PNone;
     total_pages := PNone; current_page := PNone; published_year := PNone;
     rating := PNone; notes := PNone; quotes := PList []; location := PNone;
     cover_url := PNone; isbn := PNone; authors := []; genres := [] |}.

(** [db.query(Book).filter(Book.title == title).first()], as a truth value. *)
Definition title_exists (s : Store) (t : text) : bool :=
  existsb (fun b => text_eqb (title b) t) (books s).

(** ** The import result ([schemas.ImportResult]) *)

(** One entry of [errors].  The source renders it as
    ["Строка {position}: ..."] on the CSV paths ([Line]) and as
    ["Книга {position}: ..."] on the JSON path ([BookNo]). *)
Inductive label : Type := Line | BookNo.

Inductive cause : Type :=
| EmptyTitle
| AlreadyExists (t : text)
| Raised (e : exn).

Record diagnostic : Type := {
  diag_label : label;
  diag_position : Z;
  diag_cause : cause
}.

Record ImportResult : Type := {
  success : Z;
  failed : Z;
  skipped : Z;
  errors : list diagnostic
}.

Definition new_result : ImportResult :=
  {| success := 0; failed := 0; skipped := 0; errors := [] |}.

(** [result.errors.append(...); result.failed += 1] *)
Definition count_failed (r : ImportResult) (d : diagnostic) : ImportResult :=
  {| success := success r; failed := failed r + 1; skipped := skipped r;
     errors := errors r ++ [d] |}.

(** [result.errors.append(...); result.skipped += 1] *)
Definition count_skipped (r : ImportResult) (d : diagnostic) : ImportResult :=
  {| success := success r; failed := failed r; skipped := skipped r + 1;
     errors := errors r ++ [d] |}.

(** [result.success += 1] *)
Definition count_success (r : ImportResult) : ImportResult :=
  {| success := success r + 1; failed := failed r; skipped := skipped r;
     errors := errors r |}.

(** What the endpoint answers: the result, or an [HTTPException]. *)
Inductive response : Type :=
| Result (r : ImportResult)
| HTTPError (status_code : Z).

(** Sequencing of computations that may raise. *)
Notation "'do' x <- e ; k" :=
  (match e with inl x => k | inr err => inr err end)
  (at level 10, x name, e at level 100, k at level 200).

(** [a.strip() or b.strip()]: [b] is evaluated only when needed. *)
Definition strip_or (a b : option text) : result text :=
  do x <- cell_strip a;
  if nonempty x then inl x else cell_strip b.

(** Attribute assignments on a [Book] object. *)
Definition with_authors (b : Book) (l : list Author) : Book :=
  {| id := id b; title := title b; subtitle := subtitle b;
     description := description b; language := language b;
     format := format b; status := status b; total_pages := total_pages b;
     current_page := current_page b; published_year := published_year b;
     rating := rating b; notes := notes b; quotes := quotes b;
     location := location b; cover_url := cover_url b; isbn := isbn b;
     authors := l; genres := genres b |}.

Definition with_genres (b : Book) (l : list Genre) : Book :=
  {| id := id b; title := title b; subtitle := subtitle b;
     description := description b; language := language b;
     format := format b; status := status b; total_pages := total_pages b;
     current_page := current_page b; published_year := published_year b;
     rating := rating b; notes := notes b; quotes := quotes b;
     location := location b; cover_url := cover_url b; isbn := isbn b;
     authors := authors b; genres := l |}.

(** A change to the book stored under key [k], seen by the open transaction. *)
Definition update_book (db : Session) (k : Z) (f : Book -> Book) : Session :=
  let cur := current db in
  {| committed := committed db;
     current := {| books := map (fun b => if id b =? k then f b else b) (books cur);
                   author_table := author_table cur;
                   genre_table := genre_table cur |} |}.

Definition stored_book (db : Session) (k : Z) : option Book :=
  find (fun b => id b =? k) (books (current db)).

Definition has_author (b : Book) (a : Author) : bool :=
  existsb (fun x => author_id x =? author_id a) (authors b).

Definition has_genre (b : Book) (g : Genre) : bool :=
  existsb (fun x => genre_id x =? genre_id g) (genres b).

Definition mem_text (x : text) (l : list text) : bool :=
  existsb (text_eqb x) l.

(** What one pass of a per-record [try] body ends in, short of raising. *)
Inductive row_outcome : Type :=
| RowImported
| RowEmptyTitle
| RowDuplicate (t : text).

(** The counting each loop does with the way a record ended: exactly one of
    the three counters moves. *)
Definition tally (l : label) (position : Z) (o : result row_outcome)
                 (res : ImportResult) : ImportResult :=
  match o with
  | inl RowImported => count_success res
  | inl RowEmptyTitle =>
      count_failed res {| diag_label := l; diag_position := position;
                          diag_cause := EmptyTitle |}
  | inl (RowDuplicate t) =>
      count_skipped res {| diag_label := l; diag_position := position;
                           diag_cause := AlreadyExists t |}
  | inr e =>
      count_failed res {| diag_label := l; diag_position := position;
                          diag_cause := Raised e |}
  end.

(** ** Instances of the library functions, to run the model on examples *)

(** [str.lower] on ASCII text. *)
Definition ascii_lower (s : text) : text :=
  map (fun c => if (65 <=? c) && (c <=? 90) then c + 32 else c) s.



(** [float(s)] on an unsigned numeral [digits] or [digits.digits] of at most
    fifteen digits, where one IEEE division gives the nearest double. *)
Definition decimal_float (s : text) : option float :=
  let parts := split_on 46 (strip s) in
  let mk (m k : Z) :=
    PrimFloat.div (PrimFloat.of_uint63 (Uint63.of_Z m))
                  (PrimFloat.of_uint63 (Uint63.of_Z (10 ^ k))) in
  match parts with
  | [i] => if (Z.of_nat (List.length i) <=? 15)
           then option_map (fun m => mk m 0) (unsigned_int i) else None
  | [i; f] =>
      if (Z.of_nat (List.length (i ++ f)) <=? 15) && forallb (fun c => negb (c =? underscore)) (i ++ f)
      then match unsigned_int i, unsigned_int (i ++ f) with
           | Some _, Some m => Some (mk m (Z.of_nat (List.length f)))
           | _, _ => None
           end
      else None
  | _ => None
  end.

Section Pipeline.

(** [str.lower] *)
Variable lower : text -> text.
(** [float(s)] for a string; [None] stands for [ValueError]. *)
Variable py_float : text -> option float.

(** ** The tracker vocabulary *)

Definition map_reading_status (status state : option text) : text :=
  let status_lower := lower (match status with Some s => s | None => [] end) in
  if text_eqb status_lower (T "read") then T "finished"
  else if text_eqb status_lower (T "reading") then T "reading"
  else if text_eqb status_lower (T "want_to_read") then T "planned"
  else if text_eqb status_lower (T "on_hold") then T "on_hold"
  else if text_eqb status_lower (T "dropped") then T "dropped"
  else
    let state_lower := lower (match state with Some s => s | None => [] end) in
    if mem_text state_lower [T "bookshelf"; T "owned"] then T "planned"
    else T "planned".

Definition map_book_format (types : option text) : text :=
  let types_lower := lower (match types with Some s => s | None => [] end) in
  if contains types_lower (T "audiobook") then T "audiobook"
  else if contains types_lower (T "ebook") || contains types_lower (T "e-book")
  then T "ebook"
  else if contains types_lower (T "hardcover") then T "paper"
  else if contains types_lower (T "paperback") then T "paper"
  else T "paper".

(** ** The tracker import: one record *)

(** The two branches that turn the parsed [userRating] into an integer. *)
Definition rescale_rating (rating : float) : result Z :=
  if PrimFloat.leb rating 5%float
  then int_of_float (PrimFloat.mul rating 2%float)
  else int_of_float rating.

(** The rating block: the value [book.rating] is left with ([PNone]: unset).
    [ValueError] is swallowed by the block, anything else leaves it. *)
Definition booktracker_rating (rating_str : text) : result pyval :=
  if nonempty rating_str then
    match py_float rating_str with
    | None => inl PNone
    | Some r =>
        match rescale_rating r with
        | inl n => inl (if (1 <=? n) && (n <=? 10) then PInt n else PNone)
        | inr ValueError => inl PNone
        | inr e => inr e
        end
    end
  else inl PNone.

(** [int(s)] guarded by [if s:] and [except ValueError: pass]. *)
Definition int_if_given (s : text) : pyval :=
  if nonempty s then
    match py_int s with Some n => PInt n | None => PNone end
  else PNone.

(** From the parsing of the authors to the last attribute assignment: the
    book object, and the author and genre names to resolve. *)
Definition booktracker_book (r : row) (title : text)
  : result (Book * list text * list text) :=
  do authors <- cell_split_names (row_get r "authors" "");
  do genres <- cell_split_names
                 (cell_or (row_get r "categories" "") (row_get r "tags" ""));
  let reading_status :=
    map_reading_status (row_get r "readingStatus" "") (row_get r "state" "") in
  let book_format := map_book_format (row_get r "types" "") in
  do language0 <- cell_strip (row_get r "languages" "ru");
  let language1 := if nonempty language0 then language0 else T "ru" in
  let language :=
    if contains language1 [comma]
    then strip (hd [] (split_on comma language1)) else language1 in
  do subtitle <- cell_strip (row_get r "subtitle" "");
  do description <- cell_strip (row_get r "description" "");
  do location <- cell_strip (row_get r "location" "");
  do cover <- strip_or (row_get r "remoteImageUrl" "")
                       (row_get r "thumbnailRemoteImageUrl" "");
  do isbn <- strip_or (row_get r "isbn13" "") (row_get r "isbn10" "");
  do pages_str <- cell_strip (row_get r "pages" "");
  let total_pages := int_if_given pages_str in
  do rating_str <- cell_strip (row_get r "userRating" "");
  do rating <- booktracker_rating rating_str;
  do release_year <- strip_or (row_get r "releaseYear" "")
                              (row_get r "originalReleaseYear" "");
  do start_reading <- cell_strip (row_get r "startReading" "");
  do end_reading <- cell_strip (row_get r "endReading" "");
  inl ({| id := 0;
          title := title;
          subtitle := str_or_none subtitle;
          description := str_or_none description;
          language := PStr (firstn 10 language);
          format := PStr book_format;
          status := PStr reading_status;
          total_pages := total_pages;
          current_page :=
            if text_eqb reading_status (T "finished") && truthy total_pages
            then total_pages else PNone;
          published_year := int_if_given release_year;
          rating := rating;
          notes := PNone;
          quotes := PList [];
          location := str_or_none location;
          cover_url := str_or_none cover;
          isbn := str_or_none isbn;
          authors := [];
          genres := [] |},
       authors, genres).

(** The author loop of the tracker import: the book is already stored under
    [k]; [seen] is [seen_authors]. *)
Fixpoint booktracker_authors (db : Session) (k : Z) (seen : list text)
                             (names : list text) : Session :=
  match names with
  | [] => db
  | author_name :: rest =>
      let author_lower := strip (lower author_name) in
      if nonempty author_lower && negb (mem_text author_lower seen) then
        let '(author, db1) := get_or_create_author db author_name in
        let db2 :=
          match stored_book db1 k with
          | Some b =>
              if has_author b author then db1
              else update_book db1 k
                     (fun b => with_authors b (authors b ++ [author]))
          | None => db1
          end in
        booktracker_authors db2 k (author_lower :: seen) rest
      else booktracker_authors db k seen rest
  end.

Fixpoint booktracker_genres (db : Session) (k : Z) (seen : list text)
                            (names : list text) : Session :=
  match names with
  | [] => db
  | genre_name :: rest =>
      let genre_lower := strip (lower genre_name) in
      if nonempty genre_lower && negb (mem_text genre_lower seen) then
        let '(genre, db1) := get_or_create_genre db genre_name in
        let db2 :=
          match stored_book db1 k with
          | Some b =>
              if has_genre b genre then db1
              else update_book db1 k
                     (fun b => with_genres b (genres b ++ [genre]))
          | None => db1
          end in
        booktracker_genres db2 k (genre_lower :: seen) rest
      else booktracker_genres db k seen rest
  end.

(** The body of the per-record [try]: how it ends, and the session at that
    point.  [db.flush()] writes the row of the book: the columns of a
    tracker book hold [None], strings and integers, so what the engine can
    refuse is an integer outside 64 bits, and the exception that leaves the
    body with the book still in the session is [OverflowError]. *)
Definition booktracker_try (r : row) (db : Session)
  : result row_outcome * Session :=
  match cell_strip (row_get r "title" "") with
  | inr e => (inr e, db)
  | inl title =>
      if negb (nonempty title) then (inl RowEmptyTitle, db)
      else if title_exists (current db) title then (inl (RowDuplicate title), db)
      else
        match booktracker_book r title with
        | inr e => (inr e, db)
        | inl (book, authors, genres) =>
            let '(k, db1) := db_add_book db book in
            if negb (storable book) then (inr OverflowError, db1)
            else
              let db2 := booktracker_authors db1 k [] authors in
              let db3 := booktracker_genres db2 k [] genres in
              (inl RowImported, db_commit db3)
        end
  end.

(** One iteration of the loop, [except] clause included: the tracker
    import rolls the session back when the body raised. *)
Definition booktracker_row (row_num : Z) (r : row) (db : Session)
                           (res : ImportResult) : Session * ImportResult :=
  let '(o, db') := booktracker_try r db in
  (match o with inr _ => db_rollback db' | inl _ => db' end,
   tally Line row_num o res).

(** [for row_num, row in enumerate(reader, start=2)] *)
Fixpoint booktracker_loop (row_num : Z) (rows : list row) (db : Session)
                          (res : ImportResult) : Session * ImportResult :=
  match rows with
  | [] => (db, res)
  | r :: rest =>
      let '(db', res') := booktracker_row row_num r db res in
      booktracker_loop (row_num + 1) rest db' res'
  end.

(** ** The generic CSV import: one record *)

(** [if row.get(key): try: int(row[key]) except ValueError: pass] *)
Definition csv_int_field (r : row) (key : string) : option Z :=
  match row_get_none r key with
  | Some (c :: s) => py_int (c :: s)
  | _ => None
  end.

Definition int_or_unset (n : option Z) : pyval :=
  match n with Some k => PInt k | None => PNone end.

Definition csv_book (r : row) (title : text)
  : result (Book * list text * list text) :=
  do authors <- cell_split_names
                  (cell_or (row_get r "authors" "") (row_get r "author" ""));
  do genres <- cell_split_names
                 (cell_or (row_get r "genres" "") (row_get r "genre" ""));
  do subtitle <- cell_strip (row_get r "subtitle" "");
  do description <- cell_strip (row_get r "description" "");
  do language <- cell_strip (row_get r "language" "ru");
  do format <- cell_strip (row_get r "format" "paper");
  do status <- cell_strip (row_get r "status" "planned");
  do location <- cell_strip (row_get r "location" "");
  do notes <- cell_strip (row_get r "notes" "");
  inl ({| id := 0;
          title := title;
          subtitle := str_or_none subtitle;
          description := str_or_none description;
          language := PStr (if nonempty language then language else T "ru");
          format := PStr (if nonempty format then format else T "paper");
          status := PStr (if nonempty status then status else T "planned");
          total_pages := int_or_unset (csv_int_field r "total_pages");
          current_page := int_or_unset (csv_int_field r "current_page");
          published_year := int_or_unset (csv_int_field r "published_year");
          rating :=
            match csv_int_field r "rating" with
            | Some rating =>
                if (1 <=? rating) && (rating <=? 10) then PInt rating else PNone
            | None => PNone
            end;
          notes := str_or_none notes;
          quotes := PList [];
          location := str_or_none location;
          cover_url := PNone;
          isbn := PNone;
          authors := [];
          genres := [] |},
       authors, genres).

(** [for author_name in authors: ...] on the book object not yet added. *)
Fixpoint csv_authors (db : Session) (book : Book) (names : list text)
  : Book * Session :=
  match names with
  | [] => (book, db)
  | author_name :: rest =>
      let '(author, db1) := get_or_create_author db author_name in
      csv_authors db1 (with_authors book (authors book ++ [author])) rest
  end.

Fixpoint csv_genres (db : Session) (book : Book) (names : list text)
  : Book * Session :=
  match names with
  | [] => (book, db)
  | genre_name :: rest =>
      let '(genre, db1) := get_or_create_genre db genre_name in
      csv_genres db1 (with_genres book (genres book ++ [genre])) rest
  end.

Definition csv_try (r : row) (db : Session) : result row_outcome * Session :=
  match cell_strip (row_get r "title" "") with
  | inr e => (inr e, db)
  | inl title =>
      if negb (nonempty title) then (inl RowEmptyTitle, db)
      else
        match csv_book r title with
        | inr e => (inr e, db)
        | inl (book, authors, genres) =>
            let '(book1, db1) := csv_authors db book authors in
            let '(book2, db2) := csv_genres db1 book1 genres in
            let '(_, db3) := db_add_book db2 book2 in
            (inl RowImported, db3)
        end
  end.

(** One iteration, [except] clause included: nothing is rolled back. *)
Definition csv_row (row_num : Z) (r : row) (db : Session) (res : ImportResult)
  : Session * ImportResult :=
  let '(o, db') := csv_try r db in
  (db', tally Line row_num o res).

Fixpoint csv_loop (row_num : Z) (rows : list row) (db : Session)
                  (res : ImportResult) : Session * ImportResult :=
  match rows with
  | [] => (db, res)
  | r :: rest =>
      let '(db', res') := csv_row row_num r db res in
      csv_loop (row_num + 1) rest db' res'
  end.

(** ** The JSON import: one record *)

Definition json_book (book_data : pyval) (title : text) : result Book :=
  do subtitle <- dict_get book_data "subtitle" PNone;
  do description <- dict_get book_data "description" PNone;
  do language <- dict_get book_data "language" (PStr (T "ru"));
  do format <- dict_get book_data "format" (PStr (T "paper"));
  do status <- dict_get book_data "status" (PStr (T "planned"));
  do total_pages <- dict_get book_data "total_pages" PNone;
  do current_page <- dict_get book_data "current_page" (PInt 0);
  do rating <- dict_get book_data "rating" PNone;
  do notes <- dict_get book_data "notes" PNone;
  do quotes <- dict_get book_data "quotes" (PList []);
  do location <- dict_get book_data "location" PNone;
  do cover_url <- dict_get book_data "cover_url" PNone;
  do published_year <- dict_get book_data "published_year" PNone;
  do isbn <- dict_get book_data "isbn" PNone;
  inl {| id := 0; title := title; subtitle := subtitle;
         description := description; language := language; format := format;
         status := status; total_pages := total_pages;
         current_page := current_page; published_year := published_year;
         rating := rating; notes := notes; quotes := quotes;
         location := location; cover_url := cover_url; isbn := isbn;
         authors := []; genres := [] |}.

(** [if isinstance(x, str): x = [x]] *)
Definition wrap_str (x : pyval) : pyval :=
  match x with PStr _ => PList [x] | _ => x end.

(** The author loop of the JSON import; an element may make it raise after
    earlier ones were resolved. *)
Fixpoint json_authors (db : Session) (book : Book) (names : list pyval)
  : result Book * Session :=
  match names with
  | [] => (inl book, db)
  | author_name :: rest =>
      if truthy author_name then
        match py_strip author_name with
        | inr e => (inr e, db)
        | inl name =>
            let '(author, db1) := get_or_create_author db name in
            json_authors db1 (with_authors book (authors book ++ [author])) rest
        end
      else json_authors db book rest
  end.

Fixpoint json_genres (db : Session) (book : Book) (names : list pyval)
  : result Book * Session :=
  match names with
  | [] => (inl book, db)
  | genre_name :: rest =>
      if truthy genre_name then
        match py_strip genre_name with
        | inr e => (inr e, db)
        | inl name =>
            let '(genre, db1) := get_or_create_genre db name in
            json_genres db1 (with_genres book (genres book ++ [genre])) rest
        end
      else json_genres db book rest
  end.

(** The value a [for] loop runs over for the key [key] of the record. *)
Definition names_of (book_data : pyval) (key : string) : result (list pyval) :=
  do x <- dict_get book_data key (PList []);
  py_iter (wrap_str x).

Definition json_try (book_data : pyval) (db : Session)
  : result row_outcome * Session :=
  match (do t <- dict_get book_data "title" (PStr []); py_strip t) with
  | inr e => (inr e, db)
  | inl title =>
      if negb (nonempty title) then (inl RowEmptyTitle, db)
      else
        match json_book book_data title with
        | inr e => (inr e, db)
        | inl book =>
            match names_of book_data "authors" with
            | inr e => (inr e, db)
            | inl authors =>
                match json_authors db book authors with
                | (inr e, db1) => (inr e, db1)
                | (inl book1, db1) =>
                    match names_of book_data "genres" with
                    | inr e => (inr e, db1)
                    | inl genres =>
                        match json_genres db1 book1 genres with
                        | (inr e, db2) => (inr e, db2)
                        | (inl book2, db2) =>
                            let '(_, db3) := db_add_book db2 book2 in
                            (inl RowImported, db3)
                        end
                    end
                end
            end
        end
  end.

(** One iteration for the record of index [i]: the message says [i+1]. *)
Definition json_row (i : Z) (book_data : pyval) (db : Session)
                    (res : ImportResult) : Session * ImportResult :=
  let '(o, db') := json_try book_data db in
  (db', tally BookNo (i + 1) o res).

(** [for i, book_data in enumerate(books_data)] *)
Fixpoint json_loop (i : Z) (records : list pyval) (db : Session)
                   (res : ImportResult) : Session * ImportResult :=
  match records with
  | [] => (db, res)
  | book_data :: rest =>
      let '(db', res') := json_row i book_data db res in
      json_loop (i + 1) rest db' res'
  end.

(** ** The endpoints *)

(** [content.decode(encoding)] for an encoding Python has a codec for;
    [None] stands for [UnicodeDecodeError]. *)
Variable decode : string -> bytes -> option text.
(** [content.decode('utf-8', errors='replace')] *)
Variable decode_replace : bytes -> text.
(** [chardet.detect(content)]: the encoding (a codec name, or [None]) and
    the confidence. *)
Variable chardet_detect : bytes -> option string * float.
(** [csv.DictReader(io.StringIO(text), delimiter=d)]: the rows it yields, and
    whether the iteration then stopped on a [csv.Error]. *)
Variable csv_DictReader : text -> Z -> list row * bool.
(** [json.loads(text)]; [None] stands for [json.JSONDecodeError]. *)
Variable json_loads : text -> option pyval.

(** Latin-1 gives every byte the code point of the same value. *)
Definition decode_latin1 (content : bytes) : option text := Some content.

Definition codec (encoding : string) : bytes -> option text :=
  if String.eqb encoding "latin-1" then decode_latin1 else decode encoding.

Definition detect_encoding (content : bytes) : string :=
  let '(encoding, confidence) := chardet_detect content in
  let fallback := match encoding with Some e => e | None => "utf-8"%string end in
  if PrimFloat.ltb confidence 0x1.6666666666666p-1%float then
    match codec "utf-8" content with
    | Some _ => "utf-8"%string
    | None => fallback
    end
  else fallback.

(** The records of the tracker file, once decoded and split. *)
Definition import_booktracker_rows (rows : list row) (broke : bool)
                                   (db : Session) : response * Session :=
  let '(db1, res) := booktracker_loop 2 rows db new_result in
  if broke then (HTTPError 500, db_rollback db1) else (Result res, db1).

Definition import_from_booktracker (filename : text) (content : bytes)
                                   (db : Session) : response * Session :=
  if negb (endswith filename (T ".csv")) then (HTTPError 400, db)
  else
    let encoding := detect_encoding content in
    let text :=
      match codec encoding content with
      | Some t => t
      | None => decode_replace content
      end in
    let first_line := hd [] (split_on newline text) in
    let delimiter := if contains first_line [semicolon] then semicolon else comma in
    let '(rows, broke) := csv_DictReader text delimiter in
    import_booktracker_rows rows broke db.

(** [for encoding in [...]: try: text = content.decode(encoding); break] *)
Fixpoint first_decoding (encodings : list string) (content : bytes)
  : option text :=
  match encodings with
  | [] => None
  | encoding :: rest =>
      match codec encoding content with
      | Some t => Some t
      | None => first_decoding rest content
      end
  end.


(** The generic CSV import from the rows on; [broke] tells that the reader
    raised after the rows.  The rows of the books the loop added are
    written by [db.commit()] at the latest; where the engine refuses one,
    the exception is answered 500 after a rollback, like a reader that
    breaks. *)
Definition import_csv_rows (rows : list row) (broke : bool) (db : Session)
  : response * Session :=
  let '(db1, res) := csv_loop 2 rows db new_result in
  if broke then (HTTPError 500, db_rollback db1)
  else if forallb storable (uncommitted db1) then (Result res, db_commit db1)
  else (HTTPError 500, db_rollback db1).

(** The [else] of the decoding loop raises [HTTPException(400)] inside the
    outer [try], whose [except Exception] answers 500 in its place. *)
Definition import_from_csv (filename : text) (content : bytes) (db : Session)
  : response * Session :=
  if negb (endswith filename (T ".csv")) then (HTTPError 400, db)
  else
    match first_decoding ["utf-8"; "cp1251"; "latin-1"]%string content with
    | None => (HTTPError 500, db_rollback db)
    | Some text =>
        let '(rows, broke) := csv_DictReader text comma in
        import_csv_rows rows broke db
    end.

(** [data if isinstance(data, list) else data.get('books', [])], iterated. *)
Definition books_data (data : pyval) : result (list pyval) :=
  do l <- match data with
          | PList _ => inl data
          | _ => dict_get data "books" (PList [])
          end;
  py_iter l.

(** The JSON import from the parsed document on, with the same commit. *)
Definition import_json_data (data : pyval) (db : Session) : response * Session :=
  match books_data data with
  | inr _ => (HTTPError 500, db_rollback db)
  | inl records =>
      let '(db1, res) := json_loop 0 records db new_result in
      if forallb storable (uncommitted db1) then (Result res, db_commit db1)
      else (HTTPError 500, db_rollback db1)
  end.

Definition import_from_json (filename : text) (content : bytes) (db : Session)
  : response * Session :=
  if negb (endswith filename (T ".json")) then (HTTPError 400, db)
  else
    match codec "utf-8" content with
    | None => (HTTPError 500, db_rollback db)
    | Some text =>
        match json_loads text with
        | None => (HTTPError 400, db)
        | Some data => import_json_data data db
        end
    end.

(** ** Export *)

(** [str(v)] for a value that is not [None], a string or an integer. *)
Variable py_str : pyval -> text.

(** The text [csv.writer] puts in a cell, which is the text the reader gives
    back for it. *)
Definition csv_cell (v : pyval) : text :=
  match v with
  | PNone => []
  | PStr s => s
  | PInt n => str_int n
  | _ => py_str v
  end.

(** The exported columns that hold tracked attributes, in the order of the
    source ([progress], [started_at], [finished_at] and [created_at] are left
    out; no importer looks them up). *)
Definition export_headers : list text :=
  map T ["id"; "title"; "subtitle"; "authors"; "genres"; "language";
         "format"; "status"; "total_pages"; "current_page"; "published_year";
         "rating"; "notes"; "location"; "cover_url"; "isbn"]%string.

Definition export_csv_row (book : Book) : list pyval :=
  [ PInt (id book);
    PStr (title book);
    py_or (subtitle book) (PStr []);
    PStr (join (T ", ") (map author_name (authors book)));
    PStr (join (T ", ") (map genre_name (genres book)));
    language book;
    format book;
    status book;
    py_or (total_pages book) (PStr []);
    py_or (current_page book) (PInt 0);
    py_or (published_year book) (PStr []);
    py_or (rating book) (PStr []);
    py_or (notes book) (PStr []);
    py_or (location book) (PStr []);
    py_or (cover_url book) (PStr []);
    py_or (isbn book) (PStr []) ].

(** [book.progress] of [models.py]: 0.0 when [total_pages] is falsy, else a
    division of [current_page or 0] by it, which raises [TypeError] when
    one of the two is not a number (the integers of a stored row have 64
    bits, so the division itself goes through). *)
Definition is_number (v : pyval) : bool :=
  match v with PBool _ | PInt _ | PFloat _ => true | _ => false end.

Definition progress_defined (book : Book) : bool :=
  negb (truthy (total_pages book))
  || (is_number (total_pages book)
      && is_number (py_or (current_page book) (PInt 0))).

(** [export_to_csv]: the rows written after the header row; [None] when the
    [progress] of a book raises, which ends the request. *)
Definition export_to_csv (db : Session) : option (list (list pyval)) :=
  if forallb progress_defined (books (current db))
  then Some (map export_csv_row (books (current db)))
  else None.

(** [csv.field_size_limit()] *)
Definition field_size_limit : Z := 131072.

Definition readable (cells : list pyval) : bool :=
  forallb (fun v => Z.of_nat (List.length (csv_cell v)) <=? field_size_limit)
          cells.

(** What [csv.DictReader] yields for the exported file: each row as a dict
    from the header's names to the cells' texts, up to the first row with a
    cell longer than the limit, where the reader raises (the flag). *)
Fixpoint reread_csv (rows : list (list pyval)) : list row * bool :=
  match rows with
  | [] => ([], false)
  | cells :: rest =>
      if readable cells then
        let '(rs, broke) := reread_csv rest in
        (combine export_headers (map (fun v => Some (csv_cell v)) cells) :: rs,
         broke)
      else ([], true)
  end.

Definition export_book_json (book : Book) : pyval :=
  PDict [ (T "id", PInt (id book));
          (T "title", PStr (title book));
          (T "subtitle", subtitle book);
          (T "authors", PList (map (fun a => PStr (author_name a)) (authors book)));
          (T "genres", PList (map (fun g => PStr (genre_name g)) (genres book)));
          (T "description", description book);
          (T "language", language book);
          (T "format", format book);
          (T "status", status book);
          (T "total_pages", total_pages book);
          (T "current_page", current_page book);
          (T "published_year", published_year book);
          (T "rating", rating book);
          (T "notes", notes book);
          (T "quotes", quotes book);
          (T "location", location book);
          (T "cover_url", cover_url book);
          (T "isbn", isbn book) ].

(** [export_to_json]: the document handed to [json.dumps]; [now] is the
    timestamp.  [json.loads] gives the same document back.  [None] when the
    [progress] of a book raises. *)
Definition export_to_json (now : text) (db : Session) : option pyval :=
  if forallb progress_defined (books (current db))
  then Some (PDict [ (T "exported_at", PStr now);
                     (T "total_books",
                      PInt (Z.of_nat (List.length (books (current db)))));
                     (T "books",
                      PList (map export_book_json (books (current db)))) ])
  else None.

End Pipeline.

(** ** Devices for the proofs *)

(** The shape the three record loops share. *)
Fixpoint run {R : Type}
             (step : Z -> R -> Session -> ImportResult -> Session * ImportResult)
             (n : Z) (records : list R) (db : Session) (res : ImportResult)
  : Session * ImportResult :=
  match records with
  | [] => (db, res)
  | r :: rest =>
      let '(db', res') := step n r db res in
      run step (n + 1) rest db' res'
  end.



(** The closed sets of [schemas.BookStatus] and [schemas.BookFormat]. *)
Definition BookStatus : list text :=
  map T ["planned"; "reading"; "finished"; "on_hold"; "dropped"; "wishlist"]%string.

Definition BookFormat : list text :=
  map T ["paper"; "ebook"; "audiobook"]%string.

Definition in_enum (enum : list text) (v : pyval) : bool :=
  match v with PStr s => mem_text s enum | _ => false end.

(** [rating] is absent, or an integer of 1..10. *)
Definition rating_ok (v : pyval) : bool :=
  match v with
  | PNone => true
  | PInt n => (1 <=? n) && (n <=? 10)
  | _ => false
  end.

(** Names are unique in both tables, as the [unique=True] columns demand. *)
Definition names_unique (s : Store) : Prop :=
  NoDup (map author_name (author_table s))
  /\ NoDup (map genre_name (genre_table s)).

Definition session_unique (db : Session) : Prop :=
  names_unique (committed db) /\ names_unique (current db).

(** What the generic exchange schema carries of a book, by the claim on
    round trips: title, author names, genre names, status, rating. *)
Definition generic_view (b : Book)
  : text * list text * list text * pyval * pyval :=
  (title b, map author_name (authors b), map genre_name (genres b),
   status b, rating b).

(** The session holds nothing the database does not. *)
Definition clean (db : Session) : Prop := current db = committed db.

(** The number a float stands for, when it is finite. *)
Definition float_value (f : float) : option Q :=
  match Prim2SF f with
  | S754_zero _ => Some 0%Q
  | S754_finite s m e =>
      let n := if s then Z.neg m else Z.pos m in
      Some (if 0 <=? e then inject_Z (n * 2 ^ e)
            else Qmake n (Z.to_pos (2 ^ (- e))))
  | _ => None
  end.

(** The integer part of a rational: rounding toward zero. *)
Definition truncate (q : Q) : Z := Z.quot (Qnum q) (Z.pos (Qden q)).

(** In the specification's words: [n] is an integer nearest to [q]. *)
Definition spec_nearest_integer (q : Q) (n : Z) : Prop :=
  forall m : Z, (Qabs (q - inject_Z n) <= Qabs (q - inject_Z m))%Q.

(** The value the rating block works on: doubled when at most 5. *)
Definition scaled (r : float) : float :=
  if PrimFloat.leb r 5%float then PrimFloat.mul r 2%float else r.

(** A string with no surrounding whitespace, and not empty. *)
Definition trimmed (s : text) : Prop := s <> [] /\ strip s = s.

(** A name that survives [", ".join] followed by [split(',')]. *)
Definition csv_name (s : text) : Prop := trimmed s /\ ~ In comma s.

(** A value of an integer column: absent, or an integer of 64 bits. *)
Definition integer_or_null (v : pyval) : bool :=
  match v with PNone => true | PInt n => int64 n | _ => false end.

(** The books the generic CSV exchange carries faithfully. *)
Definition csv_exchangeable (py_str : pyval -> text) (b : Book) : Prop :=
  trimmed (title b)
  /\ Forall csv_name (map author_name (authors b))
  /\ NoDup (map author_name (authors b))
  /\ Forall csv_name (map genre_name (genres b))
  /\ NoDup (map genre_name (genres b))
  /\ (exists s, status b = PStr s /\ trimmed s)
  /\ (rating b = PNone \/ exists n, rating b = PInt n /\ 1 <= n <= 10)
  /\ integer_or_null (total_pages b) = true
  /\ integer_or_null (current_page b) = true
  /\ integer_or_null (published_year b) = true
  /\ readable py_str (export_csv_row b) = true.

(** The books the JSON exchange carries faithfully. *)
Definition json_exchangeable (b : Book) : Prop :=
  trimmed (title b)
  /\ Forall trimmed (map author_name (authors b))
  /\ NoDup (map author_name (authors b))
  /\ Forall trimmed (map genre_name (genres b))
  /\ NoDup (map genre_name (genres b))
  /\ (exists s, status b = PStr s)
  /\ integer_or_null (rating b) = true
  /\ storable b = true
  /\ progress_defined b = true.

(** The same title, author set, genre set, status and rating. *)
Definition same_view (b b' : Book) : Prop :=
  title b' = title b
  /\ Permutation (map author_name (authors b')) (map author_name (authors b))
  /\ Permutation (map genre_name (genres b')) (map genre_name (genres b))
  /\ status b' = status b
  /\ rating b' = rating b.

(** Export, then import of the output into an empty catalog; [None] when the
    export raises. *)
Definition csv_round_trip (py_str : pyval -> text) (db : Session)
  : option (response * Session) :=
  match export_to_csv db with
  | Some rows =>
      let '(rs, broke) := reread_csv py_str rows in
      Some (import_csv_rows rs broke empty_session)
  | None => None
  end.

Definition json_round_trip (now : text) (db : Session)
  : option (response * Session) :=
  match export_to_json now db with
  | Some data => Some (import_json_data data empty_session)
  | None => None
  end.

(** An ASCII digit. *)
Definition ascii_digit (c : Z) : Prop := 48 <= c <= 57.

(** The dict [csv.DictReader] yields for the exported row of [b]. *)
Definition exported_row (py_str : pyval -> text) (b : Book) : row :=
  combine export_headers
          (map (fun v => Some (csv_cell py_str v)) (export_csv_row b)).

(** A cell of the exported row that is there, whatever it holds. *)
Ltac present key default :=
  let x := fresh "cell" in
  let E := fresh "E" in
  match goal with
  | |- context [row_get ?r key default] =>
      assert (E : exists x, row_get r key default = Some x)
        by (eexists; reflexivity);
      destruct E as [x E]; rewrite E; cbn [cell_strip]
  end.

(** A name with no surrounding whitespace (the empty name included). *)
Definition stripped (s : text) : Prop := strip s = s.

(** Every stored name is without surrounding whitespace. *)
Definition names_stripped (s : Store) : Prop :=
  Forall stripped (map author_name (author_table s))
  /\ Forall stripped (map genre_name (genre_table s)).

Definition session_stripped (db : Session) : Prop :=
  names_stripped (committed db) /\ names_stripped (current db).

(** Destructs the steps of a [do] chain that follow the ones of interest. *)
Ltac rest_of_chain :=
  repeat match goal with
         | |- context [match ?e with inl _ => _ | inr _ => _ end] => destruct e
         end;
  try discriminate.

(** A stored book within the enumerations and the rating range. *)
Definition book_valid (b : Book) : bool :=
  in_enum BookStatus (status b) && in_enum BookFormat (format b)
  && rating_ok (rating b).

Definition catalog_valid (db : Session) : Prop :=
  Forall (fun b => book_valid b = true) (books (committed db))
  /\ Forall (fun b => book_valid b = true) (books (current db)).

Definition ratings_valid (db : Session) : Prop :=
  Forall (fun b => rating_ok (rating b) = true) (books (committed db))
  /\ Forall (fun b => rating_ok (rating b) = true) (books (current db)).

(** ** Concrete inputs *)

(** A row all of whose cells are present. *)
Definition cells (l : list (string * string)) : row :=
  map (fun kv => (T (fst kv), Some (T (snd kv)))) l.

(** A JSON object. *)
Definition obj (l : list (string * pyval)) : pyval :=
  PDict (map (fun kv => (T (fst kv), snd kv)) l).

(** The first data line of a file with header [title;subtitle] whose line
    has the single field [Dune]. *)
Definition short_row : row := [(T "title", Some (T "Dune")); (T "subtitle", None)].


(** A catalog holding the book [Dune] and the author [Alice]. *)
Definition dune_catalog : Store :=
  {| books := [inserted 1 (new_book (T "Dune"))];
     author_table := [{| author_id := 1; author_name := T "Alice" |}];
     genre_table := [] |}.

(** A generic CSV row for a second [Dune]. *)
Definition dune_again : row := cells [("title", "Dune")]%string.


(** A generic CSV row with a status and a format outside the enumerations. *)
Definition odd_status_row : row :=
  cells [("title", "Solaris"); ("status", "unknown"); ("format", "scroll")]%string.

(** [{"title": "Solaris", "rating": 15}] *)
Definition rating_15 : pyval :=
  obj [("title", PStr (T "Solaris")); ("rating", PInt 15)]%string.

(** [{"title": "Emma", "authors": ["alice"]}] *)
Definition by_lowercase_alice : pyval :=
  obj [("title", PStr (T "Emma")); ("authors", PList [PStr (T "alice")])]%string.

(** A catalog of one book whose author's name holds a comma. *)
Definition tolkien_catalog : Store :=
  let tolkien := {| author_id := 1; author_name := T "Tolkien, J.R.R." |} in
  {| books := [with_authors
                 (inserted 1 (new_book (T "The Hobbit"))) [tolkien]];
     author_table := [tolkien];
     genre_table := [] |}.

(** A catalog of one book whose title starts with a space, as [create_book]
    stores it when given so. *)
Definition padded_catalog : Store :=
  {| books := [inserted 1 (new_book (T " Dune"))];
     author_table := [];
     genre_table := [] |}.

(** [{"title": "Dune", "total_pages": "many"}]: a page count that is no
    number, which the JSON import stores as it is. *)
Definition many_pages : pyval :=
  obj [("title", PStr (T "Dune")); ("total_pages", PStr (T "many"))]%string.

(** A catalog of one book whose notes are one character longer than the
    field limit of the CSV reader. *)
Definition wordy_catalog : Store :=
  {| books := [{| id := 1; title := T "Dune"; subtitle := PNone;
                  description := PNone; language := PStr (T "en");
                  format := PStr (T "paper"); status := PStr (T "planned");
                  total_pages := PNone; current_page := PInt 0;
                  published_year := PNone; rating := PNone;
                  notes := PStr (repeat 120 (Z.to_nat 131073)); quotes := PList [];
                  location := PNone; cover_url := PNone; isbn := PNone;
                  authors := []; genres := [] |}];
     author_table := [];
     genre_table := [] |}.

(** A catalog of one rated book with an author and two genres. *)
Definition emma_catalog : Store :=
  let austen := {| author_id := 1; author_name := T "Jane Austen" |} in
  let novel := {| genre_id := 1; genre_name := T "Novel" |} in
  let classic := {| genre_id := 2; genre_name := T "Classic" |} in
  {| books := [{| id := 1; title := T "Emma"; subtitle := PNone;
                  description := PNone; language := PStr (T "en");
                  format := PStr (T "paper"); status := PStr (T "finished");
                  total_pages := PInt 474; current_page := PInt 474;
                  published_year := PInt 1815; rating := PInt 9;
                  notes := PNone; quotes := PList []; location := PNone;
                  cover_url := PNone; isbn := PNone;
                  authors := [austen]; genres := [novel; classic] |}];
     author_table := [austen];
     genre_table := [novel; classic] |}.

(** [str(v)] where the examples never ask for it: none of their cells holds
    a float, a bool, a list or a dict. *)
Definition str_unused (v : pyval) : text := [].

(** ** The delimiter of a tracker file *)


(** ** The book endpoints ([routers/books.py])

    Each request runs in a session of its own, closed when the request
    ends: what an endpoint does not commit is dropped.  An exception the
    endpoint does not handle is answered with status 500: so is the refusal
    of a value by the engine when the commit writes it, and so is the
    refusal of the returned book by the response model.  The latter comes
    after the commit, which stays.  The background search for a cover that
    [create_book] may schedule runs after the answer, in a session of its
    own, and is not part of the model: [create_book] is the request up to
    its answer, and [cover_search_scheduled] tells when the search is
    scheduled. *)

Inductive answer (A : Type) : Type :=
| Answer (a : A)
| HTTPException (status_code : Z).

Arguments Answer {A} a.
Arguments HTTPException {A} status_code.

Inductive BookFormatEnum : Type := PAPER | EBOOK | AUDIOBOOK.

Inductive BookStatusEnum : Type :=
  PLANNED | READING | FINISHED | ON_HOLD | DROPPED | WISHLIST.

(** [.value] of the two enumerations of [schemas.py]. *)
Definition format_value (f : BookFormatEnum) : text :=
  match f with
  | PAPER => T "paper"
  | EBOOK => T "ebook"
  | AUDIOBOOK => T "audiobook"
  end.

Definition status_value (s : BookStatusEnum) : text :=
  match s with
  | PLANNED => T "planned"
  | READING => T "reading"
  | FINISHED => T "finished"
  | ON_HOLD => T "on_hold"
  | DROPPED => T "dropped"
  | WISHLIST => T "wishlist"
  end.

(** [schemas.BookCreate], once validated ([started_at] and [finished_at]
    are not tracked). *)
Module BookCreate.
Record t : Type := {
  title : text;
  subtitle : option text;
  description : option text;
  language : text;
  format : BookFormatEnum;
  status : BookStatusEnum;
  total_pages : option Z;
  current_page : Z;
  published_year : option Z;
  rating : option Z;
  notes : option text;
  quotes : list text;
  location : option text;
  cover_url : option text;
  isbn : option text;
  authors : list text;
  genres : list text;
  auto_fetch_cover : bool
}.
End BookCreate.

Definition opt_str (x : option text) : pyval :=
  match x with Some s => PStr s | None => PNone end.

(** [Field(min_length=lo, max_length=hi)] *)
Definition within (lo hi : Z) (s : text) : bool :=
  (lo <=? Z.of_nat (List.length s)) && (Z.of_nat (List.length s) <=? hi).

Definition str_or_null (v : pyval) : bool :=
  match v with PNone | PStr _ => true | _ => false end.

Definition is_string (v : pyval) : bool :=
  match v with PStr _ => true | _ => false end.

Definition is_integer (v : pyval) : bool :=
  match v with PInt _ => true | _ => false end.

Definition int_or_null (v : pyval) : bool :=
  match v with PNone | PInt _ => true | _ => false end.

Definition list_of_str (v : pyval) : bool :=
  match v with PList l => forallb is_string l | _ => false end.

(** [schemas.BookResponse], with [from_attributes]: the stored books the
    response model takes.  FastAPI validates the book an endpoint returns
    against it and answers 500 for one that does not fit.  The columns are
    read as the types of the schema: what pydantic would convert (a numeral
    in a string for an integer, say) the database does not give back in an
    integer or a text column.  [started_at], [finished_at], [created_at] and
    [updated_at] are not tracked: they hold what the code or the column
    default put there, a date or nothing. *)
Definition BookResponse (book : Book) : bool :=
  within 1 500 (title book)
  && str_or_null (subtitle book)
  && str_or_null (description book)
  && is_string (language book)
  && in_enum BookFormat (format book)
  && in_enum BookStatus (status book)
  && int_or_null (total_pages book)
  && is_integer (current_page book)
  && int_or_null (published_year book)
  && rating_ok (rating book)
  && str_or_null (notes book)
  && list_of_str (quotes book)
  && str_or_null (location book)
  && str_or_null (cover_url book)
  && str_or_null (isbn book)
  && forallb (fun a => within 1 255 (author_name a)) (authors book)
  && forallb (fun g => within 1 100 (genre_name g)) (genres book)
  && progress_defined book.

(** The answer made of the book an endpoint returns. *)
Definition respond (book : Book) : answer Book :=
  if BookResponse book then Answer book else HTTPException 500.

(** Attribute assignments on a stored book. *)
Definition with_status (b : Book) (v : pyval) : Book :=
  {| id := id b; title := title b; subtitle := subtitle b;
     description := description b; language := language b;
     format := format b; status := v; total_pages := total_pages b;
     current_page := current_page b; published_year := published_year b;
     rating := rating b; notes := notes b; quotes := quotes b;
     location := location b; cover_url := cover_url b; isbn := isbn b;
     authors := authors b; genres := genres b |}.

Definition with_current_page (b : Book) (v : pyval) : Book :=
  {| id := id b; title := title b; subtitle := subtitle b;
     description := description b; language := language b;
     format := format b; status := status b; total_pages := total_pages b;
     current_page := v; published_year := published_year b;
     rating := rating b; notes := notes b; quotes := quotes b;
     location := location b; cover_url := cover_url b; isbn := isbn b;
     authors := authors b; genres := genres b |}.

Definition with_rating (b : Book) (v : pyval) : Book :=
  {| id := id b; title := title b; subtitle := subtitle b;
     description := description b; language := language b;
     format := format b; status := status b; total_pages := total_pages b;
     current_page := current_page b; published_year := published_year b;
     rating := v; notes := notes b; quotes := quotes b;
     location := location b; cover_url := cover_url b; isbn := isbn b;
     authors := authors b; genres := genres b |}.

Definition with_cover_url (b : Book) (v : pyval) : Book :=
  {| id := id b; title := title b; subtitle := subtitle b;
     description := description b; language := language b;
     format := format b; status := status b; total_pages := total_pages b;
     current_page := current_page b; published_year := published_year b;
     rating := rating b; notes := notes b; quotes := quotes b;
     location := location b; cover_url := v; isbn := isbn b;
     authors := authors b; genres := genres b |}.

(** The commit of a changed book object: the row under its key is the
    object. *)
Definition save_book (db : Session) (book : Book) : Session :=
  db_commit (update_book db (id book) (fun _ => book)).

(** [if book_data.auto_fetch_cover and not book_data.cover_url] *)
Definition cover_search_scheduled (book_data : BookCreate.t) : bool :=
  BookCreate.auto_fetch_cover book_data
  && negb (truthy (opt_str (BookCreate.cover_url book_data))).

(** [create_book]: the object is built from the validated data, the author
    and genre names are stripped and resolved in the order given, the
    commit writes the row, which the engine may refuse, and the stored row
    is returned. *)
Definition create_book (book_data : BookCreate.t) (db : Session)
  : answer Book * Session :=
  let book :=
    {| id := 0;
       title := BookCreate.title book_data;
       subtitle := opt_str (BookCreate.subtitle book_data);
       description := opt_str (BookCreate.description book_data);
       language := PStr (BookCreate.language book_data);
       format := PStr (format_value (BookCreate.format book_data));
       status := PStr (status_value (BookCreate.status book_data));
       total_pages := int_or_unset (BookCreate.total_pages book_data);
       current_page := PInt (BookCreate.current_page book_data);
       published_year := int_or_unset (BookCreate.published_year book_data);
       rating := int_or_unset (BookCreate.rating book_data);
       notes := opt_str (BookCreate.notes book_data);
       quotes := PList (map PStr (BookCreate.quotes book_data));
       location := opt_str (BookCreate.location book_data);
       cover_url := opt_str (BookCreate.cover_url book_data);
       isbn := opt_str (BookCreate.isbn book_data);
       authors := [];
       genres := [] |} in
  let '(book1, db1) :=
    csv_authors db book (map strip (BookCreate.authors book_data)) in
  let '(book2, db2) :=
    csv_genres db1 book1 (map strip (BookCreate.genres book_data)) in
  let '(k, db3) := db_add_book db2 book2 in
  if storable book2 then (respond (inserted k book2), db_commit db3)
  else (HTTPException 500, db).

Definition get_book (book_id : Z) (db : Session) : answer Book :=
  match stored_book db book_id with
  | Some book => respond book
  | None => HTTPException 404
  end.

(** [db.delete(book); db.commit()]: the row goes, and with it its rows of
    the two association tables; authors and genres stay. *)
Definition delete_book (book_id : Z) (db : Session) : answer unit * Session :=
  match stored_book db book_id with
  | None => (HTTPException 404, db)
  | Some _ =>
      let cur := current db in
      (Answer tt,
       db_commit
         {| committed := committed db;
            current := {| books := filter (fun b => negb (id b =? book_id))
                                          (books cur);
                          author_table := author_table cur;
                          genre_table := genre_table cur |} |})
  end.

Definition start_reading (book_id : Z) (db : Session) : answer Book * Session :=
  match stored_book db book_id with
  | None => (HTTPException 404, db)
  | Some book =>
      let book := with_status book (PStr (status_value READING)) in
      (respond book, save_book db book)
  end.

(** [rating] is the query parameter, [None] when it is not given, else
    within 1..10 by its [ge=1, le=10]. *)
Definition finish_reading (book_id : Z) (rating : option Z) (db : Session)
  : answer Book * Session :=
  match stored_book db book_id with
  | None => (HTTPException 404, db)
  | Some book =>
      let book := with_status book (PStr (status_value FINISHED)) in
      let book :=
        if truthy (total_pages book)
        then with_current_page book (total_pages book) else book in
      let book :=
        match rating with
        | Some r => if r =? 0 then book else with_rating book (PInt r)
        | None => book
        end in
      (respond book, save_book db book)
  end.

(** [v == s] for a string [s]. *)
Definition is_str (v : pyval) (s : text) : bool :=
  match v with PStr x => text_eqb x s | _ => false end.

(** [n >= v] for an integer [n]: exact against a float, and a [TypeError]
    ([None]) against what is not a number. *)
Definition int_ge (n : Z) (v : pyval) : option bool :=
  match v with
  | PInt m => Some (m <=? n)
  | PBool b => Some ((if b then 1 else 0) <=? n)
  | PFloat f =>
      Some match Prim2SF f with
           | S754_nan => false
           | S754_infinity negative => negative
           | _ => match float_value f with
                  | Some q => Qle_bool q (inject_Z n)
                  | None => false
                  end
           end
  | _ => None
  end.

(** The body of [update_progress] on the book object; [None] when the
    comparison with [total_pages] raises. *)
Definition progress_change (current_page : Z) (book : Book) : option Book :=
  let book := with_current_page book (PInt current_page) in
  let book :=
    if is_str (status book) (status_value PLANNED) && (0 <? current_page)
    then with_status book (PStr (status_value READING)) else book in
  if truthy (total_pages book) then
    match int_ge current_page (total_pages book) with
    | Some true => Some (with_status book (PStr (status_value FINISHED)))
    | Some false => Some book
    | None => None
    end
  else Some book.

(** The commit writes [current_page], which the engine refuses outside 64
    bits. *)
Definition update_progress (book_id : Z) (current_page : Z) (db : Session)
  : answer Book * Session :=
  match stored_book db book_id with
  | None => (HTTPException 404, db)
  | Some book =>
      match progress_change current_page book with
      | Some book =>
          if int64 current_page then (respond book, save_book db book)
          else (HTTPException 500, db)
      | None => (HTTPException 500, db)
      end
  end.

(** [data] is the JSON object of the request body; the commit writes the
    cover, which the engine may refuse, and the answer carries it. *)
Definition update_book_cover (book_id : Z) (data : list (text * pyval))
                             (db : Session) : answer pyval * Session :=
  match stored_book db book_id with
  | None => (HTTPException 404, db)
  | Some book =>
      let cover_url :=
        match lookup (T "cover_url") data with Some v => v | None => PNone end in
      if negb (truthy cover_url) then (HTTPException 400, db)
      else if bindable cover_url
      then (Answer cover_url, save_book db (with_cover_url book cover_url))
      else (HTTPException 500, db)
  end.

(** ** The author and genre endpoints ([routers/authors.py],
    [routers/genres.py]) *)

(** [create_author]: the name is compared and stored as given. *)
Definition create_author (name : text) (db : Session) : answer Author * Session :=
  match find_author (current db) name with
  | Some _ => (HTTPException 400, db)
  | None =>
      let cur := current db in
      let author := {| author_id := next_id (map author_id (author_table cur));
                       author_name := name |} in
      (Answer author,
       db_commit
         {| committed := committed db;
            current := {| books := books cur;
                          author_table := author_table cur ++ [author];
                          genre_table := genre_table cur |} |})
  end.

Definition create_genre (name : text) (db : Session) : answer Genre * Session :=
  match find_genre (current db) name with
  | Some _ => (HTTPException 400, db)
  | None =>
      let cur := current db in
      let genre := {| genre_id := next_id (map genre_id (genre_table cur));
                      genre_name := name |} in
      (Answer genre,
       db_commit
         {| committed := committed db;
            current := {| books := books cur;
                          author_table := author_table cur;
                          genre_table := genre_table cur ++ [genre] |} |})
  end.

Definition get_author (k : Z) (db : Session) : answer Author :=
  match find (fun a => author_id a =? k) (author_table (current db)) with
  | Some author => Answer author
  | None => HTTPException 404
  end.

Definition get_genre (k : Z) (db : Session) : answer Genre :=
  match find (fun g => genre_id g =? k) (genre_table (current db)) with
  | Some genre => Answer genre
  | None => HTTPException 404
  end.

(** [db.delete(author); db.commit()]: the row goes, and with it its rows of
    the association table, so no book lists the author any more. *)
Definition delete_author (k : Z) (db : Session) : answer unit * Session :=
  match get_author k db with
  | HTTPException code => (HTTPException code, db)
  | Answer _ =>
      let cur := current db in
      let others := fun a => negb (author_id a =? k) in
      (Answer tt,
       db_commit
         {| committed := committed db;
            current :=
              {| books := map (fun b => with_authors b (filter others (authors b)))
                              (books cur);
                 author_table := filter others (author_table cur);
                 genre_table := genre_table cur |} |})
  end.

Definition delete_genre (k : Z) (db : Session) : answer unit * Session :=
  match get_genre k db with
  | HTTPException code => (HTTPException code, db)
  | Answer _ =>
      let cur := current db in
      let others := fun g => negb (genre_id g =? k) in
      (Answer tt,
       db_commit
         {| committed := committed db;
            current :=
              {| books := map (fun b => with_genres b (filter others (genres b)))
                              (books cur);
                 author_table := author_table cur;
                 genre_table := filter others (genre_table cur) |} |})
  end.

(** ** What the tracker import reads *)


(** The statuses the tracker vocabulary maps to. *)
Definition tracker_statuses : list text :=
  map T ["planned"; "reading"; "finished"; "on_hold"; "dropped"]%string.

(** The tracker record of the specification's scenario. *)
Definition mastrer_row : row :=
  cells [("title", "Mastrer"); ("readingStatus", "read");
         ("types", "PAPERBACK"); ("userRating", "4.5"); ("pages", "300");
         ("languages", "ru, en"); ("authors", "M. Bulgakov")]%string.

(** From [db] to [db'] the books [added] were appended, and nothing else
    happened to the book table. *)
Definition appended (db db' : Session) (added : list Book) : Prop :=
  books (current db') = books (current db) ++ added.

(** A row with a cell for every column of the header. *)
Definition complete (r : row) : Prop := Forall (fun kv => snd kv <> None) r.

(** An item of [authors] or [genres] the JSON import can take: one that is
    skipped, or a string. *)
Definition name_item_ok (v : pyval) : bool :=
  negb (truthy v) || match v with PStr _ => true | _ => false end.

(** A value of [authors] or [genres] the JSON import can take. *)
Definition names_ok (v : option pyval) : bool :=
  match v with
  | None => true
  | Some (PStr _) => true
  | Some (PList l) => forallb name_item_ok l
  | Some (PDict _) => true
  | Some _ => false
  end.

(** The JSON records that are imported: objects with a title that is a
    string and not blank, whose [authors] and [genres] can be taken. *)
Definition json_importable (d : pyval) : bool :=
  match d with
  | PDict kvs =>
      match lookup (T "title") kvs with
      | Some (PStr t) => nonempty (strip t)
      | _ => false
      end
      && names_ok (lookup (T "authors") kvs)
      && names_ok (lookup (T "genres") kvs)
  | _ => false
  end.

(** No name is listed twice.  The association tables [book_authors] and
    [book_genres] take a pair of keys once: the generic importers and
    [create_book], which do not drop a repeated name as the tracker import
    does, are followed up to the commit only on lists without one. *)
Fixpoint distinct (l : list text) : bool :=
  match l with
  | [] => true
  | x :: rest => negb (mem_text x rest) && distinct rest
  end.

(** The rows of the generic CSV form that are imported whatever the
    catalog holds: a cell for every column, a title that is not blank, no
    author and no genre listed twice, and no number outside what the engine
    keeps. *)
Definition csv_importable (r : row) : Prop :=
  complete r
  /\ exists t,
       row_get r "title" "" = Some t /\ strip t <> []
       /\ forall book au ge,
            csv_book r (strip t) = inl (book, au, ge) ->
            distinct au = true /\ distinct ge = true /\ storable book = true.

(** From [db] to [db'] nothing changed but columns of the book of key [k],
    and of these not its title, authors and genres: no book came or went,
    every other book reads as before, and the author and genre tables are
    as they were. *)
Definition same_but (k : Z) (db db' : Session) : Prop :=
  author_table (current db') = author_table (current db)
  /\ genre_table (current db') = genre_table (current db)
  /\ map id (books (current db')) = map id (books (current db))
  /\ (forall j, j <> k -> stored_book db' j = stored_book db j)
  /\ match stored_book db k, stored_book db' k with
     | Some b, Some b' =>
         title b' = title b /\ authors b' = authors b /\ genres b' = genres b
     | None, None => True
     | _, _ => False
     end.

(** The rating a request may carry, by its [ge=1, le=10]. *)
Definition rating_given (rating : option Z) : Prop :=
  match rating with Some r => 1 <= r <= 10 | None => True end.

(** ** A request to [create_book] *)

(** [{"title": "Persuasion", "authors": [" Jane Austen"], "genres":
    ["Novel", "Romance"], "rating": 8}], validated. *)
Definition persuasion_data : BookCreate.t :=
  {| BookCreate.title := T "Persuasion";
     BookCreate.subtitle := None;
     BookCreate.description := None;
     BookCreate.language := T "ru";
     BookCreate.format := PAPER;
     BookCreate.status := PLANNED;
     BookCreate.total_pages := None;
     BookCreate.current_page := 0;
     BookCreate.published_year := None;
     BookCreate.rating := Some 8;
     BookCreate.notes := None;
     BookCreate.quotes := [];
     BookCreate.location := None;
     BookCreate.cover_url := None;
     BookCreate.isbn := None;
     BookCreate.authors := [T " Jane Austen"];
     BookCreate.genres := [T "Novel"; T "Romance"];
     BookCreate.auto_fetch_cover := true |}.

(** The same request with ["auto_fetch_cover": false]. *)
Definition persuasion_as_given : BookCreate.t :=
  {| BookCreate.title := T "Persuasion";
     BookCreate.subtitle := None;
     BookCreate.description := None;
     BookCreate.language := T "ru";
     BookCreate.format := PAPER;
     BookCreate.status := PLANNED;
     BookCreate.total_pages := None;
     BookCreate.current_page := 0;
     BookCreate.published_year := None;
     BookCreate.rating := Some 8;
     BookCreate.notes := None;
     BookCreate.quotes := [];
     BookCreate.location := None;
     BookCreate.cover_url := None;
     BookCreate.isbn := None;
     BookCreate.authors := [T " Jane Austen"];
     BookCreate.genres := [T "Novel"; T "Romance"];
     BookCreate.auto_fetch_cover := false |}.

(** The requests [create_book] answers with the book: those within what
    [BookCreate] validates (a title of 1 to 500 characters, a rating of 1
    to 10), whose numbers the engine keeps, and whose author and genre
    names, once stripped, are listed once and are of the lengths the
    response model asks for. *)
Definition creatable (book_data : BookCreate.t) : bool :=
  within 1 500 (BookCreate.title book_data)
  && match BookCreate.rating book_data with
     | Some r => (1 <=? r) && (r <=? 10)
     | None => true
     end
  && bindable (int_or_unset (BookCreate.total_pages book_data))
  && int64 (BookCreate.current_page book_data)
  && bindable (int_or_unset (BookCreate.published_year book_data))
  && forallb (fun n => within 1 255 (strip n)) (BookCreate.authors book_data)
  && forallb (fun n => within 1 100 (strip n)) (BookCreate.genres book_data)
  && distinct (map strip (BookCreate.authors book_data))
  && distinct (map strip (BookCreate.genres book_data)).

(** * Properties *)

(** ** Text *)

Lemma text_eqb_eq (a b : text) : text_eqb a b = true <-> a = b.
Proof.
  revert b; induction a as [|x a IH]; intros [|y b]; simpl; split;
    try congruence; try reflexivity.
  - intros H. apply andb_true_iff in H as [Hx Hr].
    apply Z.eqb_eq in Hx. apply IH in Hr. congruence.
  - intros H. injection H as -> ->. rewrite Z.eqb_refl. simpl. now apply IH.
Qed.

Lemma text_eqb_refl (a : text) : text_eqb a a = true.
Proof. now apply text_eqb_eq. Qed.

Lemma text_eqb_neq (a b : text) : text_eqb a b = false <-> a <> b.
Proof.
  split.
  - intros H E. apply text_eqb_eq in E. congruence.
  - intros H. destruct (text_eqb a b) eqn:E; [|reflexivity].
    apply text_eqb_eq in E. contradiction.
Qed.

(** ** The record loops *)

Lemma booktracker_loop_run lower py_float n rows db res :
  booktracker_loop lower py_float n rows db res
  = run (booktracker_row lower py_float) n rows db res.
Proof.
  revert n db res; induction rows as [|r rows IH]; intros; simpl; [reflexivity|].
  destruct (booktracker_row _ _ _ _ _ _). apply IH.
Qed.

Lemma csv_loop_run n rows db res :
  csv_loop n rows db res = run csv_row n rows db res.
Proof.
  revert n db res; induction rows as [|r rows IH]; intros; simpl; [reflexivity|].
  destruct (csv_row _ _ _ _). apply IH.
Qed.

Lemma json_loop_run n records db res :
  json_loop n records db res = run json_row n records db res.
Proof.
  revert n db res; induction records as [|r rows IH]; intros; simpl; [reflexivity|].
  destruct (json_row _ _ _ _). apply IH.
Qed.

Section Run.
Context {R : Type}.
Variable step : Z -> R -> Session -> ImportResult -> Session * ImportResult.

Lemma run_cons n r rest db res :
  run step n (r :: rest) db res
  = run step (n + 1) rest (fst (step n r db res)) (snd (step n r db res)).
Proof. simpl. now destruct (step n r db res). Qed.



Lemma run_invariant (I : Session -> Prop) n records db res :
  (forall k r d s, I d -> I (fst (step k r d s))) ->
  I db -> I (fst (run step n records db res)).
Proof.
  intros Hstep. revert n db res.
  induction records as [|r rs IH]; intros n db res Hdb; simpl run; [exact Hdb|].
  specialize (Hstep n r db res Hdb).
  destruct (step n r db res) as [db' res']. now apply IH.
Qed.
End Run.






Section Counts.
  Variable lower : text -> text.
  Variable py_float : text -> option float.
  Variable decode : string -> bytes -> option text.
  Variable decode_replace : bytes -> text.
  Variable chardet_detect : bytes -> option string * float.
  Variable csv_DictReader : text -> Z -> list row * bool.
  Variable json_loads : text -> option pyval.


End Counts.


(** ** Decoding on the generic CSV path *)

Section Decoding.
Variable decode : string -> bytes -> option text.
Variable csv_DictReader : text -> Z -> list row * bool.

Lemma decode_latin1_total content : decode_latin1 content = Some content.
Proof. reflexivity. Qed.


End Decoding.



(** ** What the generic importers let through *)

(** C2.  The generic CSV and the JSON import have no duplicate-title check:
    a record titled like a stored book is imported as a second book and
    counted as a success, where the tracker import skips it. *)
Theorem C2_generic_paths_import_duplicate_title :
  title_exists dune_catalog (T "Dune") = true
  /\ fst (import_csv_rows [dune_again] false (session_on dune_catalog))
     = Result {| success := 1; failed := 0; skipped := 0; errors := [] |}
  /\ map title (books (committed
       (snd (import_csv_rows [dune_again] false (session_on dune_catalog)))))
     = [T "Dune"; T "Dune"]
  /\ fst (import_json_data (PList [obj [("title", PStr (T "Dune"))]%string])
                           (session_on dune_catalog))
     = Result {| success := 1; failed := 0; skipped := 0; errors := [] |}
  /\ map title (books (committed
       (snd (import_json_data (PList [obj [("title", PStr (T "Dune"))]%string])
                              (session_on dune_catalog)))))
     = [T "Dune"; T "Dune"]
  /\ fst (import_booktracker_rows ascii_lower decimal_float [dune_again] false
                                  (session_on dune_catalog))
     = Result {| success := 0; failed := 0; skipped := 1;
                 errors := [{| diag_label := Line; diag_position := 2;
                               diag_cause := AlreadyExists (T "Dune") |}] |}.
Proof. repeat split; vm_compute; reflexivity. Qed.

(** C3.  The generic CSV and the JSON import store the status and the format
    of the record as they come: a value outside the enumerations is
    persisted, not replaced by the default. *)
Theorem C3_generic_paths_pass_status_through :
  fst (import_csv_rows [odd_status_row] false empty_session)
  = Result {| success := 1; failed := 0; skipped := 0; errors := [] |}
  /\ map (fun b => (status b, format b))
         (books (committed
            (snd (import_csv_rows [odd_status_row] false empty_session))))
     = [(PStr (T "unknown"), PStr (T "scroll"))]
  /\ map (fun b => (status b, format b))
         (books (committed
            (snd (import_json_data
                    (PList [obj [("title", PStr (T "Solaris"));
                                 ("status", PStr (T "unknown"));
                                 ("format", PStr (T "scroll"))]%string])
                    empty_session))))
     = [(PStr (T "unknown"), PStr (T "scroll"))]
  /\ in_enum BookStatus (PStr (T "unknown")) = false
  /\ in_enum BookFormat (PStr (T "scroll")) = false.
Proof. repeat split; vm_compute; reflexivity. Qed.

(** C8.  The JSON import stores the rating of the record unchecked: 15 is
    persisted, where the two CSV imports keep a rating only within 1..10. *)
Theorem C8_json_rating_unchecked :
  fst (import_json_data (PList [rating_15]) empty_session)
  = Result {| success := 1; failed := 0; skipped := 0; errors := [] |}
  /\ map rating
         (books (committed (snd (import_json_data (PList [rating_15])
                                                  empty_session))))
     = [PInt 15]
  /\ rating_ok (PInt 15) = false
  /\ map rating
         (books (committed
            (snd (import_csv_rows
                    [cells [("title", "Solaris"); ("rating", "15")]%string]
                    false empty_session))))
     = [PNone].
Proof. repeat split; vm_compute; reflexivity. Qed.

(** ** A record that raises *)

Lemma clean_session_on s : clean (session_on s).
Proof. reflexivity. Qed.

Lemma db_rollback_clean db : clean db -> db_rollback db = db.
Proof.
  unfold clean, db_rollback. destruct db as [c cur]; simpl. now intros ->.
Qed.

Section Failure.
Variable lower : text -> text.
Variable py_float : text -> option float.


Lemma booktracker_try_clean r db o :
  clean db ->
  fst (booktracker_try lower py_float r db) = inl o ->
  clean (snd (booktracker_try lower py_float r db)).
Proof.
  intros Hc. unfold booktracker_try.
  destruct (cell_strip (row_get r "title" "")) as [title|e0]; [|discriminate].
  destruct (negb (nonempty title)); [intros _; exact Hc|].
  destruct (title_exists (current db) title); [intros _; exact Hc|].
  destruct (booktracker_book lower py_float r title) as [[[book au] ge]|e0];
    [|discriminate].
  unfold db_add_book.
  destruct (negb (storable book)); [discriminate|reflexivity].
Qed.

Lemma booktracker_row_clean n r db res :
  clean db -> clean (fst (booktracker_row lower py_float n r db res)).
Proof.
  intros Hc. unfold booktracker_row.
  pose proof (booktracker_try_clean r db) as H.
  destruct (booktracker_try lower py_float r db) as [[o|e] db']; simpl in *.
  - now apply (H o).
  - reflexivity.
Qed.



End Failure.



(** ** Author and genre resolution *)

Lemma find_author_none s name :
  find_author s name = None -> ~ In name (map author_name (author_table s)).
Proof.
  unfold find_author. intros Hf Hin.
  apply in_map_iff in Hin as [a [Ha Hin]].
  apply (find_none _ _ Hf) in Hin. apply text_eqb_neq in Hin. congruence.
Qed.

Lemma find_genre_none s name :
  find_genre s name = None -> ~ In name (map genre_name (genre_table s)).
Proof.
  unfold find_genre. intros Hf Hin.
  apply in_map_iff in Hin as [a [Ha Hin]].
  apply (find_none _ _ Hf) in Hin. apply text_eqb_neq in Hin. congruence.
Qed.

Lemma NoDup_snoc {A : Type} (l : list A) (x : A) :
  NoDup l -> ~ In x l -> NoDup (l ++ [x]).
Proof.
  intros Hl Hx. induction Hl as [|y l Hy Hl IH]; simpl.
  - constructor; [intros []|constructor].
  - constructor.
    + rewrite in_app_iff. simpl. intros [H|[H|[]]]; [contradiction|].
      subst. apply Hx. now left.
    + apply IH. intros H. apply Hx. now right.
Qed.

Lemma get_or_create_author_unique db name :
  session_unique db -> session_unique (snd (get_or_create_author db name)).
Proof.
  intros [Hc [Ha Hg]]. unfold get_or_create_author.
  destruct (find_author (current db) name) eqn:E; cbn [snd].
  - now split.
  - split; [exact Hc|]. split; cbn [current author_table genre_table]; [|exact Hg].
    rewrite map_app. simpl. apply NoDup_snoc; [assumption|].
    now apply find_author_none.
Qed.

Lemma get_or_create_genre_unique db name :
  session_unique db -> session_unique (snd (get_or_create_genre db name)).
Proof.
  intros [Hc [Ha Hg]]. unfold get_or_create_genre.
  destruct (find_genre (current db) name) eqn:E; cbn [snd].
  - now split.
  - split; [exact Hc|]. split; cbn [current author_table genre_table]; [exact Ha|].
    rewrite map_app. simpl. apply NoDup_snoc; [assumption|].
    now apply find_genre_none.
Qed.

Lemma db_add_book_unique db b :
  session_unique db -> session_unique (snd (db_add_book db b)).
Proof. intros [Hc [Ha Hg]]. split; [exact Hc|]. now split. Qed.

Lemma update_book_unique db k f :
  session_unique db -> session_unique (update_book db k f).
Proof. intros [Hc [Ha Hg]]. split; [exact Hc|]. now split. Qed.

Lemma db_commit_unique db : session_unique db -> session_unique (db_commit db).
Proof. intros [Hc Hu]. split; exact Hu. Qed.

Lemma db_rollback_unique db :
  session_unique db -> session_unique (db_rollback db).
Proof. intros [Hc Hu]. split; exact Hc. Qed.

(** An existing name is resolved to the stored entity; nothing is created. *)
Lemma get_or_create_author_existing db a :
  In a (author_table (current db)) ->
  snd (get_or_create_author db (author_name a)) = db
  /\ In (fst (get_or_create_author db (author_name a))) (author_table (current db))
  /\ author_name (fst (get_or_create_author db (author_name a))) = author_name a.
Proof.
  intros Hin. unfold get_or_create_author, find_author.
  destruct (find _ (author_table (current db))) as [a'|] eqn:E; simpl.
  - apply find_some in E as [Hin' Hn]. apply text_eqb_eq in Hn. auto.
  - apply (find_none _ _ E) in Hin. rewrite text_eqb_refl in Hin. discriminate.
Qed.

Lemma get_or_create_genre_existing db g :
  In g (genre_table (current db)) ->
  snd (get_or_create_genre db (genre_name g)) = db
  /\ In (fst (get_or_create_genre db (genre_name g))) (genre_table (current db))
  /\ genre_name (fst (get_or_create_genre db (genre_name g))) = genre_name g.
Proof.
  intros Hin. unfold get_or_create_genre, find_genre.
  destruct (find _ (genre_table (current db))) as [g'|] eqn:E; simpl.
  - apply find_some in E as [Hin' Hn]. apply text_eqb_eq in Hn. auto.
  - apply (find_none _ _ E) in Hin. rewrite text_eqb_refl in Hin. discriminate.
Qed.

Lemma csv_authors_unique names : forall db book,
  session_unique db -> session_unique (snd (csv_authors db book names)).
Proof.
  induction names as [|n names IH]; intros db book H; simpl; [exact H|].
  pose proof (get_or_create_author_unique db n H) as H1.
  destruct (get_or_create_author db n) as [a db1]. now apply IH.
Qed.

Lemma csv_genres_unique names : forall db book,
  session_unique db -> session_unique (snd (csv_genres db book names)).
Proof.
  induction names as [|n names IH]; intros db book H; simpl; [exact H|].
  pose proof (get_or_create_genre_unique db n H) as H1.
  destruct (get_or_create_genre db n) as [a db1]. now apply IH.
Qed.

Lemma json_authors_unique names : forall db book,
  session_unique db -> session_unique (snd (json_authors db book names)).
Proof.
  induction names as [|n names IH]; intros db book H; simpl; [exact H|].
  destruct (truthy n); [|now apply IH].
  destruct (py_strip n) as [name|e]; [|exact H].
  pose proof (get_or_create_author_unique db name H) as H1.
  destruct (get_or_create_author db name) as [a db1]. now apply IH.
Qed.

Lemma json_genres_unique names : forall db book,
  session_unique db -> session_unique (snd (json_genres db book names)).
Proof.
  induction names as [|n names IH]; intros db book H; simpl; [exact H|].
  destruct (truthy n); [|now apply IH].
  destruct (py_strip n) as [name|e]; [|exact H].
  pose proof (get_or_create_genre_unique db name H) as H1.
  destruct (get_or_create_genre db name) as [a db1]. now apply IH.
Qed.

Lemma csv_row_unique n r db res :
  session_unique db -> session_unique (fst (csv_row n r db res)).
Proof.
  intros H. unfold csv_row, csv_try.
  destruct (cell_strip (row_get r "title" "")) as [title|e]; [|exact H].
  destruct (negb (nonempty title)); [exact H|].
  destruct (csv_book r title) as [[[book au] ge]|e]; [|exact H].
  pose proof (csv_authors_unique au db book H) as H1.
  destruct (csv_authors db book au) as [book1 db1].
  pose proof (csv_genres_unique ge db1 book1 H1) as H2.
  destruct (csv_genres db1 book1 ge) as [book2 db2].
  pose proof (db_add_book_unique db2 book2 H2) as H3.
  destruct (db_add_book db2 book2) as [k db3]. exact H3.
Qed.

Lemma json_row_unique i d db res :
  session_unique db -> session_unique (fst (json_row i d db res)).
Proof.
  intros H. unfold json_row, json_try.
  destruct (do t <- dict_get d "title" (PStr []); py_strip t) as [title|e];
    [|exact H].
  destruct (negb (nonempty title)); [exact H|].
  destruct (json_book d title) as [book|e]; [|exact H].
  destruct (names_of d "authors") as [au|e]; [|exact H].
  pose proof (json_authors_unique au db book H) as H1.
  destruct (json_authors db book au) as [[book1|e] db1]; [|exact H1].
  destruct (names_of d "genres") as [ge|e]; [|exact H1].
  pose proof (json_genres_unique ge db1 book1 H1) as H2.
  destruct (json_genres db1 book1 ge) as [[book2|e] db2]; [|exact H2].
  pose proof (db_add_book_unique db2 book2 H2) as H3.
  destruct (db_add_book db2 book2) as [k db3]. exact H3.
Qed.

(** *** Stripping is idempotent *)

Lemma lstrip_length s : (List.length (lstrip s) <= List.length s)%nat.
Proof. induction s as [|c s IH]; simpl; [lia|]. destruct (is_space c); simpl; lia. Qed.

Lemma lstrip_idem s : lstrip (lstrip s) = lstrip s.
Proof.
  induction s as [|c s IH]; simpl; [reflexivity|].
  destruct (is_space c) eqn:E; [exact IH|]. simpl. now rewrite E.
Qed.

Lemma lstrip_fixed_head c r : lstrip (c :: r) = c :: r -> is_space c = false.
Proof.
  simpl. destruct (is_space c); [|reflexivity].
  intros H. pose proof (lstrip_length r) as L. rewrite H in L. simpl in L. lia.
Qed.

Lemma lstrip_snoc u c : is_space c = false -> lstrip (u ++ [c]) = lstrip u ++ [c].
Proof.
  intros Hc. induction u as [|x u IH]; simpl.
  - now rewrite Hc.
  - destruct (is_space x); [exact IH|reflexivity].
Qed.

Lemma rstrip_idem s : rstrip (rstrip s) = rstrip s.
Proof. unfold rstrip. now rewrite rev_involutive, lstrip_idem. Qed.

Lemma lstrip_rstrip t : lstrip t = t -> lstrip (rstrip t) = rstrip t.
Proof.
  destruct t as [|c r]; [reflexivity|]. intros H.
  pose proof (lstrip_fixed_head c r H) as Hc.
  unfold rstrip. simpl rev. rewrite (lstrip_snoc _ _ Hc), rev_app_distr.
  simpl. now rewrite Hc.
Qed.

Lemma strip_idem s : strip (strip s) = strip s.
Proof.
  unfold strip. rewrite (lstrip_rstrip (lstrip s) (lstrip_idem s)).
  apply rstrip_idem.
Qed.

Lemma split_names_stripped s : Forall stripped (split_names s).
Proof.
  unfold split_names. apply Forall_forall. intros x Hx.
  apply filter_In in Hx as [Hx _]. apply in_map_iff in Hx as [y [<- _]].
  apply strip_idem.
Qed.

Lemma cell_split_names_stripped x l :
  cell_split_names x = inl l -> Forall stripped l.
Proof.
  destruct x; simpl; [|discriminate]. intros H. injection H as <-.
  apply split_names_stripped.
Qed.

(** *** Imports create trimmed names only *)

Lemma get_or_create_author_stripped db name :
  stripped name -> session_stripped db ->
  session_stripped (snd (get_or_create_author db name)).
Proof.
  intros Hn [Hc [Ha Hg]]. unfold get_or_create_author.
  destruct (find_author (current db) name); cbn [snd]; [now split|].
  split; [exact Hc|]. split; cbn [current author_table genre_table]; [|exact Hg].
  rewrite map_app. apply Forall_app. split; [exact Ha|]. now constructor.
Qed.

Lemma get_or_create_genre_stripped db name :
  stripped name -> session_stripped db ->
  session_stripped (snd (get_or_create_genre db name)).
Proof.
  intros Hn [Hc [Ha Hg]]. unfold get_or_create_genre.
  destruct (find_genre (current db) name); cbn [snd]; [now split|].
  split; [exact Hc|]. split; cbn [current author_table genre_table]; [exact Ha|].
  rewrite map_app. apply Forall_app. split; [exact Hg|]. now constructor.
Qed.

Lemma csv_authors_stripped names : forall db book,
  Forall stripped names -> session_stripped db ->
  session_stripped (snd (csv_authors db book names)).
Proof.
  induction names as [|n names IH]; intros db book Hn H; simpl; [exact H|].
  inversion Hn as [|? ? Hs Hrest]; subst.
  pose proof (get_or_create_author_stripped db n Hs H) as H1.
  destruct (get_or_create_author db n) as [a db1]. now apply IH.
Qed.

Lemma csv_genres_stripped names : forall db book,
  Forall stripped names -> session_stripped db ->
  session_stripped (snd (csv_genres db book names)).
Proof.
  induction names as [|n names IH]; intros db book Hn H; simpl; [exact H|].
  inversion Hn as [|? ? Hs Hrest]; subst.
  pose proof (get_or_create_genre_stripped db n Hs H) as H1.
  destruct (get_or_create_genre db n) as [a db1]. now apply IH.
Qed.

Lemma py_strip_stripped v name : py_strip v = inl name -> stripped name.
Proof.
  destruct v; simpl; try discriminate. intros H. injection H as <-.
  apply strip_idem.
Qed.

Lemma json_authors_stripped names : forall db book,
  session_stripped db -> session_stripped (snd (json_authors db book names)).
Proof.
  induction names as [|n names IH]; intros db book H; simpl; [exact H|].
  destruct (truthy n); [|now apply IH].
  destruct (py_strip n) as [name|e] eqn:E; [|exact H].
  pose proof (get_or_create_author_stripped db name (py_strip_stripped _ _ E) H)
    as H1.
  destruct (get_or_create_author db name) as [a db1]. now apply IH.
Qed.

Lemma json_genres_stripped names : forall db book,
  session_stripped db -> session_stripped (snd (json_genres db book names)).
Proof.
  induction names as [|n names IH]; intros db book H; simpl; [exact H|].
  destruct (truthy n); [|now apply IH].
  destruct (py_strip n) as [name|e] eqn:E; [|exact H].
  pose proof (get_or_create_genre_stripped db name (py_strip_stripped _ _ E) H)
    as H1.
  destruct (get_or_create_genre db name) as [a db1]. now apply IH.
Qed.

Lemma csv_book_names r t book au ge :
  csv_book r t = inl (book, au, ge) -> Forall stripped au /\ Forall stripped ge.
Proof.
  unfold csv_book.
  destruct (cell_split_names (cell_or (row_get r "authors" "") _))
    as [au'|] eqn:Ea; [|discriminate].
  destruct (cell_split_names (cell_or (row_get r "genres" "") _))
    as [ge'|] eqn:Eg; [|discriminate].
  rest_of_chain. intros H. injection H as _ <- <-.
  split; eapply cell_split_names_stripped; eassumption.
Qed.

Lemma csv_row_stripped n r db res :
  session_stripped db -> session_stripped (fst (csv_row n r db res)).
Proof.
  intros H. unfold csv_row, csv_try.
  destruct (cell_strip (row_get r "title" "")) as [title|e]; [|exact H].
  destruct (negb (nonempty title)); [exact H|].
  destruct (csv_book r title) as [[[book au] ge]|e] eqn:E; [|exact H].
  apply csv_book_names in E as [Hau Hge].
  pose proof (csv_authors_stripped au db book Hau H) as H1.
  destruct (csv_authors db book au) as [book1 db1].
  pose proof (csv_genres_stripped ge db1 book1 Hge H1) as H2.
  destruct (csv_genres db1 book1 ge) as [book2 db2].
  destruct H2 as [Hc Hu]. split; [exact Hc|exact Hu].
Qed.

Lemma json_row_stripped i d db res :
  session_stripped db -> session_stripped (fst (json_row i d db res)).
Proof.
  intros H. unfold json_row, json_try.
  destruct (do t <- dict_get d "title" (PStr []); py_strip t) as [title|e];
    [|exact H].
  destruct (negb (nonempty title)); [exact H|].
  destruct (json_book d title) as [book|e]; [|exact H].
  destruct (names_of d "authors") as [au|e]; [|exact H].
  pose proof (json_authors_stripped au db book H) as H1.
  destruct (json_authors db book au) as [[book1|e] db1]; [|exact H1].
  destruct (names_of d "genres") as [ge|e]; [|exact H1].
  pose proof (json_genres_stripped ge db1 book1 H1) as H2.
  destruct (json_genres db1 book1 ge) as [[book2|e] db2]; [|exact H2].
  destruct H2 as [Hc Hu]. split; [exact Hc|exact Hu].
Qed.

Section Resolution.
Variable lower : text -> text.
Variable py_float : text -> option float.

Lemma booktracker_authors_unique names : forall db k seen,
  session_unique db ->
  session_unique (booktracker_authors lower db k seen names).
Proof.
  induction names as [|n names IH]; intros db k seen H; simpl; [exact H|].
  destruct (nonempty (strip (lower n)) && negb (mem_text (strip (lower n)) seen));
    [|now apply IH].
  pose proof (get_or_create_author_unique db n H) as H1.
  destruct (get_or_create_author db n) as [a db1]. apply IH.
  destruct (stored_book db1 k) as [b|]; [|exact H1].
  destruct (has_author b a); [exact H1|]. now apply update_book_unique.
Qed.

Lemma booktracker_genres_unique names : forall db k seen,
  session_unique db ->
  session_unique (booktracker_genres lower db k seen names).
Proof.
  induction names as [|n names IH]; intros db k seen H; simpl; [exact H|].
  destruct (nonempty (strip (lower n)) && negb (mem_text (strip (lower n)) seen));
    [|now apply IH].
  pose proof (get_or_create_genre_unique db n H) as H1.
  destruct (get_or_create_genre db n) as [a db1]. apply IH.
  destruct (stored_book db1 k) as [b|]; [|exact H1].
  destruct (has_genre b a); [exact H1|]. now apply update_book_unique.
Qed.

Lemma booktracker_row_unique n r db res :
  session_unique db ->
  session_unique (fst (booktracker_row lower py_float n r db res)).
Proof.
  intros H. unfold booktracker_row, booktracker_try.
  destruct (cell_strip (row_get r "title" "")) as [title|e];
    [|now apply db_rollback_unique].
  destruct (negb (nonempty title)); [exact H|].
  destruct (title_exists (current db) title); [exact H|].
  destruct (booktracker_book lower py_float r title) as [[[book au] ge]|e];
    [|now apply db_rollback_unique].
  pose proof (db_add_book_unique db book H) as H1.
  destruct (db_add_book db book) as [k db1].
  destruct (negb (storable book)); [now apply db_rollback_unique|]. simpl.
  apply db_commit_unique.
  now apply booktracker_genres_unique, booktracker_authors_unique.
Qed.

Lemma booktracker_authors_stripped names : forall db k seen,
  Forall stripped names -> session_stripped db ->
  session_stripped (booktracker_authors lower db k seen names).
Proof.
  induction names as [|n names IH]; intros db k seen Hn H; simpl; [exact H|].
  inversion Hn as [|? ? Hs Hrest]; subst.
  destruct (nonempty (strip (lower n)) && negb (mem_text (strip (lower n)) seen));
    [|now apply IH].
  pose proof (get_or_create_author_stripped db n Hs H) as H1.
  destruct (get_or_create_author db n) as [a db1]. apply IH; [exact Hrest|].
  destruct (stored_book db1 k) as [b|]; [|exact H1].
  destruct (has_author b a); [exact H1|].
  destruct H1 as [Hc Hu]. split; [exact Hc|exact Hu].
Qed.

Lemma booktracker_genres_stripped names : forall db k seen,
  Forall stripped names -> session_stripped db ->
  session_stripped (booktracker_genres lower db k seen names).
Proof.
  induction names as [|n names IH]; intros db k seen Hn H; simpl; [exact H|].
  inversion Hn as [|? ? Hs Hrest]; subst.
  destruct (nonempty (strip (lower n)) && negb (mem_text (strip (lower n)) seen));
    [|now apply IH].
  pose proof (get_or_create_genre_stripped db n Hs H) as H1.
  destruct (get_or_create_genre db n) as [a db1]. apply IH; [exact Hrest|].
  destruct (stored_book db1 k) as [b|]; [|exact H1].
  destruct (has_genre b a); [exact H1|].
  destruct H1 as [Hc Hu]. split; [exact Hc|exact Hu].
Qed.

Lemma booktracker_book_names r t book au ge :
  booktracker_book lower py_float r t = inl (book, au, ge) ->
  Forall stripped au /\ Forall stripped ge.
Proof.
  unfold booktracker_book.
  destruct (cell_split_names (row_get r "authors" "")) as [au'|] eqn:Ea;
    [|discriminate].
  destruct (cell_split_names (cell_or (row_get r "categories" "") _))
    as [ge'|] eqn:Eg; [|discriminate].
  rest_of_chain. intros H. injection H as _ <- <-.
  split; eapply cell_split_names_stripped; eassumption.
Qed.

Lemma booktracker_row_stripped n r db res :
  session_stripped db ->
  session_stripped (fst (booktracker_row lower py_float n r db res)).
Proof.
  intros H. unfold booktracker_row, booktracker_try.
  destruct (cell_strip (row_get r "title" "")) as [title|e];
    [|destruct H as [Hc _]; now split].
  destruct (negb (nonempty title)); [exact H|].
  destruct (title_exists (current db) title); [exact H|].
  destruct (booktracker_book lower py_float r title) as [[[book au] ge]|e] eqn:E;
    [|destruct H as [Hc _]; now split].
  apply booktracker_book_names in E as [Hau Hge].
  assert (H1 : session_stripped (snd (db_add_book db book))).
  { destruct H as [Hc Hu]. split; [exact Hc|exact Hu]. }
  destruct (db_add_book db book) as [k db1]. cbn [fst snd] in *.
  destruct (negb (storable book)); cbn [fst];
    [destruct H1 as [Hc _]; now split|].
  pose proof (booktracker_genres_stripped ge _ k [] Hge
                (booktracker_authors_stripped au db1 k [] Hau H1)) as [_ Hu].
  split; exact Hu.
Qed.

(** C7, as the code has it.  A name is resolved by exact comparison with
    the stored names: a name that is stored resolves to the stored entity
    and nothing is created.  No import path ever leaves two authors or two
    genres of the same name, and the names an import stores have no
    surrounding whitespace: where the stored names have none, they still
    have none after the import. *)
Theorem C7_names_resolved_by_exact_match :
  (forall db a,
      In a (author_table (current db)) ->
      snd (get_or_create_author db (author_name a)) = db
      /\ In (fst (get_or_create_author db (author_name a)))
            (author_table (current db))
      /\ author_name (fst (get_or_create_author db (author_name a)))
         = author_name a)
  /\ (forall db g,
         In g (genre_table (current db)) ->
         snd (get_or_create_genre db (genre_name g)) = db
         /\ In (fst (get_or_create_genre db (genre_name g)))
               (genre_table (current db))
         /\ genre_name (fst (get_or_create_genre db (genre_name g)))
            = genre_name g)
  /\ (forall n rows db res,
         (session_unique db ->
          session_unique (fst (booktracker_loop lower py_float n rows db res)))
         /\ (session_stripped db ->
             session_stripped
               (fst (booktracker_loop lower py_float n rows db res))))
  /\ (forall n rows db res,
         (session_unique db -> session_unique (fst (csv_loop n rows db res)))
         /\ (session_stripped db ->
             session_stripped (fst (csv_loop n rows db res))))
  /\ (forall i records db res,
         (session_unique db ->
          session_unique (fst (json_loop i records db res)))
         /\ (session_stripped db ->
             session_stripped (fst (json_loop i records db res)))).
Proof.
  repeat match goal with |- _ /\ _ => split end.
  - apply get_or_create_author_existing.
  - apply get_or_create_genre_existing.
  - intros n rows db res. rewrite booktracker_loop_run.
    split; intros H; (apply run_invariant; [|exact H]); intros.
    + now apply booktracker_row_unique.
    + now apply booktracker_row_stripped.
  - intros n rows db res. rewrite csv_loop_run.
    split; intros H; (apply run_invariant; [|exact H]); intros.
    + now apply csv_row_unique.
    + now apply csv_row_stripped.
  - intros i records db res. rewrite json_loop_run.
    split; intros H; (apply run_invariant; [|exact H]); intros.
    + now apply json_row_unique.
    + now apply json_row_stripped.
Qed.

End Resolution.

(** With the author [Alice] stored, each import path creates a second
    author [alice]. *)
Lemma C7_counterexample :
  map author_name (author_table (current (session_on dune_catalog)))
  = [T "Alice"]
  /\ ascii_lower (T "Alice") = ascii_lower (T "alice")
  /\ map author_name
       (author_table (committed
          (snd (import_json_data (PList [by_lowercase_alice])
                                 (session_on dune_catalog)))))
     = [T "Alice"; T "alice"]
  /\ map author_name
       (author_table (committed
          (snd (import_csv_rows
                  [cells [("title", "Emma"); ("authors", "alice")]%string]
                  false (session_on dune_catalog)))))
     = [T "Alice"; T "alice"]
  /\ map author_name
       (author_table (committed
          (snd (import_booktracker_rows ascii_lower decimal_float
                  [cells [("title", "Emma"); ("authors", "alice")]%string]
                  false (session_on dune_catalog)))))
     = [T "Alice"; T "alice"].
Proof. repeat split; vm_compute; reflexivity. Qed.

Lemma dune_catalog_unique : session_unique (session_on dune_catalog).
Proof.
  assert (H : names_unique dune_catalog).
  { split; simpl; repeat constructor. intros []. }
  split; exact H.
Qed.

Lemma dune_catalog_stripped : session_stripped (session_on dune_catalog).
Proof.
  assert (H : names_stripped dune_catalog).
  { split; simpl; repeat constructor. }
  split; exact H.
Qed.

Lemma C7_witness :
  session_unique
    (fst (json_loop 0 [by_lowercase_alice; by_lowercase_alice]
                    (session_on dune_catalog) new_result))
  /\ session_stripped
       (fst (json_loop 0 [by_lowercase_alice; by_lowercase_alice]
                       (session_on dune_catalog) new_result)).
Proof.
  destruct (C7_names_resolved_by_exact_match ascii_lower decimal_float)
    as (_ & _ & _ & _ & H).
  destruct (H 0 [by_lowercase_alice; by_lowercase_alice]
              (session_on dune_catalog) new_result) as [Hu Hs].
  split.
  - apply Hu. exact dune_catalog_unique.
  - apply Hs. exact dune_catalog_stripped.
Defined.

(** ** A single string for [authors] or [genres] in a JSON record *)

Lemma get_or_create_author_spec db name :
  author_name (fst (get_or_create_author db name)) = name
  /\ In (fst (get_or_create_author db name))
        (author_table (current (snd (get_or_create_author db name))))
  /\ books (current (snd (get_or_create_author db name))) = books (current db)
  /\ genre_table (current (snd (get_or_create_author db name)))
     = genre_table (current db)
  /\ incl (author_table (current db))
          (author_table (current (snd (get_or_create_author db name)))).
Proof.
  unfold get_or_create_author, find_author.
  destruct (find _ (author_table (current db))) as [a|] eqn:E; simpl.
  - apply find_some in E as [Hin Hn]. apply text_eqb_eq in Hn.
    repeat split; auto. apply incl_refl.
  - repeat split; auto.
    + apply in_or_app. right. now left.
    + apply incl_appl, incl_refl.
Qed.

Lemma get_or_create_genre_spec db name :
  genre_name (fst (get_or_create_genre db name)) = name
  /\ In (fst (get_or_create_genre db name))
        (genre_table (current (snd (get_or_create_genre db name))))
  /\ books (current (snd (get_or_create_genre db name))) = books (current db)
  /\ author_table (current (snd (get_or_create_genre db name)))
     = author_table (current db)
  /\ incl (genre_table (current db))
          (genre_table (current (snd (get_or_create_genre db name)))).
Proof.
  unfold get_or_create_genre, find_genre.
  destruct (find _ (genre_table (current db))) as [a|] eqn:E; simpl.
  - apply find_some in E as [Hin Hn]. apply text_eqb_eq in Hn.
    repeat split; auto. apply incl_refl.
  - repeat split; auto.
    + apply in_or_app. right. now left.
    + apply incl_appl, incl_refl.
Qed.


Lemma nonempty_true s : s <> [] -> nonempty s = true.
Proof. now destruct s. Qed.






(** ** The rating of a tracker record *)

(** [int(f)] is the integer part of the number [f] stands for. *)
Lemma int_of_float_truncates f q :
  float_value f = Some q -> int_of_float f = inl (truncate q).
Proof.
  unfold float_value, int_of_float, truncate.
  destruct (Prim2SF f) as [s| s| |s m e]; try discriminate.
  - intros H. injection H as <-. reflexivity.
  - intros H. injection H as <-.
    destruct (0 <=? e) eqn:He.
    + cbn [Qnum Qden inject_Z]. rewrite Z.quot_1_r.
      destruct s; [|reflexivity]. f_equal.
      change (Z.neg m) with (- Z.pos m). lia.
    + cbn [Qnum Qden]. apply Z.leb_gt in He.
      assert (Hp : 0 < 2 ^ (- e)) by (apply Z.pow_pos_nonneg; lia).
      rewrite Z2Pos.id by exact Hp.
      destruct s.
      * change (Z.neg m) with (- Z.pos m).
        rewrite Z.quot_opp_l by lia.
        rewrite Z.quot_div_nonneg by lia. reflexivity.
      * rewrite Z.quot_div_nonneg by lia. reflexivity.
Qed.

(** C5, as the code has it.  For a parsed rating [r]: the value worked on is
    [r * 2] when [r <= 5] and [r] otherwise; its integer part (rounding
    toward zero, not to the nearest integer) is stored if it lies in
    [1,10]; otherwise the rating is left unset, and so it is for a NaN; an
    infinite value makes the block raise.  4.5 gives 9 and 7 gives 7. *)
Theorem C5_rating_is_truncated :
  forall (py_float : text -> option float) rating_str r,
    rating_str <> [] ->
    py_float rating_str = Some r ->
    booktracker_rating py_float rating_str
    = match float_value (scaled r) with
      | Some q =>
          inl (if (1 <=? truncate q) && (truncate q <=? 10)
               then PInt (truncate q) else PNone)
      | None =>
          match Prim2SF (scaled r) with
          | S754_nan => inl PNone
          | _ => inr OverflowError
          end
      end
    /\ rescale_rating 4.5%float = inl 9
    /\ rescale_rating 7%float = inl 7.
Proof.
  intros py_float rating_str r Hne Hr.
  split; [|split; vm_compute; reflexivity].
  unfold booktracker_rating. rewrite (nonempty_true _ Hne), Hr.
  replace (rescale_rating r) with (int_of_float (scaled r))
    by (unfold rescale_rating, scaled; now destruct (PrimFloat.leb r 5)).
  destruct (float_value (scaled r)) as [q|] eqn:Hq.
  - now rewrite (int_of_float_truncates _ _ Hq).
  - unfold float_value in Hq. unfold int_of_float.
    destruct (Prim2SF (scaled r)); try discriminate; reflexivity.
Qed.

Lemma C5_witness :
  booktracker_rating decimal_float (T "4.5")
  = match float_value (scaled 4.5%float) with
    | Some q =>
        inl (if (1 <=? truncate q) && (truncate q <=? 10)
             then PInt (truncate q) else PNone)
    | None =>
        match Prim2SF (scaled 4.5%float) with
        | S754_nan => inl PNone
        | _ => inr OverflowError
        end
    end
  /\ rescale_rating 4.5%float = inl 9
  /\ rescale_rating 7%float = inl 7.
Proof.
  apply (C5_rating_is_truncated decimal_float (T "4.5") 4.5%float).
  - vm_compute. discriminate.
  - vm_compute. reflexivity.
Defined.

(** A rating of 4.875 is doubled to 9.75 and stored as 9, which is not the
    integer nearest to 9.75; a rating of 7.5 is stored as 7, not as it is;
    an infinite rating is not left unset, the block raises. *)
Lemma C5_counterexample :
  rescale_rating 4.875%float = inl 9
  /\ option_map Qred (float_value (PrimFloat.mul 4.875%float 2%float))
     = Some (39 # 4)%Q
  /\ ~ spec_nearest_integer (39 # 4)%Q 9
  /\ rescale_rating 7.5%float = inl 7
  /\ rescale_rating infinity = inr OverflowError.
Proof.
  repeat split; try (vm_compute; reflexivity).
  intros H. specialize (H 10). vm_compute in H. apply H. reflexivity.
Qed.

(** ** What the generic imports commit *)

Lemma get_or_create_author_books db name :
  books (current (snd (get_or_create_author db name))) = books (current db)
  /\ committed (snd (get_or_create_author db name)) = committed db.
Proof.
  unfold get_or_create_author.
  destruct (find_author (current db) name); now split.
Qed.

Lemma get_or_create_genre_books db name :
  books (current (snd (get_or_create_genre db name))) = books (current db)
  /\ committed (snd (get_or_create_genre db name)) = committed db.
Proof.
  unfold get_or_create_genre.
  destruct (find_genre (current db) name); now split.
Qed.

Lemma json_authors_committed names : forall db book,
  committed (snd (json_authors db book names)) = committed db.
Proof.
  induction names as [|n names IH]; intros db book; simpl; [reflexivity|].
  destruct (truthy n); [|apply IH].
  destruct (py_strip n) as [name|e]; [|reflexivity].
  pose proof (get_or_create_author_books db name) as [_ H].
  destruct (get_or_create_author db name) as [a db1]. cbn [snd] in H.
  now rewrite IH.
Qed.

Lemma json_genres_committed names : forall db book,
  committed (snd (json_genres db book names)) = committed db.
Proof.
  induction names as [|n names IH]; intros db book; simpl; [reflexivity|].
  destruct (truthy n); [|apply IH].
  destruct (py_strip n) as [name|e]; [|reflexivity].
  pose proof (get_or_create_genre_books db name) as [_ H].
  destruct (get_or_create_genre db name) as [a db1]. cbn [snd] in H.
  now rewrite IH.
Qed.

Lemma csv_authors_committed names : forall db book,
  committed (snd (csv_authors db book names)) = committed db.
Proof.
  induction names as [|n names IH]; intros db book; cbn [csv_authors];
    [reflexivity|].
  pose proof (get_or_create_author_books db n) as [_ H].
  destruct (get_or_create_author db n) as [a db1]. cbn [snd] in H.
  now rewrite IH.
Qed.

Lemma csv_genres_committed names : forall db book,
  committed (snd (csv_genres db book names)) = committed db.
Proof.
  induction names as [|n names IH]; intros db book; cbn [csv_genres];
    [reflexivity|].
  pose proof (get_or_create_genre_books db n) as [_ H].
  destruct (get_or_create_genre db n) as [a db1]. cbn [snd] in H.
  now rewrite IH.
Qed.

Lemma csv_row_committed n r db res :
  committed (fst (csv_row n r db res)) = committed db.
Proof.
  unfold csv_row, csv_try.
  destruct (cell_strip (row_get r "title" "")) as [title|e]; [|reflexivity].
  destruct (negb (nonempty title)); [reflexivity|].
  destruct (csv_book r title) as [[[book au] ge]|e]; [|reflexivity].
  pose proof (csv_authors_committed au db book) as A.
  destruct (csv_authors db book au) as [book1 db1]. cbn [snd] in A.
  pose proof (csv_genres_committed ge db1 book1) as G.
  destruct (csv_genres db1 book1 ge) as [book2 db2]. cbn [snd] in G.
  cbn. congruence.
Qed.

Lemma json_row_committed i d db res :
  committed (fst (json_row i d db res)) = committed db.
Proof.
  unfold json_row, json_try.
  destruct (do t <- dict_get d "title" (PStr []); py_strip t) as [title|e];
    [|reflexivity].
  destruct (negb (nonempty title)); [reflexivity|].
  destruct (json_book d title) as [book|e]; [|reflexivity].
  destruct (names_of d "authors") as [au|e]; [|reflexivity].
  pose proof (json_authors_committed au db book) as A.
  destruct (json_authors db book au) as [[book1|e] db1]; cbn [snd] in A;
    [|exact A].
  destruct (names_of d "genres") as [ge|e]; [|exact A].
  pose proof (json_genres_committed ge db1 book1) as G.
  destruct (json_genres db1 book1 ge) as [[book2|e] db2]; cbn [snd] in G;
    cbn; congruence.
Qed.

Lemma csv_loop_committed rows : forall n db res,
  committed (fst (csv_loop n rows db res)) = committed db.
Proof.
  induction rows as [|r rows IH]; intros n db res; cbn [csv_loop];
    [reflexivity|].
  pose proof (csv_row_committed n r db res) as H.
  destruct (csv_row n r db res) as [db' res']. cbn [fst] in H.
  now rewrite IH.
Qed.

Lemma json_loop_committed records : forall i db res,
  committed (fst (json_loop i records db res)) = committed db.
Proof.
  induction records as [|d records IH]; intros i db res; cbn [json_loop];
    [reflexivity|].
  pose proof (json_row_committed i d db res) as H.
  destruct (json_row i d db res) as [db' res']. cbn [fst] in H.
  now rewrite IH.
Qed.

(** ** Export followed by import *)

Lemma split_on_no_sep sep s : ~ In sep s -> split_on sep s = [s].
Proof.
  induction s as [|c s IH]; intros H; simpl; [reflexivity|].
  destruct (Z.eqb_spec c sep) as [->|Hc].
  - exfalso. apply H. now left.
  - rewrite IH; [reflexivity|]. intros Hin. apply H. now right.
Qed.

Lemma split_on_app sep s rest :
  ~ In sep s -> split_on sep (s ++ sep :: rest) = s :: split_on sep rest.
Proof.
  induction s as [|c s IH]; intros H; simpl.
  - now rewrite Z.eqb_refl.
  - destruct (Z.eqb_spec c sep) as [->|Hc].
    + exfalso. apply H. now left.
    + rewrite IH; [reflexivity|]. intros Hin. apply H. now right.
Qed.

Lemma split_on_space_cons s :
  split_on comma (32 :: s)
  = match split_on comma s with
    | w :: ws => (32 :: w) :: ws
    | [] => [[32]]
    end.
Proof. reflexivity. Qed.

(** What [split(',')] makes of [", ".join(names)]: the first name, and the
    others behind a space. *)
Lemma split_join names :
  Forall (fun s => ~ In comma s) names ->
  split_on comma (join (T ", ") names)
  = match names with
    | [] => [[]]
    | a :: rest => a :: map (cons 32) rest
    end.
Proof.
  change (T ", ") with [44; 32].
  induction 1 as [|a rest Ha Hrest IH]; [reflexivity|].
  destruct rest as [|b rest].
  - simpl. now apply split_on_no_sep.
  - change (join [44; 32] (a :: b :: rest))
      with (a ++ 44 :: 32 :: join [44; 32] (b :: rest)).
    rewrite (split_on_app comma a _ Ha), split_on_space_cons, IH.
    reflexivity.
Qed.

Lemma strip_space_cons s : strip (32 :: s) = strip s.
Proof. reflexivity. Qed.

Lemma split_names_join names :
  Forall csv_name names -> split_names (join (T ", ") names) = names.
Proof.
  intros H. unfold split_names. rewrite split_join.
  - destruct H as [|a rest [[Hne Hs] Hc] Hrest]; [reflexivity|].
    cbn [map filter]. rewrite Hs, (nonempty_true _ Hne). f_equal.
    induction Hrest as [|b rest [[Hbne Hbs] Hbc] Hrest IH]; [reflexivity|].
    cbn [map filter]. rewrite strip_space_cons, Hbs, (nonempty_true _ Hbne).
    f_equal. exact IH.
  - eapply Forall_impl; [|exact H]. intros s [_ Hc]. exact Hc.
Qed.

Lemma digit_of_ascii c : ascii_digit c -> digit_of c = Some (c - 48).
Proof.
  intros H. unfold digit_of. cbn [decimal_zeros find].
  replace ((48 <=? c) && (c <? 48 + 10)) with true; [reflexivity|].
  symmetry. apply andb_true_iff. split; [apply Z.leb_le|apply Z.ltb_lt];
    unfold ascii_digit in H; lia.
Qed.

Lemma digits_from_ascii ds : forall acc,
  Forall ascii_digit ds ->
  digits_from acc ds = Some (fold_left (fun a c => 10 * a + (c - 48)) ds acc).
Proof.
  induction ds as [|c ds IH]; intros acc H; [reflexivity|].
  inversion H as [|? ? Hc Hds]; subst.
  cbn [digits_from fold_left]. rewrite (digit_of_ascii c Hc). now apply IH.
Qed.

Lemma pos_digits_spec fuel : forall n acc k,
  0 <= n -> (1 <= k <= fuel)%nat -> n < 10 ^ Z.of_nat k ->
  exists c ds,
    pos_digits fuel n acc = (c :: ds) ++ acc
    /\ Forall ascii_digit (c :: ds)
    /\ fold_left (fun a c => 10 * a + (c - 48)) (c :: ds) 0 = n
    /\ (List.length (c :: ds) <= k)%nat.
Proof.
  induction fuel as [|fuel IH]; intros n acc k Hn Hk Hp; [lia|].
  cbn [pos_digits]. destruct (Z.ltb_spec n 10) as [Hlt|Hge].
  - exists (48 + n), []. split; [reflexivity|]. split; [|split].
    + constructor; [unfold ascii_digit; lia|constructor].
    + cbn [fold_left]. lia.
    + cbn [List.length]. lia.
  - destruct k as [|[|k]]; [lia|change (10 ^ Z.of_nat 1) with 10 in Hp; lia|].
    destruct (IH (n / 10) ((48 + n mod 10) :: acc) (S k)) as (c & ds & E & F & V & L).
    + apply Z.div_pos; lia.
    + lia.
    + apply Z.div_lt_upper_bound; [lia|].
      replace (Z.of_nat (S (S k))) with (Z.of_nat (S k) + 1) in Hp by lia.
      rewrite Z.pow_add_r, Z.pow_1_r in Hp by lia. lia.
    + exists c, (ds ++ [48 + n mod 10]). rewrite E.
      split; [|split; [|split]].
      * cbn [app]. rewrite <- app_assoc. reflexivity.
      * rewrite app_comm_cons. apply Forall_app. split; [exact F|].
        constructor; [|constructor].
        assert (0 <= n mod 10 < 10) by (apply Z.mod_pos_bound; lia).
        unfold ascii_digit. lia.
      * rewrite app_comm_cons, fold_left_app, V. cbn [fold_left].
        rewrite (Z.div_mod n 10) at 3 by lia. lia.
      * rewrite app_comm_cons, length_app. cbn [List.length] in *. lia.
Qed.

Lemma enough_digits m fuel :
  0 <= m < 2 ^ 63 -> m <= Z.of_nat fuel ->
  m < 10 ^ Z.of_nat (Nat.min 19 fuel).
Proof.
  intros Hm Hf. destruct (Nat.min_spec 19 fuel) as [[_ ->]|[_ ->]].
  - assert (2 ^ 63 < 10 ^ Z.of_nat 19) by reflexivity. lia.
  - assert (Z.of_nat fuel < 10 ^ Z.of_nat fuel)
      by (apply Z.pow_gt_lin_r; lia). lia.
Qed.

Lemma no_int_space c : c = 45 \/ ascii_digit c -> is_int_space c = false.
Proof.
  unfold ascii_digit, is_int_space, is_space. intros H.
  replace (9 <=? c) with true by (symmetry; apply Z.leb_le; lia).
  replace (c <=? 13) with false by (symmetry; apply Z.leb_gt; lia).
  replace (28 <=? c) with true by (symmetry; apply Z.leb_le; lia).
  replace (c <=? 32) with false by (symmetry; apply Z.leb_gt; lia).
  replace (c <=? 31) with false by (symmetry; apply Z.leb_gt; lia).
  replace (c =? 133) with false by (symmetry; apply Z.eqb_neq; lia).
  replace (c =? 160) with false by (symmetry; apply Z.eqb_neq; lia).
  replace (c =? 5760) with false by (symmetry; apply Z.eqb_neq; lia).
  replace (8192 <=? c) with false by (symmetry; apply Z.leb_gt; lia).
  replace (c =? 8232) with false by (symmetry; apply Z.eqb_neq; lia).
  replace (c =? 8233) with false by (symmetry; apply Z.eqb_neq; lia).
  replace (c =? 8239) with false by (symmetry; apply Z.eqb_neq; lia).
  replace (c =? 8287) with false by (symmetry; apply Z.eqb_neq; lia).
  replace (c =? 12288) with false by (symmetry; apply Z.eqb_neq; lia).
  reflexivity.
Qed.

Lemma int_strip_numeral s :
  Forall (fun c => c = 45 \/ ascii_digit c) s ->
  rev (int_lstrip (rev (int_lstrip s))) = s.
Proof.
  assert (L : forall t, Forall (fun c => c = 45 \/ ascii_digit c) t ->
                        int_lstrip t = t).
  { intros [|c t] H; [reflexivity|]. inversion H; subst.
    cbn [int_lstrip]. now rewrite no_int_space. }
  intros H. rewrite (L s H), (L (rev s)) by now apply Forall_rev.
  apply rev_involutive.
Qed.

Lemma unsigned_int_ascii c ds :
  Forall ascii_digit (c :: ds) -> (List.length (c :: ds) <= 19)%nat ->
  unsigned_int (c :: ds)
  = Some (fold_left (fun a c => 10 * a + (c - 48)) (c :: ds) 0).
Proof.
  intros F L. unfold unsigned_int.
  pose proof (filter_length_le (fun c => negb (c =? underscore)) (c :: ds)) as Hl.
  replace (max_str_digits <? _) with false
    by (symmetry; apply Z.ltb_ge; unfold max_str_digits; lia).
  inversion F as [|? ? Hc Hds]; subst.
  rewrite (digit_of_ascii c Hc), (digits_from_ascii ds _ Hds).
  reflexivity.
Qed.

(** A numeral that starts with a digit carries no sign. *)
Lemma py_int_unsigned c ds :
  Forall ascii_digit (c :: ds) -> py_int (c :: ds) = unsigned_int (c :: ds).
Proof.
  intros F. unfold py_int. rewrite int_strip_numeral.
  - inversion F as [|? ? Hc _]; subst.
    assert (In c (map Z.of_nat (seq 48 10))) as Hin.
    { apply in_map_iff. exists (Z.to_nat c). unfold ascii_digit in Hc.
      split; [lia|apply in_seq; lia]. }
    cbn [seq map] in Hin.
    repeat (destruct Hin as [<-|Hin]; [reflexivity|]). destruct Hin.
  - eapply Forall_impl; [|exact F]. intros; now right.
Qed.

(** [int(str(n))] is [n], for an integer of 64 bits. *)
Lemma py_int_str_int n :
  int64 n = true -> exists c s, str_int n = c :: s /\ py_int (c :: s) = Some n.
Proof.
  intros H. apply andb_true_iff in H as [Hlo Hhi].
  apply Z.leb_le in Hlo. apply Z.ltb_lt in Hhi.
  unfold str_int. destruct (Z.ltb_spec n 0) as [Hneg|Hpos].
  - exists 45. eexists. split; [reflexivity|].
    destruct (Z.eq_dec n (- 2 ^ 63)) as [->|Hn]; [reflexivity|].
    destruct (pos_digits_spec (Z.to_nat (- n)) (- n) []
                (Nat.min 19 (Z.to_nat (- n))))
      as (c & ds & E & F & V & L).
    + lia.
    + lia.
    + apply enough_digits; lia.
    + rewrite E, app_nil_r. unfold py_int. rewrite int_strip_numeral.
      * rewrite unsigned_int_ascii by (try exact F; lia).
        rewrite V. cbn [option_map]. f_equal. lia.
      * constructor; [now left|].
        eapply Forall_impl; [|exact F]. intros; now right.
  - destruct (pos_digits_spec (S (Z.to_nat n)) n [] (Nat.min 19 (S (Z.to_nat n))))
      as (c & ds & E & F & V & L).
    + lia.
    + lia.
    + apply enough_digits; lia.
    + exists c, ds. rewrite E, app_nil_r. split; [reflexivity|].
      rewrite py_int_unsigned, unsigned_int_ascii by (try exact F; lia).
      now rewrite V.
Qed.

Lemma cell_split_names_or x :
  cell_split_names (cell_or (Some x) (Some [])) = inl (split_names x).
Proof. now destruct x. Qed.

Lemma bindable_str_or_none s : bindable (str_or_none s) = true.
Proof. unfold str_or_none. now destruct (nonempty s). Qed.

(** A rating the generic CSV import keeps is one the engine takes. *)
Lemma kept_rating_bindable (parsed : option Z) :
  bindable match parsed with
           | Some k => if (1 <=? k) && (k <=? 10) then PInt k else PNone
           | None => PNone
           end = true.
Proof.
  destruct parsed as [k|]; [|reflexivity].
  destruct ((1 <=? k) && (k <=? 10)) eqn:E; [|reflexivity].
  apply andb_true_iff in E as [E1 E2].
  apply Z.leb_le in E1. apply Z.leb_le in E2.
  cbn [bindable]. unfold int64. apply andb_true_iff.
  split; [apply Z.leb_le|apply Z.ltb_lt]; lia.
Qed.

(** An exported integer cell is read back as an integer the engine takes. *)
Lemma exported_int_bindable py_str r key v d :
  row_get_none r key = Some (csv_cell py_str (py_or v d)) ->
  integer_or_null v = true -> d = PStr [] \/ d = PInt 0 ->
  bindable (int_or_unset (csv_int_field r key)) = true.
Proof.
  intros E Hv Hd. unfold csv_int_field. rewrite E.
  assert (D : bindable (int_or_unset
                match csv_cell py_str d with
                | c :: s => py_int (c :: s)
                | [] => None
                end) = true)
    by (destruct Hd as [->| ->]; reflexivity).
  destruct v as [| |n| | | |]; try discriminate; [exact D|].
  unfold py_or. cbn [truthy]. destruct (n =? 0); [exact D|].
  cbn [negb csv_cell]. cbn [integer_or_null] in Hv.
  destruct (py_int_str_int n Hv) as (c & s & Es & Ep).
  rewrite Es, Ep. exact Hv.
Qed.

Lemma csv_book_exported py_str b t :
  csv_exchangeable py_str b ->
  exists book,
    csv_book (exported_row py_str b) t
    = inl (book, map author_name (authors b), map genre_name (genres b))
    /\ title book = t /\ authors book = [] /\ genres book = []
    /\ status book = status b /\ rating book = rating b
    /\ storable book = true.
Proof.
  intros (Ht & Ha & _ & Hg & _ & (s & Hs & Hsne & Hst) & Hr & Htp & Hcp & Hpy
          & _).
  unfold csv_book.
  replace (row_get (exported_row py_str b) "authors" "")
    with (Some (join (T ", ") (map author_name (authors b)))) by reflexivity.
  replace (row_get (exported_row py_str b) "author" "")
    with (Some (@nil Z)) by reflexivity.
  replace (row_get (exported_row py_str b) "genres" "")
    with (Some (join (T ", ") (map genre_name (genres b)))) by reflexivity.
  replace (row_get (exported_row py_str b) "genre" "")
    with (Some (@nil Z)) by reflexivity.
  rewrite !cell_split_names_or, !split_names_join by assumption.
  replace (row_get (exported_row py_str b) "status" "planned")
    with (Some (csv_cell py_str (status b))) by reflexivity.
  rewrite Hs. cbn [csv_cell].
  present "subtitle"%string ""%string.
  present "description"%string ""%string.
  present "language"%string "ru"%string.
  present "format"%string "paper"%string.
  cbn [cell_strip]. rewrite Hst, (nonempty_true _ Hsne).
  present "location"%string ""%string.
  present "notes"%string ""%string.
  eexists. split; [reflexivity|]. cbn [title authors genres status rating].
  do 4 (split; [reflexivity|]). split.
  - unfold csv_int_field.
    replace (row_get_none (exported_row py_str b) "rating")
      with (Some (csv_cell py_str (py_or (rating b) (PStr [])))) by reflexivity.
    destruct Hr as [Hr|[n [Hr Hn]]]; rewrite Hr.
    + reflexivity.
    + unfold py_or. cbn [truthy].
      replace (n =? 0) with false by (symmetry; apply Z.eqb_neq; lia).
      cbn [negb csv_cell].
      assert (H64 : int64 n = true).
      { unfold int64. apply andb_true_iff.
        split; [apply Z.leb_le|apply Z.ltb_lt]; lia. }
      destruct (py_int_str_int n H64) as [c [s' [Hstr Hint]]].
      rewrite Hstr, Hint.
      replace (1 <=? n) with true by (symmetry; apply Z.leb_le; lia).
      replace (n <=? 10) with true by (symmetry; apply Z.leb_le; lia).
      reflexivity.
  - unfold storable, scalars.
    cbn [forallb subtitle description language format status total_pages
         current_page published_year rating notes location cover_url isbn].
    rewrite !bindable_str_or_none, kept_rating_bindable.
    rewrite (exported_int_bindable py_str _ "total_pages" (total_pages b)
               (PStr [])) by (auto; reflexivity).
    rewrite (exported_int_bindable py_str _ "current_page" (current_page b)
               (PInt 0)) by (auto; reflexivity).
    rewrite (exported_int_bindable py_str _ "published_year"
               (published_year b) (PStr [])) by (auto; reflexivity).
    reflexivity.
Qed.

Lemma csv_authors_spec names : forall db book,
  title (fst (csv_authors db book names)) = title book
  /\ status (fst (csv_authors db book names)) = status book
  /\ rating (fst (csv_authors db book names)) = rating book
  /\ genres (fst (csv_authors db book names)) = genres book
  /\ map author_name (authors (fst (csv_authors db book names)))
     = map author_name (authors book) ++ names
  /\ books (current (snd (csv_authors db book names))) = books (current db)
  /\ scalars (fst (csv_authors db book names)) = scalars book.
Proof.
  induction names as [|n names IH]; intros db book; cbn [csv_authors].
  - cbn [fst snd]. rewrite app_nil_r. repeat split.
  - destruct (get_or_create_author_spec db n) as [A1 [_ [A3 _]]].
    destruct (get_or_create_author db n) as [a db1]. cbn [fst snd] in *.
    destruct (IH db1 (with_authors book (authors book ++ [a])))
      as (I1 & I2 & I3 & I4 & I5 & I6 & I7).
    rewrite I1, I2, I3, I4, I5, I6, I7, A3.
    cbn [with_authors title status rating genres authors].
    rewrite map_app, <- app_assoc. cbn [map app]. rewrite A1. repeat split.
Qed.

Lemma csv_genres_spec names : forall db book,
  title (fst (csv_genres db book names)) = title book
  /\ status (fst (csv_genres db book names)) = status book
  /\ rating (fst (csv_genres db book names)) = rating book
  /\ authors (fst (csv_genres db book names)) = authors book
  /\ map genre_name (genres (fst (csv_genres db book names)))
     = map genre_name (genres book) ++ names
  /\ books (current (snd (csv_genres db book names))) = books (current db)
  /\ scalars (fst (csv_genres db book names)) = scalars book.
Proof.
  induction names as [|n names IH]; intros db book; cbn [csv_genres].
  - cbn [fst snd]. rewrite app_nil_r. repeat split.
  - destruct (get_or_create_genre_spec db n) as [A1 [_ [A3 _]]].
    destruct (get_or_create_genre db n) as [a db1]. cbn [fst snd] in *.
    destruct (IH db1 (with_genres book (genres book ++ [a])))
      as (I1 & I2 & I3 & I4 & I5 & I6 & I7).
    rewrite I1, I2, I3, I4, I5, I6, I7, A3.
    cbn [with_genres title status rating genres authors].
    rewrite map_app, <- app_assoc. cbn [map app]. rewrite A1. repeat split.
Qed.

(** What a stored row shows of the object that was added. *)
Lemma generic_view_inserted k b s :
  status b = PStr s ->
  generic_view (inserted k b) = generic_view b.
Proof. intros H. unfold generic_view. cbn. now rewrite H. Qed.

Lemma bindable_default v d :
  bindable v = true -> bindable d = true -> bindable (column_default v d) = true.
Proof. now destruct v. Qed.

(** The engine takes the row of an object whose attributes it takes. *)
Lemma storable_inserted k b : storable b = true -> storable (inserted k b) = true.
Proof.
  unfold storable, scalars.
  cbn [forallb inserted subtitle description language format status
       total_pages current_page published_year rating notes location
       cover_url isbn].
  intros H.
  repeat (apply andb_true_iff in H as [? H]).
  rewrite !bindable_default by (try assumption; reflexivity).
  repeat (apply andb_true_iff; split; try assumption).
Qed.

Lemma storable_scalars b b' : scalars b' = scalars b -> storable b' = storable b.
Proof. unfold storable. now intros ->. Qed.

(** Re-importing the exported row of one book adds a book with the same
    view, which the engine takes, and counts a success. *)
Lemma csv_row_exported py_str n b db res :
  csv_exchangeable py_str b ->
  exists book,
    snd (csv_row n (exported_row py_str b) db res) = count_success res
    /\ books (current (fst (csv_row n (exported_row py_str b) db res)))
       = books (current db) ++ [book]
    /\ generic_view book = generic_view b
    /\ storable book = true.
Proof.
  intros Hb.
  destruct (csv_book_exported py_str b (title b) Hb)
    as (book & Eb & Bt & Ba & Bg & Bs & Br & Bst).
  destruct Hb as ([Htne Hts] & _ & _ & _ & _ & (s & Hs & _) & _).
  unfold csv_row, csv_try.
  replace (row_get (exported_row py_str b) "title" "")
    with (Some (title b)) by reflexivity.
  cbn [cell_strip]. rewrite Hts, (nonempty_true _ Htne). cbn [negb].
  rewrite Eb.
  destruct (csv_authors_spec (map author_name (authors b)) db book)
    as (A1 & A2 & A3 & A4 & A5 & A6 & A7).
  destruct (csv_authors db book (map author_name (authors b))) as [book1 db1].
  cbn [fst snd] in *.
  destruct (csv_genres_spec (map genre_name (genres b)) db1 book1)
    as (G1 & G2 & G3 & G4 & G5 & G6 & G7).
  destruct (csv_genres db1 book1 (map genre_name (genres b))) as [book2 db2].
  cbn [fst snd] in *.
  unfold db_add_book. cbn [fst snd tally current books].
  eexists. split; [reflexivity|]. split; [|split].
  - rewrite G6, A6. reflexivity.
  - rewrite (generic_view_inserted _ _ s) by congruence.
    unfold generic_view. rewrite G1, A1, Bt, G4, A5, Ba, G5, A4, Bg, G2, A2,
      Bs, G3, A3, Br. reflexivity.
  - apply storable_inserted.
    rewrite (storable_scalars book book2) by congruence. exact Bst.
Qed.

Lemma csv_loop_exported py_str bs : forall n db res,
  Forall (csv_exchangeable py_str) bs ->
  exists added,
    snd (csv_loop n (map (exported_row py_str) bs) db res)
    = {| success := success res + Z.of_nat (List.length bs);
         failed := failed res; skipped := skipped res; errors := errors res |}
    /\ books (current (fst (csv_loop n (map (exported_row py_str) bs) db res)))
       = books (current db) ++ added
    /\ map generic_view added = map generic_view bs
    /\ forallb storable added = true.
Proof.
  induction bs as [|b bs IH]; intros n db res H.
  - exists []. cbn. rewrite Z.add_0_r, app_nil_r. now destruct res.
  - inversion H as [|? ? Hb Hbs]; subst.
    cbn [map csv_loop].
    destruct (csv_row_exported py_str n b db res Hb) as (book & R1 & R2 & R3 & R4).
    destruct (csv_row n (exported_row py_str b) db res) as [db1 res1].
    cbn [fst snd] in *. subst res1.
    destruct (IH (n + 1) db1 (count_success res) Hbs) as (added & I1 & I2 & I3 & I4).
    exists (book :: added). rewrite I1, I2, R2, <- app_assoc.
    cbn [map count_success success failed skipped errors List.length forallb
         app].
    rewrite R3, R4, I3, I4. repeat split. f_equal. lia.
Qed.

Lemma json_authors_spec names : forall db book,
  Forall trimmed names ->
  exists book1 db1,
    json_authors db book (map PStr names) = (inl book1, db1)
    /\ title book1 = title book /\ status book1 = status book
    /\ rating book1 = rating book /\ genres book1 = genres book
    /\ map author_name (authors book1) = map author_name (authors book) ++ names
    /\ books (current db1) = books (current db)
    /\ scalars book1 = scalars book.
Proof.
  induction names as [|n names IH]; intros db book H.
  - exists book, db. cbn. rewrite app_nil_r. repeat split.
  - inversion H as [|? ? [Hne Hs] Hrest]; subst.
    cbn [map json_authors truthy py_strip].
    rewrite (nonempty_true _ Hne), Hs.
    destruct (get_or_create_author_spec db n) as [A1 [_ [A3 _]]].
    destruct (get_or_create_author db n) as [a db1]. cbn [fst snd] in *.
    destruct (IH db1 (with_authors book (authors book ++ [a])) Hrest)
      as (book1 & db2 & E & I1 & I2 & I3 & I4 & I5 & I6 & I7).
    exists book1, db2. rewrite E, I1, I2, I3, I4, I5, I6, I7, A3.
    cbn [with_authors title status rating genres authors].
    rewrite map_app, <- app_assoc. cbn [map app]. rewrite A1. repeat split.
Qed.

Lemma json_genres_spec names : forall db book,
  Forall trimmed names ->
  exists book1 db1,
    json_genres db book (map PStr names) = (inl book1, db1)
    /\ title book1 = title book /\ status book1 = status book
    /\ rating book1 = rating book /\ authors book1 = authors book
    /\ map genre_name (genres book1) = map genre_name (genres book) ++ names
    /\ books (current db1) = books (current db)
    /\ scalars book1 = scalars book.
Proof.
  induction names as [|n names IH]; intros db book H.
  - exists book, db. cbn. rewrite app_nil_r. repeat split.
  - inversion H as [|? ? [Hne Hs] Hrest]; subst.
    cbn [map json_genres truthy py_strip].
    rewrite (nonempty_true _ Hne), Hs.
    destruct (get_or_create_genre_spec db n) as [A1 [_ [A3 _]]].
    destruct (get_or_create_genre db n) as [a db1]. cbn [fst snd] in *.
    destruct (IH db1 (with_genres book (genres book ++ [a])) Hrest)
      as (book1 & db2 & E & I1 & I2 & I3 & I4 & I5 & I6 & I7).
    exists book1, db2. rewrite E, I1, I2, I3, I4, I5, I6, I7, A3.
    cbn [with_genres title status rating genres authors].
    rewrite map_app, <- app_assoc. cbn [map app]. rewrite A1. repeat split.
Qed.

(** The object the JSON import builds from the exported record of [b]. *)
Lemma json_book_exported b t :
  exists book,
    json_book (export_book_json b) t = inl book
    /\ title book = t /\ authors book = [] /\ genres book = []
    /\ status book = status b /\ rating book = rating b
    /\ scalars book = scalars b.
Proof. eexists. split; [reflexivity|]. repeat split. Qed.

Lemma json_row_exported i b db res :
  json_exchangeable b ->
  exists book,
    snd (json_row i (export_book_json b) db res) = count_success res
    /\ books (current (fst (json_row i (export_book_json b) db res)))
       = books (current db) ++ [book]
    /\ generic_view book = generic_view b
    /\ storable book = true.
Proof.
  intros ([Htne Hts] & Ha & _ & Hg & _ & (s & Hs) & _ & Hst & _).
  unfold json_row, json_try.
  replace (do t <- dict_get (export_book_json b) "title" (PStr []); py_strip t)
    with (@inl text exn (strip (title b))) by reflexivity.
  rewrite Hts, (nonempty_true _ Htne). cbn [negb].
  destruct (json_book_exported b (title b))
    as (book & Eb & Bt & Ba & Bg & Bs & Br & Bsc).
  rewrite Eb.
  replace (names_of (export_book_json b) "authors")
    with (@inl (list pyval) exn (map (fun a => PStr (author_name a)) (authors b)))
    by reflexivity.
  rewrite <- (map_map author_name PStr).
  destruct (json_authors_spec (map author_name (authors b)) db book Ha)
    as (book1 & db1 & E1 & A1 & A2 & A3 & A4 & A5 & A6 & A7).
  rewrite E1.
  replace (names_of (export_book_json b) "genres")
    with (@inl (list pyval) exn (map (fun g => PStr (genre_name g)) (genres b)))
    by reflexivity.
  rewrite <- (map_map genre_name PStr).
  destruct (json_genres_spec (map genre_name (genres b)) db1 book1 Hg)
    as (book2 & db2 & E2 & G1 & G2 & G3 & G4 & G5 & G6 & G7).
  rewrite E2.
  unfold db_add_book. cbn [fst snd tally current books].
  eexists. split; [reflexivity|]. split; [|split].
  - rewrite G6, A6. reflexivity.
  - rewrite (generic_view_inserted _ _ s) by congruence.
    unfold generic_view. rewrite G1, A1, Bt, G4, A5, Ba, G5, A4, Bg,
      G2, A2, Bs, G3, A3, Br. reflexivity.
  - apply storable_inserted.
    rewrite (storable_scalars b book2) by congruence. exact Hst.
Qed.

Lemma json_loop_exported bs : forall i db res,
  Forall json_exchangeable bs ->
  exists added,
    snd (json_loop i (map export_book_json bs) db res)
    = {| success := success res + Z.of_nat (List.length bs);
         failed := failed res; skipped := skipped res; errors := errors res |}
    /\ books (current (fst (json_loop i (map export_book_json bs) db res)))
       = books (current db) ++ added
    /\ map generic_view added = map generic_view bs
    /\ forallb storable added = true.
Proof.
  induction bs as [|b bs IH]; intros i db res H.
  - exists []. cbn. rewrite Z.add_0_r, app_nil_r. now destruct res.
  - inversion H as [|? ? Hb Hbs]; subst.
    cbn [map json_loop].
    destruct (json_row_exported i b db res Hb) as (book & R1 & R2 & R3 & R4).
    destruct (json_row i (export_book_json b) db res) as [db1 res1].
    cbn [fst snd] in *. subst res1.
    destruct (IH (i + 1) db1 (count_success res) Hbs) as (added & I1 & I2 & I3 & I4).
    exists (book :: added). rewrite I1, I2, R2, <- app_assoc.
    cbn [map count_success success failed skipped errors List.length forallb
         app].
    rewrite R3, R4, I3, I4. repeat split. f_equal. lia.
Qed.

(** No exported cell of an exchangeable book stops the reader. *)
Lemma reread_csv_exported py_str bs :
  Forall (csv_exchangeable py_str) bs ->
  reread_csv py_str (map export_csv_row bs)
  = (map (exported_row py_str) bs, false).
Proof.
  induction 1 as [|b bs Hb _ IH]; [reflexivity|].
  cbn [map reread_csv].
  replace (readable py_str (export_csv_row b)) with true
    by (symmetry; apply Hb).
  now rewrite IH.
Qed.

(** The [progress] of a book whose page counts are integers is defined. *)
Lemma integer_progress_defined b :
  integer_or_null (total_pages b) = true ->
  integer_or_null (current_page b) = true ->
  progress_defined b = true.
Proof.
  unfold progress_defined, py_or. intros Ht Hc.
  destruct (total_pages b); try discriminate; [reflexivity|].
  destruct (current_page b); try discriminate.
  - now destruct (truthy (PInt n)).
  - cbn [truthy]. destruct (n =? 0), (n0 =? 0); reflexivity.
Qed.

Lemma same_view_of_view olds : forall news,
  map generic_view news = map generic_view olds -> Forall2 same_view olds news.
Proof.
  induction olds as [|b olds IH]; intros [|b' news] H; try discriminate.
  - constructor.
  - cbn [map] in H. injection H as Ht Ha Hg Hs Hr H.
    constructor; [|now apply IH].
    unfold same_view. rewrite Ht, Ha, Hg, Hs, Hr. repeat split; reflexivity.
Qed.

(** C4, as the code has it.  Exporting a catalog of books with distinct
    titles in the generic CSV or JSON form and importing the output into an
    empty catalog imports every record and reproduces, book by book, the
    title, the set of author names, the set of genre names, the status and
    the rating, provided every title and name is non-empty with no
    surrounding whitespace, no book lists a name twice and the status is a
    string; for the CSV form also provided no name holds a comma, the status
    is non-empty with no surrounding whitespace, the rating is absent or an
    integer of 1..10, the page counts and the year are absent or integers of
    64 bits and no exported cell is longer than the reader's field limit;
    for the JSON form also provided the rating is absent or an integer of 64
    bits, the engine takes every value of the book and its [progress] does
    not raise. *)
Theorem C4_round_trip_of_exchangeable_books :
  forall (py_str : pyval -> text) (now : text) (db : Session),
    NoDup (map title (books (current db))) ->
    (Forall (csv_exchangeable py_str) (books (current db)) ->
     exists db',
       csv_round_trip py_str db
       = Some (Result {| success := Z.of_nat (List.length (books (current db)));
                         failed := 0; skipped := 0; errors := [] |}, db')
       /\ Forall2 same_view (books (current db)) (books (committed db')))
    /\ (Forall json_exchangeable (books (current db)) ->
        exists db',
          json_round_trip now db
          = Some (Result {| success := Z.of_nat (List.length (books (current db)));
                            failed := 0; skipped := 0; errors := [] |}, db')
          /\ Forall2 same_view (books (current db)) (books (committed db'))).
Proof.
  intros py_str now db _. split; intros H.
  - unfold csv_round_trip, export_to_csv.
    replace (forallb progress_defined (books (current db))) with true.
    2:{ symmetry. apply forallb_forall. intros b Hb.
        rewrite Forall_forall in H.
        destruct (H b Hb) as (_ & _ & _ & _ & _ & _ & _ & Ht & Hc & _).
        now apply integer_progress_defined. }
    rewrite (reread_csv_exported py_str _ H). unfold import_csv_rows.
    destruct (csv_loop_exported py_str (books (current db)) 2 empty_session
                new_result H) as (added & R1 & R2 & R3 & R4).
    pose proof (csv_loop_committed (map (exported_row py_str) (books (current db)))
                  2 empty_session new_result) as Hc.
    destruct (csv_loop 2 _ empty_session new_result) as [db1 res].
    cbn [fst snd] in *. subst res.
    unfold uncommitted. rewrite Hc, R2.
    change (skipn _ (books (current empty_session) ++ added)) with added.
    rewrite R4. eexists. split; [reflexivity|].
    cbn [db_commit committed]. rewrite R2.
    now apply same_view_of_view.
  - unfold json_round_trip, export_to_json.
    replace (forallb progress_defined (books (current db))) with true.
    2:{ symmetry. apply forallb_forall. intros b Hb.
        rewrite Forall_forall in H.
        destruct (H b Hb) as (_ & _ & _ & _ & _ & _ & _ & _ & Hp).
        exact Hp. }
    unfold import_json_data.
    replace (books_data (PDict _))
      with (@inl (list pyval) exn (map export_book_json (books (current db))))
      by reflexivity.
    destruct (json_loop_exported (books (current db)) 0 empty_session
                new_result H) as (added & R1 & R2 & R3 & R4).
    pose proof (json_loop_committed (map export_book_json (books (current db)))
                  0 empty_session new_result) as Hc.
    destruct (json_loop 0 _ empty_session new_result) as [db1 res].
    cbn [fst snd] in *. subst res.
    unfold uncommitted. rewrite Hc, R2.
    change (skipn _ (books (current empty_session) ++ added)) with added.
    rewrite R4. eexists. split; [reflexivity|].
    cbn [db_commit committed]. rewrite R2.
    now apply same_view_of_view.
Qed.

(** Through the CSV form the author [Tolkien, J.R.R.] comes back as the two
    authors [Tolkien] and [J.R.R.]; through the JSON form the title [ Dune],
    stored with a leading space, comes back as [Dune].  A book imported
    with the page count [many] makes either export raise, and a book whose
    notes are longer than the field limit of the CSV reader makes the
    re-import of the CSV export answer 500. *)
Lemma C4_counterexample :
  map generic_view (books (current (session_on tolkien_catalog)))
  = [(T "The Hobbit", [T "Tolkien, J.R.R."], [], PStr (T "planned"), PNone)]
  /\ option_map (fun answer => map generic_view (books (committed (snd answer))))
                (csv_round_trip str_unused (session_on tolkien_catalog))
     = Some [(T "The Hobbit", [T "Tolkien"; T "J.R.R."], [],
              PStr (T "planned"), PNone)]
  /\ map generic_view (books (current (session_on padded_catalog)))
     = [(T " Dune", [], [], PStr (T "planned"), PNone)]
  /\ option_map (fun answer => map generic_view (books (committed (snd answer))))
                (json_round_trip (T "2024-05-01T12:00:00")
                                 (session_on padded_catalog))
     = Some [(T "Dune", [], [], PStr (T "planned"), PNone)]
  /\ fst (import_json_data (PList [many_pages]) empty_session)
     = Result {| success := 1; failed := 0; skipped := 0; errors := [] |}
  /\ export_to_csv (snd (import_json_data (PList [many_pages]) empty_session))
     = None
  /\ export_to_json (T "2024-05-01T12:00:00")
                    (snd (import_json_data (PList [many_pages]) empty_session))
     = None
  /\ option_map fst (csv_round_trip str_unused (session_on wordy_catalog))
     = Some (HTTPError 500).
Proof. repeat split; vm_compute; reflexivity. Qed.

Lemma trimmed_by_eval s :
  nonempty s && text_eqb (strip s) s = true -> trimmed s.
Proof.
  intros H. apply andb_true_iff in H as [Hn Hs]. split.
  - intros ->. discriminate.
  - now apply text_eqb_eq.
Qed.

Lemma csv_name_by_eval s :
  nonempty s && text_eqb (strip s) s && negb (existsb (Z.eqb comma) s) = true ->
  csv_name s.
Proof.
  intros H. apply andb_true_iff in H as [Ht Hc]. split.
  - now apply trimmed_by_eval.
  - intros Hin. apply negb_true_iff in Hc.
    assert (E : existsb (Z.eqb comma) s = true).
    { apply existsb_exists. exists comma. split; [exact Hin|apply Z.eqb_refl]. }
    congruence.
Qed.

Lemma texts_differ (a b : text) : text_eqb a b = false -> a <> b.
Proof.
  intros H E. subst b.
  assert (R : text_eqb a a = true) by now apply text_eqb_eq.
  congruence.
Qed.

Lemma emma_csv_exchangeable :
  Forall (csv_exchangeable str_unused)
         (books (current (session_on emma_catalog))).
Proof.
  constructor; [|constructor].
  split; [now apply trimmed_by_eval|].
  split; [repeat constructor; now apply csv_name_by_eval|].
  split; [repeat constructor; intros []|].
  split; [repeat constructor; now apply csv_name_by_eval|].
  split.
  { repeat constructor; cbn; try tauto.
    intros [E|[]]. revert E. now apply texts_differ. }
  split.
  - exists (T "finished"). split; [reflexivity|now apply trimmed_by_eval].
  - split; [right; exists 9; split; [reflexivity|lia]|].
    repeat split; reflexivity.
Qed.

Lemma emma_json_exchangeable :
  Forall json_exchangeable (books (current (session_on emma_catalog))).
Proof.
  constructor; [|constructor].
  split; [now apply trimmed_by_eval|].
  split; [repeat constructor; now apply trimmed_by_eval|].
  split; [repeat constructor; intros []|].
  split; [repeat constructor; now apply trimmed_by_eval|].
  split.
  { repeat constructor; cbn; try tauto.
    intros [E|[]]. revert E. now apply texts_differ. }
  split; [now exists (T "finished")|].
  repeat split; reflexivity.
Qed.

Lemma C4_witness :
  (exists db',
     csv_round_trip str_unused (session_on emma_catalog)
     = Some (Result {| success := Z.of_nat (List.length
                                    (books (current (session_on emma_catalog))));
                       failed := 0; skipped := 0; errors := [] |}, db')
     /\ Forall2 same_view (books (current (session_on emma_catalog)))
                (books (committed db')))
  /\ (exists db',
        json_round_trip (T "2024-05-01T12:00:00") (session_on emma_catalog)
        = Some (Result {| success := Z.of_nat (List.length
                                       (books (current (session_on emma_catalog))));
                          failed := 0; skipped := 0; errors := [] |}, db')
        /\ Forall2 same_view (books (current (session_on emma_catalog)))
                   (books (committed db'))).
Proof.
  assert (N : NoDup (map title (books (current (session_on emma_catalog)))))
    by (repeat constructor; intros []).
  split.
  - apply (proj1 (C4_round_trip_of_exchangeable_books str_unused
                    (T "2024-05-01T12:00:00") (session_on emma_catalog) N)).
    exact emma_csv_exchangeable.
  - apply (proj2 (C4_round_trip_of_exchangeable_books str_unused
                    (T "2024-05-01T12:00:00") (session_on emma_catalog) N)).
    exact emma_json_exchangeable.
Defined.

(** ** What the CSV imports do keep *)

Section Kept.
Variable lower : text -> text.
Variable py_float : text -> option float.

Lemma map_reading_status_closed status state :
  in_enum BookStatus (PStr (map_reading_status lower status state)) = true.
Proof.
  unfold map_reading_status.
  repeat match goal with
         | |- context [if ?c then _ else _] => destruct c
         end; reflexivity.
Qed.

Lemma map_book_format_closed types :
  in_enum BookFormat (PStr (map_book_format lower types)) = true.
Proof.
  unfold map_book_format.
  repeat match goal with
         | |- context [if ?c then _ else _] => destruct c
         end; reflexivity.
Qed.

Lemma booktracker_rating_ok s v :
  booktracker_rating py_float s = inl v -> rating_ok v = true.
Proof.
  unfold booktracker_rating.
  destruct (nonempty s); [|intros H; injection H as <-; reflexivity].
  destruct (py_float s) as [r|]; [|intros H; injection H as <-; reflexivity].
  destruct (rescale_rating r) as [n|[]]; try discriminate.
  - destruct ((1 <=? n) && (n <=? 10)) eqn:E; intros H; injection H as <-.
    + exact E.
    + reflexivity.
  - intros H. injection H as <-. reflexivity.
Qed.

Lemma booktracker_book_valid r t book au ge :
  booktracker_book lower py_float r t = inl (book, au, ge) ->
  book_valid book = true.
Proof.
  unfold booktracker_book.
  repeat match goal with
         | |- context [match ?e with inl _ => _ | inr _ => _ end] =>
             destruct e eqn:?
         end; try discriminate.
  intros H. injection H as <- _ _. unfold book_valid. cbn [status format rating].
  rewrite map_reading_status_closed, map_book_format_closed.
  eapply booktracker_rating_ok. eassumption.
Qed.

Lemma book_valid_inserted k b : book_valid b = true -> book_valid (inserted k b) = true.
Proof.
  unfold book_valid, inserted. cbn [status format rating].
  destruct (status b); try discriminate.
  destruct (format b); try (rewrite andb_false_r; discriminate).
  trivial.
Qed.

Lemma update_book_valid db k f :
  (forall b, book_valid (f b) = book_valid b) ->
  catalog_valid db -> catalog_valid (update_book db k f).
Proof.
  intros Hf [Hc Hu]. split; [exact Hc|]. cbn [update_book current books].
  apply Forall_map. eapply Forall_impl; [|exact Hu].
  intros b Hb. cbn beta. destruct (id b =? k); [now rewrite Hf|exact Hb].
Qed.

Lemma booktracker_authors_valid names : forall db k seen,
  catalog_valid db -> catalog_valid (booktracker_authors lower db k seen names).
Proof.
  induction names as [|n names IH]; intros db k seen H; simpl; [exact H|].
  destruct (nonempty (strip (lower n)) && negb (mem_text (strip (lower n)) seen));
    [|now apply IH].
  assert (H1 : catalog_valid (snd (get_or_create_author db n))).
  { unfold get_or_create_author. destruct (find_author (current db) n); exact H. }
  destruct (get_or_create_author db n) as [a db1]. apply IH.
  destruct (stored_book db1 k) as [b|]; [|exact H1].
  destruct (has_author b a); [exact H1|]. now apply update_book_valid.
Qed.

Lemma booktracker_genres_valid names : forall db k seen,
  catalog_valid db -> catalog_valid (booktracker_genres lower db k seen names).
Proof.
  induction names as [|n names IH]; intros db k seen H; simpl; [exact H|].
  destruct (nonempty (strip (lower n)) && negb (mem_text (strip (lower n)) seen));
    [|now apply IH].
  assert (H1 : catalog_valid (snd (get_or_create_genre db n))).
  { unfold get_or_create_genre. destruct (find_genre (current db) n); exact H. }
  destruct (get_or_create_genre db n) as [a db1]. apply IH.
  destruct (stored_book db1 k) as [b|]; [|exact H1].
  destruct (has_genre b a); [exact H1|]. now apply update_book_valid.
Qed.

Lemma booktracker_row_valid n r db res :
  catalog_valid db ->
  catalog_valid (fst (booktracker_row lower py_float n r db res)).
Proof.
  intros H. unfold booktracker_row, booktracker_try.
  destruct (cell_strip (row_get r "title" "")) as [title|e];
    [|destruct H as [Hc _]; now split].
  destruct (negb (nonempty title)); [exact H|].
  destruct (title_exists (current db) title); [exact H|].
  destruct (booktracker_book lower py_float r title) as [[[book au] ge]|e] eqn:E;
    [|destruct H as [Hc _]; now split].
  apply booktracker_book_valid in E.
  assert (H1 : catalog_valid (snd (db_add_book db book))).
  { destruct H as [Hc Hu]. split; [exact Hc|]. cbn.
    apply Forall_app. split; [exact Hu|].
    constructor; [|constructor]. now apply book_valid_inserted. }
  destruct (db_add_book db book) as [k db1]. cbn [fst snd] in *.
  destruct (negb (storable book)); cbn [fst];
    [destruct H1 as [Hc _]; now split|].
  pose proof (booktracker_genres_valid ge _ k []
                (booktracker_authors_valid au db1 k [] H1)) as [_ Hu].
  split; exact Hu.
Qed.

(** On the tracker path the enumerations and the rating range are kept:
    a catalog whose books have a status and a format of the enumerations
    and a rating absent or within 1..10 is such a catalog after the import. *)
Theorem booktracker_import_keeps_catalog_valid :
  forall n rows db res,
    catalog_valid db ->
    catalog_valid (fst (booktracker_loop lower py_float n rows db res)).
Proof.
  intros. rewrite booktracker_loop_run. apply run_invariant; [|assumption].
  intros. now apply booktracker_row_valid.
Qed.

(** The tracker import skips a record whose title is stored: the session is
    left as it was and the record is counted as skipped. *)
Theorem booktracker_skips_stored_title :
  forall n r db res t,
    row_get r "title" "" = Some t ->
    title_exists (current db) (strip t) = true ->
    strip t <> [] ->
    booktracker_row lower py_float n r db res
    = (db, count_skipped res {| diag_label := Line; diag_position := n;
                                diag_cause := AlreadyExists (strip t) |}).
Proof.
  intros n r db res t Ht He Hne.
  unfold booktracker_row, booktracker_try. rewrite Ht. cbn [cell_strip].
  rewrite (nonempty_true _ Hne), He. reflexivity.
Qed.

End Kept.

Lemma csv_book_rating_ok r t book au ge :
  csv_book r t = inl (book, au, ge) -> rating_ok (rating book) = true.
Proof.
  unfold csv_book. rest_of_chain. intros H. injection H as <- _ _.
  cbn [rating]. destruct (csv_int_field r "rating") as [n|]; [|reflexivity].
  destruct ((1 <=? n) && (n <=? 10)) eqn:E; [exact E|reflexivity].
Qed.

Lemma csv_authors_rating names : forall db book,
  rating (fst (csv_authors db book names)) = rating book
  /\ books (current (snd (csv_authors db book names))) = books (current db)
  /\ committed (snd (csv_authors db book names)) = committed db.
Proof.
  induction names as [|n names IH]; intros db book; cbn [csv_authors].
  - repeat split.
  - assert (H : books (current (snd (get_or_create_author db n)))
                = books (current db)
                /\ committed (snd (get_or_create_author db n)) = committed db).
    { unfold get_or_create_author.
      destruct (find_author (current db) n); now split. }
    destruct (get_or_create_author db n) as [a db1]. cbn [fst snd] in *.
    destruct H as [H1 H2].
    destruct (IH db1 (with_authors book (authors book ++ [a]))) as (I1 & I2 & I3).
    rewrite I1, I2, I3, H1, H2. repeat split.
Qed.

Lemma csv_genres_rating names : forall db book,
  rating (fst (csv_genres db book names)) = rating book
  /\ books (current (snd (csv_genres db book names))) = books (current db)
  /\ committed (snd (csv_genres db book names)) = committed db.
Proof.
  induction names as [|n names IH]; intros db book; cbn [csv_genres].
  - repeat split.
  - assert (H : books (current (snd (get_or_create_genre db n)))
                = books (current db)
                /\ committed (snd (get_or_create_genre db n)) = committed db).
    { unfold get_or_create_genre.
      destruct (find_genre (current db) n); now split. }
    destruct (get_or_create_genre db n) as [a db1]. cbn [fst snd] in *.
    destruct H as [H1 H2].
    destruct (IH db1 (with_genres book (genres book ++ [a]))) as (I1 & I2 & I3).
    rewrite I1, I2, I3, H1, H2. repeat split.
Qed.

Lemma csv_row_ratings n r db res :
  ratings_valid db -> ratings_valid (fst (csv_row n r db res)).
Proof.
  intros H. unfold csv_row, csv_try.
  destruct (cell_strip (row_get r "title" "")) as [title|e]; [|exact H].
  destruct (negb (nonempty title)); [exact H|].
  destruct (csv_book r title) as [[[book au] ge]|e] eqn:E; [|exact H].
  apply csv_book_rating_ok in E.
  destruct (csv_authors_rating au db book) as (A1 & A2 & A3).
  destruct (csv_authors db book au) as [book1 db1]. cbn [fst snd] in *.
  destruct (csv_genres_rating ge db1 book1) as (G1 & G2 & G3).
  destruct (csv_genres db1 book1 ge) as [book2 db2]. cbn [fst snd] in *.
  destruct H as [Hc Hu]. split; cbn.
  - rewrite G3, A3. exact Hc.
  - rewrite G2, A2. apply Forall_app. split; [exact Hu|].
    constructor; [|constructor]. cbn. congruence.
Qed.

(** On the generic CSV path the rating range is kept: where every stored
    rating is absent or within 1..10, so it is after the import. *)
Theorem csv_import_keeps_ratings_valid :
  forall n rows db res,
    ratings_valid db -> ratings_valid (fst (csv_loop n rows db res)).
Proof.
  intros. rewrite csv_loop_run. apply run_invariant; [|assumption].
  intros. now apply csv_row_ratings.
Qed.

Lemma dune_catalog_valid : catalog_valid (session_on dune_catalog).
Proof. split; repeat constructor. Qed.

Lemma booktracker_import_keeps_catalog_valid_witness :
  catalog_valid
    (fst (booktracker_loop ascii_lower decimal_float 2
            [cells [("title", "Emma"); ("readingStatus", "READ");
                    ("types", "Kindle"); ("userRating", "4.5")]%string]
            (session_on dune_catalog) new_result)).
Proof.
  apply (booktracker_import_keeps_catalog_valid ascii_lower decimal_float).
  exact dune_catalog_valid.
Defined.

Lemma booktracker_skips_stored_title_witness :
  booktracker_row ascii_lower decimal_float 2 dune_again
                  (session_on dune_catalog) new_result
  = (session_on dune_catalog,
     count_skipped new_result
       {| diag_label := Line; diag_position := 2;
          diag_cause := AlreadyExists (strip (T "Dune")) |}).
Proof.
  apply (booktracker_skips_stored_title ascii_lower decimal_float 2 dune_again
           (session_on dune_catalog) new_result (T "Dune")).
  - reflexivity.
  - vm_compute. reflexivity.
  - vm_compute. discriminate.
Defined.

Lemma csv_import_keeps_ratings_valid_witness :
  ratings_valid
    (fst (csv_loop 2 [cells [("title", "Emma"); ("rating", "15")]%string]
                   (session_on dune_catalog) new_result)).
Proof.
  apply csv_import_keeps_ratings_valid.
  split; repeat constructor.
Defined.

(** * Further properties of the import paths *)

(** ** Get-or-create *)

Lemma find_snoc {A : Type} (f : A -> bool) (l : list A) (x : A) :
  find f l = None -> f x = true -> find f (l ++ [x]) = Some x.
Proof.
  induction l as [|y l IH]; simpl; intros Hn Hx.
  - now rewrite Hx.
  - destruct (f y); [discriminate|]. now apply IH.
Qed.

(** Resolving a name a second time gives the entity of the first time and
    leaves the session as the first call left it: nothing is created twice. *)
Theorem get_or_create_is_idempotent :
  forall db name,
    get_or_create_author (snd (get_or_create_author db name)) name
    = get_or_create_author db name
    /\ get_or_create_genre (snd (get_or_create_genre db name)) name
       = get_or_create_genre db name.
Proof.
  intros db name. split.
  - unfold get_or_create_author at 2 3.
    destruct (find_author (current db) name) as [a|] eqn:E; cbn [snd].
    + unfold get_or_create_author. now rewrite E.
    + unfold get_or_create_author, find_author. cbn [current author_table].
      unfold find_author in E.
      rewrite (find_snoc _ _ _ E) by (cbn; apply text_eqb_refl).
      reflexivity.
  - unfold get_or_create_genre at 2 3.
    destruct (find_genre (current db) name) as [a|] eqn:E; cbn [snd].
    + unfold get_or_create_genre. now rewrite E.
    + unfold get_or_create_genre, find_genre. cbn [current genre_table].
      unfold find_genre in E.
      rewrite (find_snoc _ _ _ E) by (cbn; apply text_eqb_refl).
      reflexivity.
Qed.

(** ** Records without a title *)

Lemma nonempty_false s : s = [] -> nonempty s = false.
Proof. now intros ->. Qed.

(** A record whose title is missing or blank is counted as failed, with the
    diagnostic of an empty title at the record's label, and the session is
    left as it was, on each of the three import paths. *)
Theorem blank_title_fails_the_record :
  (forall lower py_float n (r : row) t db res,
      row_get r "title" "" = Some t -> strip t = [] ->
      booktracker_row lower py_float n r db res
      = (db, count_failed res {| diag_label := Line; diag_position := n;
                                 diag_cause := EmptyTitle |})
      /\ csv_row n r db res
         = (db, count_failed res {| diag_label := Line; diag_position := n;
                                    diag_cause := EmptyTitle |}))
  /\ (forall i kvs db res,
         (lookup (T "title") kvs = None
          \/ exists t, lookup (T "title") kvs = Some (PStr t) /\ strip t = []) ->
         json_row i (PDict kvs) db res
         = (db, count_failed res {| diag_label := BookNo;
                                    diag_position := i + 1;
                                    diag_cause := EmptyTitle |})).
Proof.
  split.
  - intros lower py_float n r t db res Ht Hs. split.
    + unfold booktracker_row, booktracker_try. rewrite Ht. cbn [cell_strip].
      rewrite Hs. reflexivity.
    + unfold csv_row, csv_try. rewrite Ht. cbn [cell_strip].
      rewrite Hs. reflexivity.
  - intros i kvs db res H. unfold json_row, json_try, dict_get.
    destruct H as [H|[t [H Hs]]]; rewrite H; cbn [py_strip].
    + reflexivity.
    + rewrite Hs. reflexivity.
Qed.

Lemma blank_title_fails_the_record_witness :
  csv_row 2 (cells [("title", "   "); ("authors", "Jane Austen")]%string)
          (session_on dune_catalog) new_result
  = (session_on dune_catalog,
     count_failed new_result {| diag_label := Line; diag_position := 2;
                                diag_cause := EmptyTitle |}).
Proof.
  apply (proj1 blank_title_fails_the_record ascii_lower decimal_float 2
           (cells [("title", "   "); ("authors", "Jane Austen")]%string)
           (T "   ")); reflexivity.
Defined.

(** ** The delimiter *)


Section Delimiter.
Variable lower : text -> text.
Variable py_float : text -> option float.
Variable decode : string -> bytes -> option text.
Variable decode_replace : bytes -> text.
Variable chardet_detect : bytes -> option string * float.
Variable csv_DictReader : text -> Z -> list row * bool.


End Delimiter.


(** ** The tracker vocabulary and the normalised record *)

Section Vocabulary.
Variable lower : text -> text.
Variable py_float : text -> option float.

(** The status of a tracker record is one of five (never the wishlist) and
    does not depend on the [state] column; the format is one of the three. *)
Theorem tracker_status_ignores_state :
  forall status state state' types,
    map_reading_status lower status state
    = map_reading_status lower status state'
    /\ In (map_reading_status lower status state) tracker_statuses
    /\ In (map_book_format lower types) BookFormat.
Proof.
  intros status state state' types. unfold map_reading_status, map_book_format.
  repeat split;
    repeat match goal with
           | |- context [if ?c then _ else _] => destruct c
           end; try reflexivity; cbn; tauto.
Qed.

Lemma split_names_nonempty s : Forall (fun n => n <> []) (split_names s).
Proof.
  unfold split_names. apply Forall_forall. intros x Hx.
  apply filter_In in Hx as [_ Hx]. now destruct x.
Qed.

Lemma cell_split_names_nonempty x l :
  cell_split_names x = inl l -> Forall (fun n => n <> []) l.
Proof.
  destruct x; simpl; [|discriminate]. intros H. injection H as <-.
  apply split_names_nonempty.
Qed.

(** What a tracker record is normalised to: the language is cut to ten
    characters, a finished book of known length is on its last page and any
    other book has no page set, and the author and genre names are trimmed
    and not empty. *)
Theorem tracker_record_is_normalised :
  forall r t book names_a names_g,
    booktracker_book lower py_float r t = inl (book, names_a, names_g) ->
    title book = t
    /\ (exists l, language book = PStr l /\ (List.length l <= 10)%nat)
    /\ (status book = PStr (T "finished") ->
        truthy (total_pages book) = true ->
        current_page book = total_pages book)
    /\ (status book <> PStr (T "finished") -> current_page book = PNone)
    /\ Forall (fun n => stripped n /\ n <> []) names_a
    /\ Forall (fun n => stripped n /\ n <> []) names_g.
Proof.
  intros r t book names_a names_g. unfold booktracker_book.
  destruct (cell_split_names (row_get r "authors" "")) as [au|] eqn:Ea;
    [|discriminate].
  destruct (cell_split_names (cell_or (row_get r "categories" "") _))
    as [ge|] eqn:Eg; [|discriminate].
  rest_of_chain. intros H.
  match type of H with context [firstn 10 ?x] =>
    remember (firstn 10 x) as lang eqn:Hlang
  end.
  injection H as <- <- <-.
  cbv beta iota delta [title language status current_page total_pages].
  split; [reflexivity|]. split.
  { exists lang. split; [reflexivity|]. subst lang. apply firstn_le_length. }
  split.
  { intros Hs Ht. injection Hs as Hs. rewrite Hs, Ht. reflexivity. }
  split.
  { intros Hs.
    destruct (text_eqb _ (T "finished")) eqn:E; [|reflexivity].
    apply text_eqb_eq in E. rewrite E in Hs. contradiction. }
  split.
  - apply Forall_forall. intros n Hn. split.
    + pose proof (cell_split_names_stripped _ _ Ea) as F.
      rewrite Forall_forall in F. now apply F.
    + pose proof (cell_split_names_nonempty _ _ Ea) as F.
      rewrite Forall_forall in F. now apply F.
  - apply Forall_forall. intros n Hn. split.
    + pose proof (cell_split_names_stripped _ _ Eg) as F.
      rewrite Forall_forall in F. now apply F.
    + pose proof (cell_split_names_nonempty _ _ Eg) as F.
      rewrite Forall_forall in F. now apply F.
Qed.

End Vocabulary.

Lemma tracker_record_is_normalised_witness :
  exists book names_a names_g,
    booktracker_book ascii_lower decimal_float mastrer_row (T "Mastrer")
    = inl (book, names_a, names_g)
    /\ title book = T "Mastrer"
    /\ (exists l, language book = PStr l /\ (List.length l <= 10)%nat)
    /\ (status book = PStr (T "finished") ->
        truthy (total_pages book) = true ->
        current_page book = total_pages book)
    /\ (status book <> PStr (T "finished") -> current_page book = PNone)
    /\ Forall (fun n => stripped n /\ n <> []) names_a
    /\ Forall (fun n => stripped n /\ n <> []) names_g.
Proof.
  destruct (booktracker_book ascii_lower decimal_float mastrer_row (T "Mastrer"))
    as [[[book a] g]|e] eqn:E.
  - exists book, a, g. split; [reflexivity|].
    exact (tracker_record_is_normalised ascii_lower decimal_float
             mastrer_row (T "Mastrer") book a g E).
  - vm_compute in E. discriminate.
Defined.

(** ** Client errors of the import endpoints *)

Section ClientErrors.
Variable lower : text -> text.
Variable py_float : text -> option float.
Variable decode : string -> bytes -> option text.
Variable decode_replace : bytes -> text.
Variable chardet_detect : bytes -> option string * float.
Variable csv_DictReader : text -> Z -> list row * bool.
Variable json_loads : text -> option pyval.

Lemma import_csv_rows_not_400 rows broke db :
  fst (import_csv_rows rows broke db) <> HTTPError 400.
Proof.
  unfold import_csv_rows. destruct (csv_loop 2 rows db new_result) as [db1 res].
  destruct broke; [discriminate|].
  destruct (forallb storable (uncommitted db1)); discriminate.
Qed.

Lemma import_booktracker_rows_not_400 rows broke db :
  fst (import_booktracker_rows lower py_float rows broke db) <> HTTPError 400.
Proof.
  unfold import_booktracker_rows.
  destruct (booktracker_loop lower py_float 2 rows db new_result).
  destruct broke; discriminate.
Qed.

Lemma import_json_data_not_400 data db :
  fst (import_json_data data db) <> HTTPError 400.
Proof.
  unfold import_json_data. destruct (books_data data); [|discriminate].
  destruct (json_loop 0 _ db new_result) as [db1 res].
  destruct (forallb storable (uncommitted db1)); discriminate.
Qed.

(** The two CSV endpoints answer 400 exactly for a file name that does not
    end in [.csv]; the JSON endpoint answers 400 exactly for a file name
    that does not end in [.json] or for UTF-8 text that is not a JSON
    document.  An import that answers 400 has left the session as it was. *)
Theorem import_answers_400_for_the_format_only :
  forall filename content db,
    (fst (import_from_booktracker lower py_float decode decode_replace
            chardet_detect csv_DictReader filename content db) = HTTPError 400
     <-> endswith filename (T ".csv") = false)
    /\ (fst (import_from_csv decode csv_DictReader filename content db)
        = HTTPError 400
        <-> endswith filename (T ".csv") = false)
    /\ (fst (import_from_json decode json_loads filename content db)
        = HTTPError 400
        <-> endswith filename (T ".json") = false
            \/ exists text,
                 decode "utf-8" content = Some text /\ json_loads text = None)
    /\ (endswith filename (T ".csv") = false ->
        snd (import_from_booktracker lower py_float decode decode_replace
               chardet_detect csv_DictReader filename content db) = db
        /\ snd (import_from_csv decode csv_DictReader filename content db) = db)
    /\ (fst (import_from_json decode json_loads filename content db)
        = HTTPError 400 ->
        snd (import_from_json decode json_loads filename content db) = db).
Proof.
  intros filename content db.
  repeat match goal with |- _ /\ _ => split end.
  - unfold import_from_booktracker.
    destruct (endswith filename (T ".csv")); cbn [negb fst]; split;
      try reflexivity; try discriminate.
    destruct (csv_DictReader _ _) as [rows broke].
    intros H. now apply import_booktracker_rows_not_400 in H.
  - unfold import_from_csv.
    destruct (endswith filename (T ".csv")); cbn [negb fst]; split;
      try reflexivity; try discriminate.
    destruct (first_decoding _ _ _); [|discriminate].
    destruct (csv_DictReader _ _) as [rows broke].
    intros H. now apply import_csv_rows_not_400 in H.
  - unfold import_from_json.
    change (codec decode "utf-8" content) with (decode "utf-8" content).
    destruct (endswith filename (T ".json")); cbn [negb fst]; split;
      try reflexivity; try (intros _; now left).
    + destruct (decode "utf-8" content) as [text|]; [|discriminate].
      destruct (json_loads text) eqn:E.
      * intros H. now apply import_json_data_not_400 in H.
      * intros _. right. now exists text.
    + intros [H|[text [E1 E2]]]; [discriminate|]. now rewrite E1, E2.
  - intros H. unfold import_from_booktracker, import_from_csv.
    rewrite H. now split.
  - unfold import_from_json.
    destruct (negb (endswith filename (T ".json"))); [reflexivity|].
    destruct (codec decode "utf-8" content) as [text|]; [|discriminate].
    destruct (json_loads text); [|reflexivity].
    intros H. now apply import_json_data_not_400 in H.
Qed.

End ClientErrors.

Lemma import_answers_400_for_the_format_only_witness :
  snd (import_from_csv (fun _ _ => None) (fun _ _ => ([], false))
         (T "books.txt") [104; 105] (session_on dune_catalog))
  = session_on dune_catalog.
Proof.
  apply (import_answers_400_for_the_format_only ascii_lower decimal_float
           (fun _ _ => None) (fun b => b) (fun _ => (None, 0%float))
           (fun _ _ => ([], false)) (fun _ => None)
           (T "books.txt") [104; 105] (session_on dune_catalog)).
  reflexivity.
Defined.

(** ** The books an import adds *)

Lemma next_id_above ids x : In x ids -> x < next_id ids.
Proof.
  unfold next_id. induction ids as [|y ids IH]; cbn [fold_right In];
    [intros []|].
  intros [->|H]; [lia|]. specialize (IH H). lia.
Qed.

Lemma json_authors_books names : forall db book,
  books (current (snd (json_authors db book names))) = books (current db).
Proof.
  induction names as [|n names IH]; intros db book; simpl; [reflexivity|].
  destruct (truthy n); [|apply IH].
  destruct (py_strip n) as [name|e]; [|reflexivity].
  pose proof (get_or_create_author_books db name) as [H _].
  destruct (get_or_create_author db name) as [a db1]. cbn [snd] in H.
  now rewrite IH.
Qed.

Lemma json_genres_books names : forall db book,
  books (current (snd (json_genres db book names))) = books (current db).
Proof.
  induction names as [|n names IH]; intros db book; simpl; [reflexivity|].
  destruct (truthy n); [|apply IH].
  destruct (py_strip n) as [name|e]; [|reflexivity].
  pose proof (get_or_create_genre_books db name) as [H _].
  destruct (get_or_create_genre db name) as [a db1]. cbn [snd] in H.
  now rewrite IH.
Qed.

(** One record of the generic CSV import appends one book when it counts a
    success and none otherwise. *)
Lemma csv_row_appends n r db res :
  exists added,
    appended db (fst (csv_row n r db res)) added
    /\ Z.of_nat (List.length added)
       = success (snd (csv_row n r db res)) - success res.
Proof.
  unfold csv_row, csv_try, appended.
  destruct (cell_strip (row_get r "title" "")) as [title|e];
    [|exists []; cbn; rewrite app_nil_r; split; [reflexivity|lia]].
  destruct (negb (nonempty title));
    [exists []; cbn; rewrite app_nil_r; split; [reflexivity|lia]|].
  destruct (csv_book r title) as [[[book au] ge]|e];
    [|exists []; cbn; rewrite app_nil_r; split; [reflexivity|lia]].
  destruct (csv_authors_spec au db book) as (_ & _ & _ & _ & _ & A & _).
  destruct (csv_authors db book au) as [book1 db1]. cbn [fst snd] in A.
  destruct (csv_genres_spec ge db1 book1) as (_ & _ & _ & _ & _ & G & _).
  destruct (csv_genres db1 book1 ge) as [book2 db2]. cbn [fst snd] in G.
  eexists [_]. cbn. rewrite G, A. split; [reflexivity|lia].
Qed.

Lemma json_row_appends i d db res :
  exists added,
    appended db (fst (json_row i d db res)) added
    /\ Z.of_nat (List.length added)
       = success (snd (json_row i d db res)) - success res.
Proof.
  unfold json_row, json_try, appended.
  destruct (do t <- dict_get d "title" (PStr []); py_strip t) as [title|e];
    [|exists []; cbn; rewrite app_nil_r; split; [reflexivity|lia]].
  destruct (negb (nonempty title));
    [exists []; cbn; rewrite app_nil_r; split; [reflexivity|lia]|].
  destruct (json_book d title) as [book|e];
    [|exists []; cbn; rewrite app_nil_r; split; [reflexivity|lia]].
  destruct (names_of d "authors") as [au|e];
    [|exists []; cbn; rewrite app_nil_r; split; [reflexivity|lia]].
  pose proof (json_authors_books au db book) as A.
  destruct (json_authors db book au) as [[book1|e] db1]; cbn [snd] in A;
    [|exists []; cbn; rewrite A, app_nil_r; split; [reflexivity|lia]].
  destruct (names_of d "genres") as [ge|e];
    [|exists []; cbn; rewrite A, app_nil_r; split; [reflexivity|lia]].
  pose proof (json_genres_books ge db1 book1) as G.
  destruct (json_genres db1 book1 ge) as [[book2|e] db2]; cbn [snd] in G;
    [|exists []; cbn; rewrite G, A, app_nil_r; split; [reflexivity|lia]].
  eexists [_]. cbn. rewrite G, A. split; [reflexivity|lia].
Qed.

Section Added.
Context {R : Type}.
Variable step : Z -> R -> Session -> ImportResult -> Session * ImportResult.
Variable I : Session -> Prop.

Lemma run_appends n records db res :
  (forall k r d s,
      I d ->
      I (fst (step k r d s))
      /\ exists added,
           appended d (fst (step k r d s)) added
           /\ Z.of_nat (List.length added) = success (snd (step k r d s)) - success s) ->
  I db ->
  exists added,
    appended db (fst (run step n records db res)) added
    /\ Z.of_nat (List.length added)
       = success (snd (run step n records db res)) - success res.
Proof.
  intros Hstep. revert n db res.
  induction records as [|r rs IH]; intros n db res Hdb.
  - exists []. unfold appended. cbn. rewrite app_nil_r. split; [reflexivity|lia].
  - rewrite run_cons.
    destruct (Hstep n r db res Hdb) as [Hi [a1 [A1 L1]]].
    destruct (IH (n + 1) _ (snd (step n r db res)) Hi) as [a2 [A2 L2]].
    exists (a1 ++ a2). unfold appended in *. rewrite A2, A1, app_assoc.
    split; [reflexivity|]. rewrite length_app, Nat2Z.inj_add. lia.
Qed.
End Added.

Lemma update_book_tail old k db f nb :
  Forall (fun b => id b <> k) old ->
  books (current db) = old ++ [nb] -> id nb = k ->
  books (current (update_book db k f)) = old ++ [f nb]
  /\ committed (update_book db k f) = committed db.
Proof.
  intros Hold Hb Hk. split; [|reflexivity].
  cbn [update_book current books]. rewrite Hb, map_app. f_equal.
  - rewrite <- (map_id old) at 2. apply map_ext_in. intros b Hin.
    rewrite Forall_forall in Hold. specialize (Hold b Hin).
    apply Z.eqb_neq in Hold. now rewrite Hold.
  - cbn. now rewrite Hk, Z.eqb_refl.
Qed.

Section AddedByTracker.
Variable lower : text -> text.
Variable py_float : text -> option float.

Lemma booktracker_authors_tail old k names : forall db seen nb,
  Forall (fun b => id b <> k) old ->
  books (current db) = old ++ [nb] -> id nb = k ->
  exists nb',
    books (current (booktracker_authors lower db k seen names)) = old ++ [nb']
    /\ id nb' = k
    /\ committed (booktracker_authors lower db k seen names) = committed db
    /\ title nb' = title nb.
Proof.
  induction names as [|n names IH]; intros db seen nb Hold Hb Hk; simpl.
  - now exists nb.
  - destruct (nonempty (strip (lower n)) && negb (mem_text (strip (lower n)) seen));
      [|now apply (IH _ _ nb)].
    pose proof (get_or_create_author_books db n) as [B C].
    destruct (get_or_create_author db n) as [a db1]. cbn [snd] in B, C.
    rewrite <- C. rewrite Hb in B.
    destruct (stored_book db1 k) as [b|].
    + destruct (has_author b a); [now apply (IH db1 _ nb)|].
      destruct (update_book_tail old k db1
                  (fun b => with_authors b (authors b ++ [a])) nb Hold B Hk)
        as [U1 U2].
      rewrite <- U2.
      destruct (IH _ (strip (lower n) :: seen) _ Hold U1 Hk)
        as (nb' & I1 & I2 & I3 & I4).
      now exists nb'.
    + now apply (IH db1 _ nb).
Qed.

Lemma booktracker_genres_tail old k names : forall db seen nb,
  Forall (fun b => id b <> k) old ->
  books (current db) = old ++ [nb] -> id nb = k ->
  exists nb',
    books (current (booktracker_genres lower db k seen names)) = old ++ [nb']
    /\ id nb' = k
    /\ committed (booktracker_genres lower db k seen names) = committed db
    /\ title nb' = title nb.
Proof.
  induction names as [|n names IH]; intros db seen nb Hold Hb Hk; simpl.
  - now exists nb.
  - destruct (nonempty (strip (lower n)) && negb (mem_text (strip (lower n)) seen));
      [|now apply (IH _ _ nb)].
    pose proof (get_or_create_genre_books db n) as [B C].
    destruct (get_or_create_genre db n) as [a db1]. cbn [snd] in B, C.
    rewrite <- C. rewrite Hb in B.
    destruct (stored_book db1 k) as [b|].
    + destruct (has_genre b a); [now apply (IH db1 _ nb)|].
      destruct (update_book_tail old k db1
                  (fun b => with_genres b (genres b ++ [a])) nb Hold B Hk)
        as [U1 U2].
      rewrite <- U2.
      destruct (IH _ (strip (lower n) :: seen) _ Hold U1 Hk)
        as (nb' & I1 & I2 & I3 & I4).
      now exists nb'.
    + now apply (IH db1 _ nb).
Qed.

Lemma fresh_key old : Forall (fun b : Book => id b <> next_id (map id old)) old.
Proof.
  apply Forall_forall. intros b Hin.
  pose proof (next_id_above (map id old) (id b) (in_map id _ _ Hin)). lia.
Qed.

Lemma booktracker_row_appends n r db res :
  clean db ->
  exists added,
    appended db (fst (booktracker_row lower py_float n r db res)) added
    /\ Z.of_nat (List.length added)
       = success (snd (booktracker_row lower py_float n r db res)) - success res.
Proof.
  intros Hc. unfold booktracker_row, booktracker_try, appended.
  destruct (cell_strip (row_get r "title" "")) as [title|e].
  2:{ exists []. cbn [fst snd tally]. rewrite (db_rollback_clean db Hc), app_nil_r.
      cbn. split; [reflexivity|lia]. }
  destruct (negb (nonempty title));
    [exists []; cbn; rewrite app_nil_r; split; [reflexivity|lia]|].
  destruct (title_exists (current db) title);
    [exists []; cbn; rewrite app_nil_r; split; [reflexivity|lia]|].
  destruct (booktracker_book lower py_float r title) as [[[book au] ge]|e].
  2:{ exists []. cbn [fst snd tally]. rewrite (db_rollback_clean db Hc), app_nil_r.
      cbn. split; [reflexivity|lia]. }
  unfold db_add_book.
  destruct (negb (storable book)).
  { exists []. cbn [fst snd tally db_rollback committed current].
    unfold clean in Hc. rewrite <- Hc, app_nil_r.
    cbn. split; [reflexivity|lia]. }
  set (k := next_id (map id (books (current db)))).
  set (db1 := {| committed := committed db; current := _ |}).
  destruct (booktracker_authors_tail (books (current db)) k au db1 []
              (inserted k book) (fresh_key _) eq_refl eq_refl)
    as (nb1 & A1 & A2 & _ & _).
  destruct (booktracker_genres_tail (books (current db)) k ge _ [] nb1
              (fresh_key _) A1 A2) as (nb2 & G1 & _ & _ & _).
  exists [nb2]. cbn [fst snd tally db_commit current]. rewrite G1.
  cbn. split; [reflexivity|lia].
Qed.

(** The success count of an import is the number of books it added, and an
    import only appends to the book table: the books that were there are
    still there, in place and unchanged.  (The tracker import is run on a
    session that holds nothing uncommitted, as the endpoint does.) *)
Theorem success_counts_the_books_added :
  (forall n rows db res,
      clean db ->
      exists added,
        appended db (fst (booktracker_loop lower py_float n rows db res)) added
        /\ Z.of_nat (List.length added)
           = success (snd (booktracker_loop lower py_float n rows db res))
             - success res)
  /\ (forall n rows db res,
         exists added,
           appended db (fst (csv_loop n rows db res)) added
           /\ Z.of_nat (List.length added)
              = success (snd (csv_loop n rows db res)) - success res)
  /\ (forall i records db res,
         exists added,
           appended db (fst (json_loop i records db res)) added
           /\ Z.of_nat (List.length added)
              = success (snd (json_loop i records db res)) - success res).
Proof.
  split; [|split].
  - intros n rows db res Hc. rewrite booktracker_loop_run.
    apply (run_appends _ clean); [|exact Hc].
    intros k r d s Hd. split.
    + now apply booktracker_row_clean.
    + now apply booktracker_row_appends.
  - intros n rows db res. rewrite csv_loop_run.
    apply (run_appends _ (fun _ => True)); [|exact I].
    intros k r d s _. split; [exact I|apply csv_row_appends].
  - intros i records db res. rewrite json_loop_run.
    apply (run_appends _ (fun _ => True)); [|exact I].
    intros k r d s _. split; [exact I|apply json_row_appends].
Qed.

End AddedByTracker.

Lemma success_counts_the_books_added_witness :
  exists added,
    appended (session_on dune_catalog)
      (fst (booktracker_loop ascii_lower decimal_float 2
              [mastrer_row; dune_again; short_row]
              (session_on dune_catalog) new_result)) added
    /\ Z.of_nat (List.length added)
       = success (snd (booktracker_loop ascii_lower decimal_float 2
                         [mastrer_row; dune_again; short_row]
                         (session_on dune_catalog) new_result))
         - success new_result.
Proof.
  apply (proj1 (success_counts_the_books_added ascii_lower decimal_float)).
  reflexivity.
Defined.

(** ** Records that are imported *)

Lemma lookup_in {V : Type} k (d : list (text * V)) v :
  lookup k d = Some v -> exists k', In (k', v) d.
Proof.
  induction d as [|[k' v'] d IH]; simpl; [discriminate|].
  destruct (text_eqb k k').
  - intros H. injection H as ->. exists k'. now left.
  - intros H. destruct (IH H) as [k'' Hin]. exists k''. now right.
Qed.

Lemma row_get_complete r k d : complete r -> exists x, row_get r k d = Some x.
Proof.
  intros H. unfold row_get. destruct (lookup (T k) r) as [v|] eqn:E.
  - destruct (lookup_in _ _ _ E) as [k' Hin].
    unfold complete in H. rewrite Forall_forall in H.
    specialize (H _ Hin). cbn in H. destruct v; [now eexists|contradiction].
  - now eexists.
Qed.

(** Replaces every cell read of a complete row by the text it holds. *)
Ltac cells_given H :=
  repeat match goal with
         | |- context [row_get ?r ?k ?d] =>
             let x := fresh "cell" in
             let E := fresh "E" in
             destruct (row_get_complete r k d H) as [x E]; rewrite E
         end.

Lemma cell_or_some a b : exists x, cell_or (Some a) (Some b) = Some x.
Proof. destruct a; now eexists. Qed.

Lemma csv_book_complete r t :
  complete r ->
  exists book au ge,
    csv_book r t = inl (book, au, ge) /\ title book = t.
Proof.
  intros H. unfold csv_book. cells_given H.
  destruct (cell_or_some cell cell0) as [x1 ->].
  destruct (cell_or_some cell1 cell2) as [x2 ->].
  cbn [cell_split_names cell_strip]. do 3 eexists. split; reflexivity.
Qed.


Lemma csv_row_imported n r db res :
  csv_importable r ->
  exists t book,
    row_get r "title" "" = Some t
    /\ snd (csv_row n r db res) = count_success res
    /\ appended db (fst (csv_row n r db res)) [book]
    /\ title book = strip t
    /\ rating_ok (rating book) = true
    /\ storable book = true.
Proof.
  intros (Hc & t & Ht & Hne & Hs). exists t.
  unfold csv_row, csv_try, appended. rewrite Ht. cbn [cell_strip].
  rewrite (nonempty_true _ Hne). cbn [negb].
  destruct (csv_book_complete r (strip t) Hc) as (book & au & ge & Eb & Bt).
  rewrite Eb. pose proof (csv_book_rating_ok _ _ _ _ _ Eb) as Br.
  destruct (Hs _ _ _ Eb) as (_ & _ & Bs).
  destruct (csv_authors_spec au db book) as (A1 & _ & A3 & _ & _ & A6 & A7).
  destruct (csv_authors db book au) as [book1 db1]. cbn [fst snd] in *.
  destruct (csv_genres_spec ge db1 book1) as (G1 & _ & G3 & _ & _ & G6 & G7).
  destruct (csv_genres db1 book1 ge) as [book2 db2]. cbn [fst snd] in *.
  unfold db_add_book. cbn [fst snd tally current books].
  rewrite G6, A6. eexists. split; [reflexivity|]. split; [reflexivity|].
  split; [reflexivity|]. cbn [inserted title rating].
  split; [congruence|]. split; [congruence|].
  apply storable_inserted.
  rewrite (storable_scalars book book2) by congruence. exact Bs.
Qed.

Lemma csv_loop_imported rows : forall n db res,
  Forall csv_importable rows ->
  exists added,
    snd (csv_loop n rows db res)
    = {| success := success res + Z.of_nat (List.length rows);
         failed := failed res; skipped := skipped res; errors := errors res |}
    /\ appended db (fst (csv_loop n rows db res)) added
    /\ forallb storable added = true
    /\ Forall2 (fun r book =>
                  exists t, row_get r "title" "" = Some t
                            /\ title book = strip t
                            /\ rating_ok (rating book) = true)
               rows added.
Proof.
  induction rows as [|r rows IH]; intros n db res H.
  - exists []. unfold appended. cbn. rewrite Z.add_0_r, app_nil_r.
    repeat split; [now destruct res|constructor].
  - inversion H as [|? ? Hr Hrows]; subst. cbn [csv_loop].
    destruct (csv_row_imported n r db res Hr)
      as (t & book & R0 & R1 & R2 & R3 & R4 & R5).
    destruct (csv_row n r db res) as [db1 res1]. cbn [fst snd] in *.
    subst res1.
    destruct (IH (n + 1) db1 (count_success res) Hrows)
      as (added & I1 & I2 & I3 & I4).
    exists (book :: added). unfold appended in *.
    rewrite I1, I2, R2, <- app_assoc.
    cbn [count_success success failed skipped errors List.length forallb app].
    rewrite R5, I3. repeat split.
    + f_equal. lia.
    + constructor; [|exact I4]. now exists t.
Qed.

Lemma skipn_past {A : Type} (l r : list A) : skipn (List.length l) (l ++ r) = r.
Proof. induction l as [|x l IH]; [reflexivity|exact IH]. Qed.

(** A generic CSV file is imported whole into a clean session when each of
    its rows has a cell for every column, a title that is not blank, no
    author or genre listed twice and no number outside 64 bits: the
    endpoint answers with as many successes as rows, no failure and no
    skip, and the books are committed, one for each row in the order of
    the file, each with the trimmed title of its row and a rating that is
    absent or within 1..10. *)
Theorem complete_csv_file_is_imported :
  forall rows db,
    clean db -> Forall csv_importable rows ->
    exists added,
      fst (import_csv_rows rows false db)
      = Result {| success := Z.of_nat (List.length rows);
                  failed := 0; skipped := 0; errors := [] |}
      /\ clean (snd (import_csv_rows rows false db))
      /\ books (committed (snd (import_csv_rows rows false db)))
         = books (committed db) ++ added
      /\ Forall2 (fun r book =>
                    exists t, row_get r "title" "" = Some t
                              /\ title book = strip t
                              /\ rating_ok (rating book) = true)
                 rows added.
Proof.
  intros rows db Hc H. unfold import_csv_rows.
  destruct (csv_loop_imported rows 2 db new_result H)
    as (added & L1 & L2 & L3 & L4).
  pose proof (csv_loop_committed rows 2 db new_result) as C.
  destruct (csv_loop 2 rows db new_result) as [db1 res].
  cbn [fst snd] in *. subst res. unfold appended in L2.
  unfold uncommitted. rewrite C, L2, <- Hc, skipn_past, L3.
  exists added. cbn [fst snd db_commit committed]. rewrite L2.
  repeat split. exact L4.
Qed.

Lemma complete_cells l : complete (cells l).
Proof.
  unfold complete, cells. apply Forall_forall. intros kv Hin.
  apply in_map_iff in Hin as [x [<- _]]. discriminate.
Qed.

Lemma complete_csv_file_is_imported_witness :
  exists added,
    fst (import_csv_rows [odd_status_row; dune_again] false empty_session)
    = Result {| success := Z.of_nat (List.length [odd_status_row; dune_again]);
                failed := 0; skipped := 0; errors := [] |}
    /\ books (committed (snd (import_csv_rows [odd_status_row; dune_again]
                                false empty_session)))
       = books (committed empty_session) ++ added
    /\ map title added = [T "Solaris"; T "Dune"].
Proof.
  assert (H : Forall csv_importable [odd_status_row; dune_again]).
  { constructor; [|constructor; [|constructor]];
      (split; [apply complete_cells|]).
    - exists (T "Solaris"). split; [reflexivity|].
      split; [vm_compute; discriminate|].
      intros book au ge E. vm_compute in E. injection E as <- <- <-.
      repeat split; reflexivity.
    - exists (T "Dune"). split; [reflexivity|].
      split; [vm_compute; discriminate|].
      intros book au ge E. vm_compute in E. injection E as <- <- <-.
      repeat split; reflexivity. }
  destruct (complete_csv_file_is_imported [odd_status_row; dune_again]
              empty_session eq_refl H) as (added & H1 & _ & H3 & H4).
  exists added. split; [exact H1|]. split; [exact H3|].
  inversion H4 as [|r1 b1 rs1 bs1 (t1 & E1 & T1 & _) H5]; subst.
  inversion H5 as [|r2 b2 rs2 bs2 (t2 & E2 & T2 & _) H6]; subst.
  inversion H6; subst.
  injection E1 as <-. injection E2 as <-.
  cbn [map]. now rewrite T1, T2.
Defined.

Section CompleteTracker.
Variable lower : text -> text.
Variable py_float : text -> option float.





End CompleteTracker.


(** ** JSON records that cannot be taken *)

Lemma json_authors_raises names : forall db book,
  forallb name_item_ok names = false ->
  exists e, fst (json_authors db book names) = inr e.
Proof.
  induction names as [|n names IH]; intros db book H; [discriminate|].
  cbn [forallb] in H. cbn [json_authors].
  unfold name_item_ok in H at 1.
  destruct (truthy n) eqn:Tn; cbn [negb orb] in H.
  - destruct n; cbn [py_strip]; try (eexists; reflexivity).
    cbn [andb] in H. destruct (get_or_create_author db (strip s)).
    now apply IH.
  - now apply IH.
Qed.

Lemma json_genres_raises names : forall db book,
  forallb name_item_ok names = false ->
  exists e, fst (json_genres db book names) = inr e.
Proof.
  induction names as [|n names IH]; intros db book H; [discriminate|].
  cbn [forallb] in H. cbn [json_genres].
  unfold name_item_ok in H at 1.
  destruct (truthy n) eqn:Tn; cbn [negb orb] in H.
  - destruct n; cbn [py_strip]; try (eexists; reflexivity).
    cbn [andb] in H. destruct (get_or_create_genre db (strip s)).
    now apply IH.
  - now apply IH.
Qed.

Lemma names_of_bad kvs key :
  names_ok (lookup (T key) kvs) = false ->
  (exists e, names_of (PDict kvs) key = inr e)
  \/ (exists l, names_of (PDict kvs) key = inl l
                /\ forallb name_item_ok l = false).
Proof.
  unfold names_of, dict_get, names_ok.
  destruct (lookup (T key) kvs) as [v|]; [|discriminate].
  destruct v; intros H; try discriminate; cbn [wrap_str py_iter];
    try (left; eexists; reflexivity).
  right. now eexists.
Qed.

(** A JSON record that is not an object with a string for a title that is
    not blank, or that lists an author or a genre that is neither a string
    nor skipped, is counted as failed at its position; no book is added and
    nothing is committed for it. *)
Theorem malformed_json_record_is_rejected :
  forall i d db res,
    json_importable d = false ->
    exists c,
      snd (json_row i d db res)
      = count_failed res {| diag_label := BookNo; diag_position := i + 1;
                            diag_cause := c |}
      /\ appended db (fst (json_row i d db res)) []
      /\ committed (fst (json_row i d db res)) = committed db.
Proof.
  intros i d db res H. unfold appended. rewrite app_nil_r.
  unfold json_row, json_try.
  destruct d as [| | | | | |kvs];
    try (eexists; cbn; repeat split; reflexivity).
  cbn [json_importable] in H. cbn [dict_get].
  destruct (lookup (T "title") kvs) as [v|] eqn:Et;
    [|eexists; cbn; repeat split; reflexivity].
  destruct v as [| | | |t| |];
    try (eexists; cbn; repeat split; reflexivity).
  cbn [py_strip]. destruct (nonempty (strip t)) eqn:Ne;
    [|eexists; cbn; repeat split; reflexivity].
  cbn [negb andb] in H.
  destruct (json_book (PDict kvs) (strip t)) as [book|e];
    [|eexists; cbn; repeat split; reflexivity].
  destruct (names_ok (lookup (T "authors") kvs)) eqn:Na.
  - cbn [andb] in H.
    destruct (names_of (PDict kvs) "authors") as [au|e];
      [|eexists; cbn; repeat split; reflexivity].
    pose proof (json_authors_books au db book) as B1.
    pose proof (json_authors_committed au db book) as C1.
    destruct (json_authors db book au) as [[book1|e] db1]; cbn [snd] in B1, C1;
      [|eexists; cbn [fst snd tally negb]; repeat split; assumption].
    destruct (names_of_bad kvs "genres" H) as [[e ->]|(ge & -> & Hg)];
      [eexists; cbn [fst snd tally negb]; repeat split; assumption|].
    destruct (json_genres_raises ge db1 book1 Hg) as [e He].
    pose proof (json_genres_books ge db1 book1) as B2.
    pose proof (json_genres_committed ge db1 book1) as C2.
    destruct (json_genres db1 book1 ge) as [[book2|e'] db2];
      cbn [fst snd] in He, B2, C2; [discriminate|].
    eexists; cbn [fst snd tally negb]; repeat split; congruence.
  - destruct (names_of_bad kvs "authors" Na) as [[e ->]|(au & -> & Ha)];
      [eexists; cbn; repeat split; reflexivity|].
    destruct (json_authors_raises au db book Ha) as [e He].
    pose proof (json_authors_books au db book) as B1.
    pose proof (json_authors_committed au db book) as C1.
    destruct (json_authors db book au) as [[book1|e'] db1];
      cbn [fst snd] in He, B1, C1; [discriminate|].
    eexists; cbn [fst snd tally negb]; repeat split; assumption.
Qed.

Lemma malformed_json_record_is_rejected_witness :
  exists c,
    snd (json_row 0 (obj [("title", PStr (T "Emma"));
                          ("authors", PList [PStr (T "Jane Austen"); PInt 7])]%string)
                  empty_session new_result)
    = count_failed new_result {| diag_label := BookNo; diag_position := 0 + 1;
                                 diag_cause := c |}
    /\ appended empty_session
         (fst (json_row 0 (obj [("title", PStr (T "Emma"));
                                ("authors", PList [PStr (T "Jane Austen"); PInt 7])]%string)
                        empty_session new_result)) []
    /\ committed
         (fst (json_row 0 (obj [("title", PStr (T "Emma"));
                                ("authors", PList [PStr (T "Jane Austen"); PInt 7])]%string)
                        empty_session new_result))
       = committed empty_session.
Proof.
  apply (malformed_json_record_is_rejected 0
           (obj [("title", PStr (T "Emma"));
                 ("authors", PList [PStr (T "Jane Austen"); PInt 7])]%string)).
  reflexivity.
Defined.

(** ** The book endpoints *)

Lemma stored_book_id db k b : stored_book db k = Some b -> id b = k.
Proof.
  unfold stored_book. intros H. apply find_some in H as [_ H].
  now apply Z.eqb_eq.
Qed.

Lemma find_replaced (c : Book) (l : list Book) (j : Z) :
  find (fun b => id b =? j) (map (fun b => if id b =? id c then c else b) l)
  = if j =? id c
    then match find (fun b => id b =? j) l with
         | Some _ => Some c
         | None => None
         end
    else find (fun b => id b =? j) l.
Proof.
  induction l as [|x l IH]; cbn [map find]; [now destruct (j =? id c)|].
  rewrite IH. clear IH.
  destruct (Z.eqb_spec (id x) (id c)) as [Exc|Exc];
    destruct (Z.eqb_spec j (id c)) as [Ejc|Ejc];
    destruct (Z.eqb_spec (id c) j) as [Ecj|Ecj];
    destruct (Z.eqb_spec (id x) j) as [Exj|Exj];
    try reflexivity; congruence.
Qed.

(** The commit of a changed book: it is the row of its key from then on. *)
Lemma save_book_stored db b c :
  stored_book db (id c) = Some b ->
  stored_book (save_book db c) (id c) = Some c.
Proof.
  intros H.
  unfold stored_book, save_book, db_commit, update_book.
  cbn [current books]. rewrite find_replaced, Z.eqb_refl.
  unfold stored_book in H. now rewrite H.
Qed.

Lemma save_book_same_but db b c :
  stored_book db (id c) = Some b ->
  title c = title b -> authors c = authors b -> genres c = genres b ->
  same_but (id c) db (save_book db c).
Proof.
  intros H Ht Ha Hg. unfold same_but.
  rewrite (save_book_stored db b c H), H.
  unfold save_book, db_commit, update_book, stored_book.
  cbn [current books author_table genre_table].
  split; [reflexivity|]. split; [reflexivity|]. split; [|split].
  - rewrite map_map. apply map_ext. intros x.
    destruct (id x =? id c) eqn:E; [|reflexivity].
    apply Z.eqb_eq in E. now symmetry.
  - intros j Hj. rewrite find_replaced. apply Z.eqb_neq in Hj. now rewrite Hj.
  - now repeat split.
Qed.

Lemma same_but_refl k db : same_but k db db.
Proof.
  unfold same_but. repeat split; try reflexivity.
  destruct (stored_book db k); now repeat split.
Qed.

Lemma progress_change_keeps n b c :
  progress_change n b = Some c ->
  id c = id b /\ title c = title b /\ authors c = authors b
  /\ genres c = genres b /\ format c = format b /\ rating c = rating b
  /\ total_pages c = total_pages b /\ current_page c = PInt n.
Proof.
  unfold progress_change.
  destruct (is_str _ _ && _);
    cbn [with_status with_current_page total_pages];
    destruct (truthy (total_pages b));
    try destruct (int_ge n (total_pages b)) as [[|]|];
    intros H; try discriminate; injection H as <-; now repeat split.
Qed.

(** Starting, finishing, reporting progress and setting the cover change
    the one book they are asked about, and of it never the key, the title,
    the authors or the genres; no book comes or goes and the author and
    genre tables stay as they are, whatever the request and whatever the
    answer. *)
Theorem lifecycle_changes_one_book :
  forall k db rating current_page data,
    same_but k db (snd (start_reading k db))
    /\ same_but k db (snd (finish_reading k rating db))
    /\ same_but k db (snd (update_progress k current_page db))
    /\ same_but k db (snd (update_book_cover k data db)).
Proof.
  intros k db rating n data.
  unfold start_reading, finish_reading, update_progress, update_book_cover.
  destruct (stored_book db k) as [b|] eqn:E;
    [|repeat split; apply same_but_refl].
  pose proof (stored_book_id _ _ _ E) as Hk. subst k.
  split; [|split; [|split]].
  - cbn [snd]. now apply (save_book_same_but db b (with_status b _)).
  - cbn [snd].
    match goal with
    | |- same_but _ _ (save_book _ ?c) =>
        assert (H : id c = id b /\ title c = title b
                    /\ authors c = authors b /\ genres c = genres b)
    end.
    { destruct (truthy (total_pages (with_status b _)));
        destruct rating as [r|]; try destruct (r =? 0); now repeat split. }
    destruct H as (H1 & H2 & H3 & H4). rewrite <- H1 in E |- * at 1.
    now apply (save_book_same_but db b).
  - destruct (progress_change n b) as [c|] eqn:P; cbn [snd];
      [|apply same_but_refl].
    destruct (int64 n); cbn [snd]; [|apply same_but_refl].
    destruct (progress_change_keeps _ _ _ P) as (H1 & H2 & H3 & H4 & _).
    rewrite <- H1 in E |- *. now apply (save_book_same_but db b).
  - destruct (negb (truthy _)); cbn [snd]; [apply same_but_refl|].
    destruct (bindable _); cbn [snd]; [|apply same_but_refl].
    now apply (save_book_same_but db b (with_cover_url b _)).
Qed.

Lemma find_fresh_tail (old : list Book) (nb : Book) :
  Forall (fun b => id b <> id nb) old ->
  find (fun b => id b =? id nb) (old ++ [nb]) = Some nb.
Proof.
  intros H. apply find_snoc; [|apply Z.eqb_refl].
  induction H as [|x l Hx _ IH]; [reflexivity|].
  cbn [find]. apply Z.eqb_neq in Hx. now rewrite Hx.
Qed.

Lemma csv_authors_quotes names : forall db book,
  quotes (fst (csv_authors db book names)) = quotes book.
Proof.
  induction names as [|n names IH]; intros db book; cbn [csv_authors];
    [reflexivity|].
  destruct (get_or_create_author db n) as [a db1]. now rewrite IH.
Qed.

Lemma csv_genres_quotes names : forall db book,
  quotes (fst (csv_genres db book names)) = quotes book.
Proof.
  induction names as [|n names IH]; intros db book; cbn [csv_genres];
    [reflexivity|].
  destruct (get_or_create_genre db n) as [g db1]. now rewrite IH.
Qed.

Lemma str_or_null_opt_str x : str_or_null (opt_str x) = true.
Proof. now destruct x. Qed.

Lemma bindable_opt_str x : bindable (opt_str x) = true.
Proof. now destruct x. Qed.

Lemma int_or_null_unset x : int_or_null (int_or_unset x) = true.
Proof. now destruct x. Qed.

Lemma in_enum_format f : in_enum BookFormat (PStr (format_value f)) = true.
Proof. now destruct f. Qed.

Lemma in_enum_status st : in_enum BookStatus (PStr (status_value st)) = true.
Proof. now destruct st. Qed.

(** The [progress] of a book whose page count is an integer or unset and
    whose page is an integer is defined. *)
Lemma progress_defined_int b n :
  int_or_null (total_pages b) = true -> current_page b = PInt n ->
  progress_defined b = true.
Proof.
  unfold progress_defined, py_or. intros Ht ->.
  destruct (total_pages b); try discriminate; [reflexivity|].
  cbn [truthy]. destruct (n0 =? 0), (n =? 0); reflexivity.
Qed.

Lemma forallb_map {A B : Type} (f : A -> B) (p : B -> bool) l :
  forallb p (map f l) = forallb (fun x => p (f x)) l.
Proof. induction l as [|x l IH]; [reflexivity|]. cbn. now rewrite IH. Qed.

(** A book created from a request within [creatable] that schedules no
    search for a cover is answered with the stored book, which is stored
    and committed as the last book of the catalog, under a key by which
    [get_book] returns what [create_book] returned; it has the title as
    given and, as its author and genre names, the names given, trimmed. *)
Theorem created_book_is_read_back :
  forall data db,
    creatable data = true -> cover_search_scheduled data = false ->
    exists book,
      fst (create_book data db) = Answer book
      /\ get_book (id book) (snd (create_book data db)) = Answer book
      /\ appended db (snd (create_book data db)) [book]
      /\ clean (snd (create_book data db))
      /\ title book = BookCreate.title data
      /\ Permutation (map author_name (authors book))
                     (map strip (BookCreate.authors data))
      /\ Permutation (map genre_name (genres book))
                     (map strip (BookCreate.genres data)).
Proof.
  intros data db Hc _. unfold creatable in Hc.
  rewrite !andb_true_iff in Hc.
  destruct Hc as ((((((((Ht & Hra) & Htp) & Hcp) & Hpy) & Hau) & Hge) & _) & _).
  assert (Hrb : bindable (int_or_unset (BookCreate.rating data)) = true
                /\ rating_ok (int_or_unset (BookCreate.rating data)) = true).
  { destruct (BookCreate.rating data) as [r|]; [|now split].
    split; [|exact Hra]. apply andb_true_iff in Hra as [R1 R2].
    apply Z.leb_le in R1. apply Z.leb_le in R2.
    cbn [int_or_unset bindable]. unfold int64. apply andb_true_iff.
    split; [apply Z.leb_le|apply Z.ltb_lt]; lia. }
  destruct Hrb as [Hrb Hro].
  unfold create_book, get_book, stored_book, appended.
  match goal with
  | |- context [csv_authors db ?b ?l] =>
      pose proof (csv_authors_quotes l db b) as A7;
      destruct (csv_authors_spec l db b) as (A1 & _ & _ & A4 & A5 & A6 & A8);
      destruct (csv_authors db b l) as [book1 db1]
  end.
  cbn [fst snd] in A1, A4, A5, A6, A7, A8.
  match goal with
  | |- context [csv_genres db1 book1 ?l] =>
      pose proof (csv_genres_quotes l db1 book1) as G7;
      destruct (csv_genres_spec l db1 book1) as (G1 & _ & _ & G4 & G5 & G6 & G8);
      destruct (csv_genres db1 book1 l) as [book2 db2]
  end.
  cbn [fst snd] in G1, G4, G5, G6, G7, G8.
  rewrite A8 in G8. rewrite A7 in G7. rewrite A1 in G1.
  cbn [title quotes authors genres app] in G1, G7, A5, G5, A4, G4.
  unfold scalars in G8.
  cbn [subtitle description language format status total_pages current_page
       published_year rating notes location cover_url isbn] in G8.
  injection G8 as S1 S2 S3 S4 S5 S6 S7 S8 S9 S10 S11 S12 S13.
  assert (St : storable book2 = true).
  { unfold storable, scalars. rewrite S1, S2, S3, S4, S5, S6, S7, S8, S9, S10,
      S11, S12, S13. cbn [forallb].
    rewrite !bindable_opt_str, Htp, Hpy, Hrb. cbn [bindable].
    now rewrite Hcp. }
  rewrite St. unfold db_add_book. cbn [fst snd db_commit current books].
  rewrite G6, A6.
  assert (Hr : BookResponse (inserted (next_id (map id (books (current db))))
                                      book2) = true).
  { unfold BookResponse.
    cbn [inserted title subtitle description language format status
         total_pages current_page published_year rating notes quotes location
         cover_url isbn authors genres].
    rewrite (progress_defined_int _ (BookCreate.current_page data));
      [|cbn [inserted total_pages]; rewrite S6; apply int_or_null_unset
       |cbn [inserted current_page]; now rewrite S7].
    rewrite G1, G7, S1, S2, S3, S4, S5, S6, S7, S8, S9, S10, S11, S12, S13.
    cbn [column_default].
    rewrite !str_or_null_opt_str, !int_or_null_unset, in_enum_format,
      in_enum_status.
    cbn [is_string is_integer list_of_str andb].
    rewrite forallb_map. cbn [is_string].
    replace (forallb (fun _ : text => true) (BookCreate.quotes data)) with true
      by (symmetry; apply forallb_forall; reflexivity).
    rewrite <- (forallb_map author_name (within 1 255)), G4, A5.
    rewrite <- (forallb_map genre_name (within 1 100)), G5, A4.
    change (map author_name [] ++ ?l) with l.
    change (map genre_name [] ++ ?l) with l.
    rewrite !forallb_map, Ht, Hro, Hau, Hge. reflexivity. }
  unfold respond. rewrite Hr. cbn [fst snd current books db_commit].
  eexists. split; [reflexivity|].
  split.
  { change (id (inserted ?k book2)) with k.
    change (next_id (map id (books (current db))))
      with (id (inserted (next_id (map id (books (current db)))) book2)) at 1.
    rewrite find_fresh_tail; [now rewrite Hr|]. apply fresh_key. }
  split; [reflexivity|]. split; [reflexivity|].
  cbn [inserted title authors genres].
  rewrite G1, G4, A5, G5, A4. repeat split; apply Permutation_refl.
Qed.

Lemma find_filter_other (l : list Book) (j k : Z) :
  j <> k ->
  find (fun b => id b =? j) (filter (fun b => negb (id b =? k)) l)
  = find (fun b => id b =? j) l.
Proof.
  intros H. induction l as [|x l IH]; [reflexivity|]. cbn [filter find].
  destruct (Z.eqb_spec (id x) k) as [Ek|Ek]; cbn [negb find].
  - destruct (Z.eqb_spec (id x) j); [congruence|exact IH].
  - now rewrite IH.
Qed.

Lemma find_filter_self (l : list Book) (k : Z) :
  find (fun b => id b =? k) (filter (fun b => negb (id b =? k)) l) = None.
Proof.
  induction l as [|x l IH]; [reflexivity|]. cbn [filter].
  destruct (id x =? k) eqn:E; cbn [negb find]; [exact IH|].
  now rewrite E.
Qed.

(** Deleting a stored book answers without error and is committed; the key
    is answered with 404 from then on, every other book is read as before,
    and no author and no genre is removed with the book. *)
Theorem deleted_book_is_gone :
  forall k db b,
    stored_book db k = Some b ->
    fst (delete_book k db) = Answer tt
    /\ get_book k (snd (delete_book k db)) = HTTPException 404
    /\ (forall j, j <> k ->
                  get_book j (snd (delete_book k db)) = get_book j db)
    /\ author_table (current (snd (delete_book k db)))
       = author_table (current db)
    /\ genre_table (current (snd (delete_book k db)))
       = genre_table (current db)
    /\ clean (snd (delete_book k db)).
Proof.
  intros k db b H. unfold delete_book. rewrite H. cbn [fst snd].
  unfold get_book, stored_book, db_commit. cbn [current books].
  rewrite find_filter_self. repeat split.
  intros j Hj. now rewrite find_filter_other.
Qed.

(** The response model takes a book it took before a change of status,
    page and rating to values it takes. *)
Lemma BookResponse_changed b st cp ra :
  BookResponse b = true ->
  in_enum BookStatus st = true -> is_integer cp = true ->
  rating_ok ra = true ->
  BookResponse (with_rating (with_current_page (with_status b st) cp) ra)
  = true.
Proof.
  unfold BookResponse.
  cbn [with_rating with_current_page with_status title subtitle description
       language format status total_pages current_page published_year rating
       notes quotes location cover_url isbn authors genres].
  intros H Hs Hc Hr. rewrite !andb_true_iff in H.
  destruct H as (((((((((((((((((F1 & F2) & F3) & F4) & F5) & _) & F7) & _)
                           & F9) & _) & F11) & F12) & F13) & F14) & F15) & F16)
                  & F17) & _).
  rewrite F1, F2, F3, F4, F5, Hs, F7, Hc, F9, Hr, F11, F12, F13, F14, F15, F16,
    F17.
  destruct cp as [| |n| | | |]; try discriminate.
  now rewrite (progress_defined_int _ n).
Qed.

(** Reads the changed book as [b] with its status, page and rating set. *)
Ltac lifecycle_response b :=
  match goal with
  | |- BookResponse ?c = true =>
      change (BookResponse
                (with_rating
                   (with_current_page (with_status b (status c))
                                      (current_page c))
                   (rating c)) = true);
      cbn [with_rating with_current_page with_status status current_page
           rating];
      apply BookResponse_changed
  end.

Lemma BookResponse_parts b :
  BookResponse b = true ->
  in_enum BookStatus (status b) = true
  /\ int_or_null (total_pages b) = true
  /\ is_integer (current_page b) = true
  /\ rating_ok (rating b) = true.
Proof.
  unfold BookResponse. intros H. rewrite !andb_true_iff in H.
  destruct H as (((((((((((((((((_ & _) & _) & _) & _) & F6) & F7) & F8)
                           & _) & F10) & _) & _) & _) & _) & _) & _) & _) & _).
  now repeat split.
Qed.

Lemma progress_change_response n b c :
  BookResponse b = true -> progress_change n b = Some c ->
  BookResponse c = true.
Proof.
  intros H P. destruct (BookResponse_parts b H) as (Hs & _ & _ & Hr).
  unfold progress_change in P.
  destruct (is_str _ _ && _);
    cbn [with_status with_current_page total_pages] in P;
    destruct (truthy (total_pages b));
    try destruct (int_ge n (total_pages b)) as [[|]|];
    try discriminate; injection P as <-;
    lifecycle_response b; try assumption; reflexivity.
Qed.

(** Reporting the page [n] reached, from 0 and within 64 bits, in a stored
    book the response model takes never fails; the answer is the row read
    back afterwards, and it holds [n] itself, also past the last page.  The
    book is finished when it has a page count other than 0 and [n] reaches
    it; short of that a planned book becomes a book being read once
    [n > 0], and any other status stays. *)
Theorem progress_sets_the_status :
  forall k n db b pages,
    stored_book db k = Some b -> BookResponse b = true ->
    total_pages b = int_or_unset pages -> 0 <= n < 2 ^ 63 ->
    exists b',
      fst (update_progress k n db) = Answer b'
      /\ get_book k (snd (update_progress k n db)) = Answer b'
      /\ clean (snd (update_progress k n db))
      /\ current_page b' = PInt n
      /\ (forall p, pages = Some p -> p <> 0 -> p <= n ->
                    status b' = PStr (status_value FINISHED))
      /\ ((forall p, pages = Some p -> p = 0 \/ n < p) ->
          status b'
          = if is_str (status b) (status_value PLANNED) && (0 <? n)
            then PStr (status_value READING) else status b).
Proof.
  intros k n db b pages E Hb Hp Hn. unfold update_progress. rewrite E.
  pose proof (stored_book_id _ _ _ E) as Hk.
  assert (P : exists b', progress_change n b = Some b'
             /\ (forall p, pages = Some p -> p <> 0 -> p <= n ->
                           status b' = PStr (status_value FINISHED))
             /\ ((forall p, pages = Some p -> p = 0 \/ n < p) ->
                 status b'
                 = if is_str (status b) (status_value PLANNED) && (0 <? n)
                   then PStr (status_value READING) else status b)).
  { unfold progress_change.
    cbn [with_status with_current_page total_pages status].
    destruct (is_str (status b) (status_value PLANNED) && (0 <? n));
      cbn [with_status with_current_page total_pages status]; rewrite Hp;
      destruct pages as [p|]; cbn [int_or_unset truthy int_ge];
      try (eexists; split; [reflexivity|]; split;
           [intros ? [=]|intros _; reflexivity]).
    all: destruct (Z.eqb_spec p 0) as [E0|E0]; cbn [negb];
      [|destruct (Z.leb_spec p n)];
      (eexists; split; [reflexivity|]; split;
       [intros q [= <-] ? ?; first [reflexivity|lia]
       |intros Hq; first [reflexivity
                         |destruct (Hq p eq_refl); lia]]). }
  destruct P as (b' & P & F1 & F2). rewrite P.
  replace (int64 n) with true
    by (symmetry; unfold int64; apply andb_true_iff;
        split; [apply Z.leb_le|apply Z.ltb_lt]; lia).
  unfold respond. rewrite (progress_change_response n b b' Hb P).
  cbn [fst snd].
  destruct (progress_change_keeps _ _ _ P) as (H1 & _ & _ & _ & _ & _ & _ & H8).
  exists b'. split; [reflexivity|]. unfold get_book.
  rewrite <- Hk, <- H1. rewrite <- Hk, <- H1 in E.
  rewrite (save_book_stored db b b' E). unfold respond.
  rewrite (progress_change_response n b b' Hb P). repeat split; assumption.
Qed.

Lemma created_book_is_read_back_witness :
  exists book,
    fst (create_book persuasion_as_given (session_on emma_catalog)) = Answer book
    /\ get_book (id book)
                (snd (create_book persuasion_as_given (session_on emma_catalog)))
       = Answer book
    /\ Permutation (map author_name (authors book)) [T "Jane Austen"].
Proof.
  destruct (created_book_is_read_back persuasion_as_given
              (session_on emma_catalog) eq_refl eq_refl)
    as (book & H1 & H2 & _ & _ & _ & H6 & _).
  exists book. split; [exact H1|]. split; [exact H2|exact H6].
Defined.

Lemma deleted_book_is_gone_witness :
  get_book 1 (snd (delete_book 1 (session_on emma_catalog)))
  = HTTPException 404
  /\ author_table (current (snd (delete_book 1 (session_on emma_catalog))))
     = author_table emma_catalog.
Proof.
  destruct (deleted_book_is_gone 1 (session_on emma_catalog) _ eq_refl)
    as (_ & H2 & _ & H4 & _).
  split; [exact H2|exact H4].
Defined.

Lemma progress_sets_the_status_witness :
  exists b',
    fst (update_progress 1 10 (session_on dune_catalog)) = Answer b'
    /\ get_book 1 (snd (update_progress 1 10 (session_on dune_catalog)))
       = Answer b'
    /\ current_page b' = PInt 10
    /\ status b' = PStr (status_value READING).
Proof.
  assert (Hn : 0 <= 10 < 2 ^ 63) by (split; [lia|reflexivity]).
  destruct (progress_sets_the_status 1 10 (session_on dune_catalog) _ None
              eq_refl eq_refl eq_refl Hn)
    as (b' & H1 & H2 & _ & H4 & _ & H6).
  exists b'. repeat split; try assumption.
  apply H6. intros p [=].
Defined.

(** ** The endpoints keep the catalog within the schema *)

Lemma status_value_in_enum s :
  in_enum BookStatus (PStr (status_value s)) = true.
Proof. now destruct s. Qed.

Lemma format_value_in_enum f :
  in_enum BookFormat (PStr (format_value f)) = true.
Proof. now destruct f. Qed.

Lemma save_book_valid db c :
  catalog_valid db -> book_valid c = true -> catalog_valid (save_book db c).
Proof.
  intros [_ H] Hc.
  assert (F : Forall (fun b => book_valid b = true)
                (books (current (save_book db c)))).
  { cbn. apply Forall_forall. intros x Hin. apply in_map_iff in Hin
      as (y & <- & Hin). destruct (id y =? id c); [exact Hc|].
    rewrite Forall_forall in H. now apply H. }
  split; exact F.
Qed.

Lemma csv_authors_valid names : forall db book,
  book_valid (fst (csv_authors db book names)) = book_valid book.
Proof.
  induction names as [|n names IH]; intros db book; cbn [csv_authors];
    [reflexivity|].
  destruct (get_or_create_author db n) as [a db1]. now rewrite IH.
Qed.

Lemma csv_genres_valid names : forall db book,
  book_valid (fst (csv_genres db book names)) = book_valid book.
Proof.
  induction names as [|n names IH]; intros db book; cbn [csv_genres];
    [reflexivity|].
  destruct (get_or_create_genre db n) as [a db1]. now rewrite IH.
Qed.

Lemma rating_given_ok r : rating_given r -> rating_ok (int_or_unset r) = true.
Proof.
  destruct r as [r|]; cbn; [|reflexivity]. intros [H1 H2].
  apply andb_true_iff. split; now apply Z.leb_le.
Qed.

Lemma book_valid_parts b :
  book_valid b = true
  <-> in_enum BookStatus (status b) = true
      /\ in_enum BookFormat (format b) = true
      /\ rating_ok (rating b) = true.
Proof. unfold book_valid. rewrite !andb_true_iff. tauto. Qed.

(** Every stored book within the two enumerations and the rating range
    stays so under the book endpoints: creating a book from validated data,
    starting, finishing with a rating of 1 to 10 or none, reporting
    progress, setting the cover and deleting keep the catalog within the
    schema, in the session and in the database. *)
Theorem book_endpoints_keep_the_catalog_valid :
  forall db,
    catalog_valid db ->
    (forall data, rating_given (BookCreate.rating data) ->
                  catalog_valid (snd (create_book data db)))
    /\ (forall k, catalog_valid (snd (start_reading k db)))
    /\ (forall k given, rating_given given ->
                        catalog_valid (snd (finish_reading k given db)))
    /\ (forall k n, catalog_valid (snd (update_progress k n db)))
    /\ (forall k data, catalog_valid (snd (update_book_cover k data db)))
    /\ (forall k, catalog_valid (snd (delete_book k db))).
Proof.
  intros db Hv.
  assert (Hs : forall k b, stored_book db k = Some b -> book_valid b = true).
  { intros k b E. apply find_some in E as [Hin _]. destruct Hv as [_ Hv].
    rewrite Forall_forall in Hv. now apply Hv. }
  split; [|split; [|split; [|split; [|split]]]].
  - intros data Hr. unfold create_book.
    match goal with
    | |- context [csv_authors db ?b ?l] =>
        pose proof (csv_authors_valid l db b) as A;
        pose proof (csv_authors_spec l db b) as (_ & _ & _ & _ & _ & A6 & _);
        destruct (csv_authors db b l) as [book1 db1]
    end.
    match goal with
    | |- context [csv_genres db1 book1 ?l] =>
        pose proof (csv_genres_valid l db1 book1) as G;
        pose proof (csv_genres_spec l db1 book1) as (_ & _ & _ & _ & _ & G6 & _);
        destruct (csv_genres db1 book1 l) as [book2 db2]
    end.
    cbn [fst snd] in A, A6, G, G6.
    assert (B2 : book_valid book2 = true).
    { rewrite G, A. apply book_valid_parts. cbn [status format rating].
      split; [apply status_value_in_enum|].
      split; [apply format_value_in_enum|now apply rating_given_ok]. }
    assert (F : Forall (fun b => book_valid b = true)
                  (books (current (snd (db_add_book db2 book2))))).
    { cbn. rewrite G6, A6. apply Forall_app. split; [apply Hv|].
      constructor; [|constructor].
      apply book_valid_parts in B2 as (S & F & R). apply book_valid_parts.
      cbn [inserted status format rating]. unfold column_default.
      repeat split; try assumption.
      - destruct (status book2); try discriminate; assumption.
      - destruct (format book2); try discriminate; assumption. }
    destruct (db_add_book db2 book2) as [k db3]. cbn [snd] in *.
    destruct (storable book2); [|exact Hv]. split; exact F.
  - intros k. unfold start_reading.
    destruct (stored_book db k) as [b|] eqn:E; [|exact Hv]. cbn [snd].
    apply save_book_valid; [exact Hv|].
    apply Hs, book_valid_parts in E as (S & F & R). apply book_valid_parts.
    cbn [with_status status format rating]. now repeat split.
  - intros k given Hr. unfold finish_reading.
    destruct (stored_book db k) as [b|] eqn:E; [|exact Hv]. cbn [snd].
    apply save_book_valid; [exact Hv|].
    apply Hs, book_valid_parts in E as (S & F & R). apply book_valid_parts.
    destruct (truthy (total_pages (with_status b _)));
      destruct given as [r|]; try destruct (r =? 0);
      cbn [with_status with_current_page with_rating status format rating];
      repeat split; try assumption; try reflexivity;
      now apply (rating_given_ok (Some r)).
  - intros k n. unfold update_progress.
    destruct (stored_book db k) as [b|] eqn:E; [|exact Hv].
    destruct (progress_change n b) as [c|] eqn:P; [|exact Hv].
    destruct (int64 n); [|exact Hv]. cbn [snd].
    apply save_book_valid; [exact Hv|].
    apply Hs, book_valid_parts in E as (S & F & R). apply book_valid_parts.
    destruct (progress_change_keeps _ _ _ P)
      as (_ & _ & _ & _ & Hf & Hr & _). rewrite Hf, Hr.
    repeat split; try assumption.
    revert P. unfold progress_change.
    cbn [with_status with_current_page total_pages status].
    destruct (is_str _ _ && _);
      cbn [with_status with_current_page total_pages status];
      destruct (truthy (total_pages b));
      try destruct (int_ge n (total_pages b)) as [[|]|];
      intros P; try discriminate; injection P as <-;
      cbn [with_status with_current_page status];
      try assumption; reflexivity.
  - intros k data. unfold update_book_cover.
    destruct (stored_book db k) as [b|] eqn:E; [|exact Hv].
    destruct (negb (truthy _)); [exact Hv|].
    destruct (bindable _); [|exact Hv]. cbn [snd].
    apply save_book_valid; [exact Hv|].
    apply Hs, book_valid_parts in E as (S & F & R). apply book_valid_parts.
    cbn [with_cover_url status format rating]. now repeat split.
  - intros k. unfold delete_book.
    destruct (stored_book db k) as [b|] eqn:E; [|exact Hv]. cbn [snd].
    assert (F : Forall (fun b => book_valid b = true)
                  (filter (fun b => negb (id b =? k)) (books (current db)))).
    { apply Forall_forall. intros x Hin. apply filter_In in Hin as [Hin _].
      destruct Hv as [_ Hv]. rewrite Forall_forall in Hv. now apply Hv. }
    split; exact F.
Qed.

Lemma emma_catalog_valid : catalog_valid (session_on emma_catalog).
Proof. split; repeat constructor. Qed.

Lemma book_endpoints_keep_the_catalog_valid_witness :
  catalog_valid (snd (create_book persuasion_data (session_on emma_catalog)))
  /\ catalog_valid (snd (finish_reading 1 (Some 10) (session_on emma_catalog))).
Proof.
  destruct (book_endpoints_keep_the_catalog_valid (session_on emma_catalog)
              emma_catalog_valid) as (H1 & _ & H3 & _).
  split.
  - apply H1. cbn. lia.
  - apply H3. cbn. lia.
Defined.

(** ** The author and genre endpoints *)

Lemma next_author_id_fresh (l : list Author) :
  find (fun a => author_id a =? next_id (map author_id l)) l = None.
Proof.
  destruct (find _ l) as [a|] eqn:E; [|reflexivity].
  apply find_some in E as [Hin E]. apply Z.eqb_eq in E.
  pose proof (next_id_above (map author_id l) _ (in_map author_id _ _ Hin)).
  lia.
Qed.

Lemma next_genre_id_fresh (l : list Genre) :
  find (fun g => genre_id g =? next_id (map genre_id l)) l = None.
Proof.
  destruct (find _ l) as [g|] eqn:E; [|reflexivity].
  apply find_some in E as [Hin E]. apply Z.eqb_eq in E.
  pose proof (next_id_above (map genre_id l) _ (in_map genre_id _ _ Hin)).
  lia.
Qed.

(** An author or a genre of a name not yet stored is created with the name
    exactly as given, committed, and answered by its key from then on; the
    books are left alone.  Asking for the same name again, at once or
    later, is answered with 400 and changes nothing. *)
Theorem name_is_created_once :
  (forall name db,
      find_author (current db) name = None ->
      exists a,
        fst (create_author name db) = Answer a
        /\ author_name a = name
        /\ get_author (author_id a) (snd (create_author name db)) = Answer a
        /\ find_author (current (snd (create_author name db))) name = Some a
        /\ books (current (snd (create_author name db))) = books (current db)
        /\ clean (snd (create_author name db)))
  /\ (forall name db,
         find_genre (current db) name = None ->
         exists g,
           fst (create_genre name db) = Answer g
           /\ genre_name g = name
           /\ get_genre (genre_id g) (snd (create_genre name db)) = Answer g
           /\ find_genre (current (snd (create_genre name db))) name = Some g
           /\ books (current (snd (create_genre name db))) = books (current db)
           /\ clean (snd (create_genre name db)))
  /\ (forall name db,
         create_author name (snd (create_author name db))
         = (HTTPException 400, snd (create_author name db))
         /\ create_genre name (snd (create_genre name db))
            = (HTTPException 400, snd (create_genre name db))).
Proof.
  split; [|split].
  - intros name db H. unfold create_author. rewrite H. cbn [fst snd].
    set (l := author_table (current db)).
    set (a := {| author_id := next_id (map author_id l); author_name := name |}).
    exists a. split; [reflexivity|]. split; [reflexivity|].
    unfold get_author, find_author, db_commit.
    cbn [current author_table books].
    assert (F1 : find (fun x => author_id x =? author_id a) (l ++ [a]) = Some a).
    { apply find_snoc; [apply next_author_id_fresh|apply Z.eqb_refl]. }
    assert (F2 : find (fun x => text_eqb (author_name x) name) (l ++ [a])
                 = Some a).
    { apply find_snoc; [exact H|apply text_eqb_refl]. }
    fold l. rewrite F1, F2. now repeat split.
  - intros name db H. unfold create_genre. rewrite H. cbn [fst snd].
    set (l := genre_table (current db)).
    set (g := {| genre_id := next_id (map genre_id l); genre_name := name |}).
    exists g. split; [reflexivity|]. split; [reflexivity|].
    unfold get_genre, find_genre, db_commit.
    cbn [current genre_table books].
    assert (F1 : find (fun x => genre_id x =? genre_id g) (l ++ [g]) = Some g).
    { apply find_snoc; [apply next_genre_id_fresh|apply Z.eqb_refl]. }
    assert (F2 : find (fun x => text_eqb (genre_name x) name) (l ++ [g])
                 = Some g).
    { apply find_snoc; [exact H|apply text_eqb_refl]. }
    fold l. rewrite F1, F2. now repeat split.
  - intros name db. split.
    + unfold create_author at 2 3.
      destruct (find_author (current db) name) as [a|] eqn:E; cbn [snd].
      * unfold create_author. now rewrite E.
      * unfold create_author, find_author, db_commit.
        cbn [current author_table]. unfold find_author in E.
        now rewrite (find_snoc _ _ {| author_id := _; author_name := name |}
                       E (text_eqb_refl name)).
    + unfold create_genre at 2 3.
      destruct (find_genre (current db) name) as [g|] eqn:E; cbn [snd].
      * unfold create_genre. now rewrite E.
      * unfold create_genre, find_genre, db_commit.
        cbn [current genre_table]. unfold find_genre in E.
        now rewrite (find_snoc _ _ {| genre_id := _; genre_name := name |}
                       E (text_eqb_refl name)).
Qed.

Lemma name_is_created_once_witness :
  exists a,
    fst (create_author (T "Ursula K. Le Guin ") (session_on emma_catalog))
    = Answer a
    /\ author_name a = T "Ursula K. Le Guin "
    /\ get_author (author_id a)
         (snd (create_author (T "Ursula K. Le Guin ") (session_on emma_catalog)))
       = Answer a.
Proof.
  destruct (proj1 name_is_created_once (T "Ursula K. Le Guin ")
              (session_on emma_catalog) eq_refl)
    as (a & H1 & H2 & H3 & _).
  exists a. now repeat split.
Defined.

Lemma find_author_filter_other (l : list Author) (j k : Z) :
  j <> k ->
  find (fun a => author_id a =? j) (filter (fun a => negb (author_id a =? k)) l)
  = find (fun a => author_id a =? j) l.
Proof.
  intros H. induction l as [|x l IH]; [reflexivity|]. cbn [filter find].
  destruct (Z.eqb_spec (author_id x) k) as [Ek|Ek]; cbn [negb find].
  - destruct (Z.eqb_spec (author_id x) j); [congruence|exact IH].
  - now rewrite IH.
Qed.

Lemma find_author_filter_self (l : list Author) (k : Z) :
  find (fun a => author_id a =? k) (filter (fun a => negb (author_id a =? k)) l)
  = None.
Proof.
  induction l as [|x l IH]; [reflexivity|]. cbn [filter].
  destruct (author_id x =? k) eqn:E; cbn [negb find]; [exact IH|].
  now rewrite E.
Qed.

Lemma find_genre_filter_other (l : list Genre) (j k : Z) :
  j <> k ->
  find (fun g => genre_id g =? j) (filter (fun g => negb (genre_id g =? k)) l)
  = find (fun g => genre_id g =? j) l.
Proof.
  intros H. induction l as [|x l IH]; [reflexivity|]. cbn [filter find].
  destruct (Z.eqb_spec (genre_id x) k) as [Ek|Ek]; cbn [negb find].
  - destruct (Z.eqb_spec (genre_id x) j); [congruence|exact IH].
  - now rewrite IH.
Qed.

Lemma find_genre_filter_self (l : list Genre) (k : Z) :
  find (fun g => genre_id g =? k) (filter (fun g => negb (genre_id g =? k)) l)
  = None.
Proof.
  induction l as [|x l IH]; [reflexivity|]. cbn [filter].
  destruct (genre_id x =? k) eqn:E; cbn [negb find]; [exact IH|].
  now rewrite E.
Qed.

(** Deleting a stored author or genre answers without error and is
    committed; its key is answered with 404 from then on and no book lists
    it any more, while every book stays, with its title and its other
    authors and genres, and every other author or genre is read as
    before. *)
Theorem deleted_name_is_unlisted :
  (forall k db a,
      get_author k db = Answer a ->
      fst (delete_author k db) = Answer tt
      /\ get_author k (snd (delete_author k db)) = HTTPException 404
      /\ (forall j, j <> k -> get_author j (snd (delete_author k db))
                              = get_author j db)
      /\ Forall (fun b => Forall (fun x => author_id x <> k) (authors b))
                (books (current (snd (delete_author k db))))
      /\ map (fun b => (id b, title b, genres b,
                        filter (fun x => negb (author_id x =? k)) (authors b)))
             (books (current db))
         = map (fun b => (id b, title b, genres b, authors b))
               (books (current (snd (delete_author k db))))
      /\ genre_table (current (snd (delete_author k db)))
         = genre_table (current db)
      /\ clean (snd (delete_author k db)))
  /\ (forall k db g,
         get_genre k db = Answer g ->
         fst (delete_genre k db) = Answer tt
         /\ get_genre k (snd (delete_genre k db)) = HTTPException 404
         /\ (forall j, j <> k -> get_genre j (snd (delete_genre k db))
                                 = get_genre j db)
         /\ Forall (fun b => Forall (fun x => genre_id x <> k) (genres b))
                   (books (current (snd (delete_genre k db))))
         /\ map (fun b => (id b, title b, authors b,
                           filter (fun x => negb (genre_id x =? k)) (genres b)))
                (books (current db))
            = map (fun b => (id b, title b, authors b, genres b))
                  (books (current (snd (delete_genre k db))))
         /\ author_table (current (snd (delete_genre k db)))
            = author_table (current db)
         /\ clean (snd (delete_genre k db))).
Proof.
  split.
  - intros k db a H. unfold delete_author. rewrite H. cbn [fst snd].
    unfold get_author, db_commit. cbn [current author_table genre_table books].
    rewrite find_author_filter_self. repeat split.
    + intros j Hj. now rewrite find_author_filter_other.
    + apply Forall_forall. intros b Hin.
      apply in_map_iff in Hin as (b0 & <- & _). cbn [with_authors authors].
      apply Forall_forall. intros x Hx. apply filter_In in Hx as [_ Hx].
      apply negb_true_iff, Z.eqb_neq in Hx. exact Hx.
    + rewrite map_map. reflexivity.
  - intros k db g H. unfold delete_genre. rewrite H. cbn [fst snd].
    unfold get_genre, db_commit. cbn [current author_table genre_table books].
    rewrite find_genre_filter_self. repeat split.
    + intros j Hj. now rewrite find_genre_filter_other.
    + apply Forall_forall. intros b Hin.
      apply in_map_iff in Hin as (b0 & <- & _). cbn [with_genres genres].
      apply Forall_forall. intros x Hx. apply filter_In in Hx as [_ Hx].
      apply negb_true_iff, Z.eqb_neq in Hx. exact Hx.
    + rewrite map_map. reflexivity.
Qed.

Lemma deleted_name_is_unlisted_witness :
  get_genre 2 (snd (delete_genre 2 (session_on emma_catalog)))
  = HTTPException 404
  /\ map (fun b => map genre_name (genres b))
         (books (current (snd (delete_genre 2 (session_on emma_catalog)))))
     = [[T "Novel"]].
Proof.
  destruct (proj2 deleted_name_is_unlisted 2 (session_on emma_catalog) _ eq_refl)
    as (_ & H2 & _).
  split; [exact H2|reflexivity].
Defined.

(** Deleting rows keeps a column without repetition so. *)
Lemma rows_kept_unique {Row Key : Type} (key : Row -> Key) (keep : Row -> bool) :
  forall rows : list Row,
    NoDup (map key rows) -> NoDup (map key (filter keep rows)).
Proof.
  intros rows. induction rows as [|x rows IH]; cbn [map filter]; [trivial|].
  intros H. apply NoDup_cons_iff in H as [Hx Hl].
  destruct (keep x); [|now apply IH]. cbn [map].
  apply NoDup_cons_iff. split; [|now apply IH].
  intros Hin. apply Hx. apply in_map_iff in Hin as (y & <- & Hy).
  apply filter_In in Hy as [Hy _]. now apply in_map.
Qed.

(** No endpoint that writes to the author or genre table makes two rows
    share a name: creating and deleting authors and genres and creating a
    book keep the names unique, in the session and in the database. *)
Theorem endpoints_keep_names_unique :
  forall db,
    session_unique db ->
    (forall name, session_unique (snd (create_author name db)))
    /\ (forall name, session_unique (snd (create_genre name db)))
    /\ (forall k, session_unique (snd (delete_author k db)))
    /\ (forall k, session_unique (snd (delete_genre k db)))
    /\ (forall data, session_unique (snd (create_book data db))).
Proof.
  intros db H. pose proof H as [Hc [Ha Hg]].
  split; [|split; [|split; [|split]]].
  - intros name. unfold create_author.
    destruct (find_author (current db) name) eqn:E; [exact H|]. cbn [snd].
    apply db_commit_unique. split; [exact Hc|].
    split; cbn [current author_table genre_table]; [|exact Hg].
    rewrite map_app. apply NoDup_snoc; [assumption|].
    now apply find_author_none.
  - intros name. unfold create_genre.
    destruct (find_genre (current db) name) eqn:E; [exact H|]. cbn [snd].
    apply db_commit_unique. split; [exact Hc|].
    split; cbn [current author_table genre_table]; [exact Ha|].
    rewrite map_app. apply NoDup_snoc; [assumption|].
    now apply find_genre_none.
  - intros k. unfold delete_author.
    destruct (get_author k db); [|exact H]. cbn [snd].
    apply db_commit_unique. split; [exact Hc|].
    split; cbn [current author_table genre_table]; [|exact Hg].
    now apply rows_kept_unique.
  - intros k. unfold delete_genre.
    destruct (get_genre k db); [|exact H]. cbn [snd].
    apply db_commit_unique. split; [exact Hc|].
    split; cbn [current author_table genre_table]; [exact Ha|].
    now apply rows_kept_unique.
  - intros data. unfold create_book.
    match goal with
    | |- context [csv_authors db ?b ?l] =>
        pose proof (csv_authors_unique l db b H) as A;
        destruct (csv_authors db b l) as [book1 db1]
    end.
    cbn [snd] in A.
    match goal with
    | |- context [csv_genres db1 book1 ?l] =>
        pose proof (csv_genres_unique l db1 book1 A) as G;
        destruct (csv_genres db1 book1 l) as [book2 db2]
    end.
    cbn [snd] in G.
    pose proof (db_add_book_unique db2 book2 G) as B.
    destruct (db_add_book db2 book2) as [k db3]. cbn [snd] in *.
    destruct (storable book2); cbn [snd]; [|exact H].
    now apply db_commit_unique.
Qed.

Lemma emma_catalog_unique : session_unique (session_on emma_catalog).
Proof.
  assert (U : names_unique emma_catalog).
  { split; cbn; repeat constructor; cbn; intuition discriminate. }
  split; exact U.
Qed.

Lemma endpoints_keep_names_unique_witness :
  session_unique (snd (create_author (T "Jane Austen") (session_on emma_catalog)))
  /\ session_unique (snd (create_book persuasion_data (session_on emma_catalog))).
Proof.
  destruct (endpoints_keep_names_unique (session_on emma_catalog)
              emma_catalog_unique) as (H1 & _ & _ & _ & H5).
  split; [apply H1|apply H5].
Defined.

(** ** The names of a book added by the tracker import *)

Section AddedWith.
Context {R : Type}.
Variable step : Z -> R -> Session -> ImportResult -> Session * ImportResult.
Variable I : Session -> Prop.
Variable P : Book -> Prop.

Lemma run_adds n records db res :
  (forall k r d s,
      I d ->
      I (fst (step k r d s))
      /\ exists added,
           appended d (fst (step k r d s)) added /\ Forall P added) ->
  I db ->
  exists added,
    appended db (fst (run step n records db res)) added /\ Forall P added.
Proof.
  intros Hstep. revert n db res.
  induction records as [|r rs IH]; intros n db res Hdb.
  - exists []. unfold appended. cbn. rewrite app_nil_r.
    split; [reflexivity|constructor].
  - rewrite run_cons.
    destruct (Hstep n r db res Hdb) as [Hi [a1 [A1 L1]]].
    destruct (IH (n + 1) _ (snd (step n r db res)) Hi) as [a2 [A2 L2]].
    exists (a1 ++ a2). unfold appended in *. rewrite A2, A1, app_assoc.
    split; [reflexivity|]. apply Forall_app. now split.
Qed.
End AddedWith.

Lemma has_author_false b a :
  has_author b a = false -> ~ In (author_id a) (map author_id (authors b)).
Proof.
  unfold has_author. intros H Hin. apply in_map_iff in Hin as (x & Hx & Hin).
  assert (E : existsb (fun y => author_id y =? author_id a) (authors b) = true).
  { apply existsb_exists. exists x. split; [exact Hin|]. now apply Z.eqb_eq. }
  congruence.
Qed.

Lemma has_genre_false b g :
  has_genre b g = false -> ~ In (genre_id g) (map genre_id (genres b)).
Proof.
  unfold has_genre. intros H Hin. apply in_map_iff in Hin as (x & Hx & Hin).
  assert (E : existsb (fun y => genre_id y =? genre_id g) (genres b) = true).
  { apply existsb_exists. exists x. split; [exact Hin|]. now apply Z.eqb_eq. }
  congruence.
Qed.

Lemma stored_book_tail db old nb :
  Forall (fun b => id b <> id nb) old ->
  books (current db) = old ++ [nb] -> stored_book db (id nb) = Some nb.
Proof.
  intros Hold Hb. unfold stored_book. rewrite Hb. now apply find_fresh_tail.
Qed.

Section NamesOnce.
Variable lower : text -> text.
Variable py_float : text -> option float.

Lemma booktracker_authors_once old names : forall db seen nb,
  Forall (fun b => id b <> id nb) old ->
  books (current db) = old ++ [nb] ->
  NoDup (map author_id (authors nb)) ->
  exists nb',
    books (current (booktracker_authors lower db (id nb) seen names))
    = old ++ [nb']
    /\ id nb' = id nb
    /\ NoDup (map author_id (authors nb'))
    /\ genres nb' = genres nb.
Proof.
  induction names as [|n names IH]; intros db seen nb Hold Hb Hn; simpl.
  - now exists nb.
  - destruct (nonempty (strip (lower n)) && negb (mem_text (strip (lower n)) seen));
      [|now apply IH].
    pose proof (get_or_create_author_books db n) as [B _].
    destruct (get_or_create_author db n) as [a db1]. cbn [snd] in B.
    rewrite Hb in B. rewrite (stored_book_tail db1 old nb Hold B).
    destruct (has_author nb a) eqn:Ha; [now apply IH|].
    destruct (update_book_tail old (id nb) db1
                (fun b => with_authors b (authors b ++ [a])) nb Hold B eq_refl)
      as [U1 _].
    set (nb1 := with_authors nb (authors nb ++ [a])) in U1.
    destruct (IH (update_book db1 (id nb)
                    (fun b => with_authors b (authors b ++ [a])))
                 (strip (lower n) :: seen) nb1 Hold U1)
      as (nb' & I1 & I2 & I3 & I4).
    + subst nb1. cbn [with_authors authors]. rewrite map_app.
      apply NoDup_snoc; [exact Hn|]. now apply has_author_false.
    + exists nb'. now repeat split.
Qed.

Lemma booktracker_genres_once old names : forall db seen nb,
  Forall (fun b => id b <> id nb) old ->
  books (current db) = old ++ [nb] ->
  NoDup (map genre_id (genres nb)) ->
  exists nb',
    books (current (booktracker_genres lower db (id nb) seen names))
    = old ++ [nb']
    /\ id nb' = id nb
    /\ NoDup (map genre_id (genres nb'))
    /\ authors nb' = authors nb.
Proof.
  induction names as [|n names IH]; intros db seen nb Hold Hb Hn; simpl.
  - now exists nb.
  - destruct (nonempty (strip (lower n)) && negb (mem_text (strip (lower n)) seen));
      [|now apply IH].
    pose proof (get_or_create_genre_books db n) as [B _].
    destruct (get_or_create_genre db n) as [g db1]. cbn [snd] in B.
    rewrite Hb in B. rewrite (stored_book_tail db1 old nb Hold B).
    destruct (has_genre nb g) eqn:Hg; [now apply IH|].
    destruct (update_book_tail old (id nb) db1
                (fun b => with_genres b (genres b ++ [g])) nb Hold B eq_refl)
      as [U1 _].
    set (nb1 := with_genres nb (genres nb ++ [g])) in U1.
    destruct (IH (update_book db1 (id nb)
                    (fun b => with_genres b (genres b ++ [g])))
                 (strip (lower n) :: seen) nb1 Hold U1)
      as (nb' & I1 & I2 & I3 & I4).
    + subst nb1. cbn [with_genres genres]. rewrite map_app.
      apply NoDup_snoc; [exact Hn|]. now apply has_genre_false.
    + exists nb'. now repeat split.
Qed.

Lemma booktracker_book_unlisted r t book au ge :
  booktracker_book lower py_float r t = inl (book, au, ge) ->
  authors book = [] /\ genres book = [].
Proof.
  unfold booktracker_book. rest_of_chain.
  intros H. injection H as <- _ _. now split.
Qed.

Lemma booktracker_row_once n r db res :
  clean db ->
  exists added,
    appended db (fst (booktracker_row lower py_float n r db res)) added
    /\ Forall (fun b => NoDup (map author_id (authors b))
                        /\ NoDup (map genre_id (genres b))) added.
Proof.
  intros Hc. unfold booktracker_row, booktracker_try, appended.
  destruct (cell_strip (row_get r "title" "")) as [title|e].
  2:{ exists []. cbn [fst snd]. rewrite (db_rollback_clean db Hc), app_nil_r.
      split; [reflexivity|constructor]. }
  destruct (negb (nonempty title));
    [exists []; cbn; rewrite app_nil_r; split; [reflexivity|constructor]|].
  destruct (title_exists (current db) title);
    [exists []; cbn; rewrite app_nil_r; split; [reflexivity|constructor]|].
  destruct (booktracker_book lower py_float r title) as [[[book au] ge]|e] eqn:Eb.
  2:{ exists []. cbn [fst snd]. rewrite (db_rollback_clean db Hc), app_nil_r.
      split; [reflexivity|constructor]. }
  destruct (booktracker_book_unlisted _ _ _ _ _ Eb) as [Ba Bg].
  unfold db_add_book.
  destruct (negb (storable book)).
  { exists []. cbn [fst snd db_rollback committed current].
    unfold clean in Hc. rewrite <- Hc, app_nil_r.
    split; [reflexivity|constructor]. }
  set (k := next_id (map id (books (current db)))).
  set (db1 := {| committed := committed db; current := _ |}).
  destruct (booktracker_authors_once (books (current db)) au db1 []
              (inserted k book) (fresh_key _) eq_refl)
    as (nb1 & A1 & A2 & A3 & A4).
  { cbn [inserted authors]. rewrite Ba. constructor. }
  cbn [inserted id] in A1, A2.
  assert (Hold : Forall (fun b => id b <> id nb1) (books (current db))).
  { rewrite A2. apply fresh_key. }
  destruct (booktracker_genres_once (books (current db)) ge _ [] nb1 Hold A1)
    as (nb2 & G1 & G2 & G3 & G4).
  { rewrite A4. cbn [inserted genres]. rewrite Bg. constructor. }
  rewrite A2 in G1.
  exists [nb2]. cbn [fst snd db_commit current]. rewrite G1.
  split; [reflexivity|]. constructor; [|constructor].
  split; [now rewrite G4|exact G3].
Qed.

(** Every book the tracker import adds lists each author and each genre at
    most once, however often and in whatever case the record names them: no
    row of the association tables is written twice. *)
Theorem tracker_book_lists_a_name_once :
  forall n rows db res,
    clean db ->
    exists added,
      appended db (fst (booktracker_loop lower py_float n rows db res)) added
      /\ Forall (fun b => NoDup (map author_id (authors b))
                          /\ NoDup (map genre_id (genres b))) added.
Proof.
  intros n rows db res Hc. rewrite booktracker_loop_run.
  apply (run_adds _ clean); [|exact Hc].
  intros k r d s Hd. split.
  - now apply booktracker_row_clean.
  - now apply booktracker_row_once.
Qed.

End NamesOnce.

Lemma tracker_book_lists_a_name_once_witness :
  exists added,
    appended (session_on dune_catalog)
      (fst (booktracker_loop ascii_lower decimal_float 2
              [cells [("title", "Emma"); ("authors", "Alice, ALICE , Bob")]%string]
              (session_on dune_catalog) new_result)) added
    /\ Forall (fun b => NoDup (map author_id (authors b))
                        /\ NoDup (map genre_id (genres b))) added.
Proof.
  apply (tracker_book_lists_a_name_once ascii_lower decimal_float).
  reflexivity.
Defined.

(** ** All or nothing *)

Section AllOrNothing.
Variable decode : string -> bytes -> option text.
Variable csv_DictReader : text -> Z -> list row * bool.
Variable json_loads : text -> option pyval.

(** The generic CSV import and the JSON import commit all the books of a
    file or none: when the endpoint answers with a result the session holds
    nothing uncommitted, and when it answers with an error, whichever, the
    database is as it was before the request. *)
Theorem generic_import_commits_all_or_nothing :
  forall filename content db,
    match fst (import_from_csv decode csv_DictReader filename content db) with
    | Result _ =>
        clean (snd (import_from_csv decode csv_DictReader filename content db))
    | HTTPError _ =>
        committed (snd (import_from_csv decode csv_DictReader filename content db))
        = committed db
    end
    /\ match fst (import_from_json decode json_loads filename content db) with
       | Result _ =>
           clean (snd (import_from_json decode json_loads filename content db))
       | HTTPError _ =>
           committed (snd (import_from_json decode json_loads filename content db))
           = committed db
       end.
Proof.
  intros filename content db. split.
  - unfold import_from_csv.
    destruct (negb (endswith filename (T ".csv"))); [reflexivity|].
    destruct (first_decoding _ _ _) as [text|]; [|reflexivity].
    destruct (csv_DictReader text comma) as [rows broke].
    unfold import_csv_rows.
    pose proof (csv_loop_committed rows 2 db new_result) as H.
    destruct (csv_loop 2 rows db new_result) as [db1 res]. cbn [fst] in H.
    destruct broke; cbn [fst snd]; [exact H|].
    destruct (forallb storable (uncommitted db1)); cbn [fst snd];
      [reflexivity|exact H].
  - unfold import_from_json.
    destruct (negb (endswith filename (T ".json"))); [reflexivity|].
    destruct (codec decode "utf-8" content) as [text|]; [|reflexivity].
    destruct (json_loads text) as [data|]; [|reflexivity].
    unfold import_json_data.
    destruct (books_data data) as [records|e]; [|reflexivity].
    pose proof (json_loop_committed records 0 db new_result) as H.
    destruct (json_loop 0 records db new_result) as [db1 res]. cbn [fst] in H.
    destruct (forallb storable (uncommitted db1)); cbn [fst snd];
      [reflexivity|exact H].
Qed.

End AllOrNothing.

(** ** Starting and finishing *)

(** For a stored book the response model takes, starting and finishing
    answer with the row that is read back afterwards.  Starting sets the
    status to reading, whatever it was, and leaves page and rating alone.
    Finishing sets the status to finished, moves the current page to the
    page count when the book has one, and stores the rating of the request,
    keeping the old one when the request carries none. *)
Theorem start_and_finish_set_the_status :
  forall k db b given,
    stored_book db k = Some b -> BookResponse b = true -> rating_given given ->
    (exists b1,
        fst (start_reading k db) = Answer b1
        /\ get_book k (snd (start_reading k db)) = Answer b1
        /\ status b1 = PStr (status_value READING)
        /\ current_page b1 = current_page b
        /\ rating b1 = rating b)
    /\ (exists b2,
           fst (finish_reading k given db) = Answer b2
           /\ get_book k (snd (finish_reading k given db)) = Answer b2
           /\ status b2 = PStr (status_value FINISHED)
           /\ current_page b2
              = (if truthy (total_pages b) then total_pages b
                 else current_page b)
           /\ rating b2
              = match given with Some r => PInt r | None => rating b end).
Proof.
  intros k db b given E Hb Hr. pose proof (stored_book_id _ _ _ E) as Hk.
  destruct (BookResponse_parts b Hb) as (_ & Htp & Hcp & Hra).
  subst k. unfold start_reading, finish_reading, get_book. rewrite E.
  cbn [fst snd]. split.
  - assert (R : BookResponse (with_status b (PStr (status_value READING)))
                = true)
      by (lifecycle_response b; try assumption; reflexivity).
    unfold respond. rewrite R. eexists. split; [reflexivity|].
    pose proof (save_book_stored db b
                  (with_status b (PStr (status_value READING))) E) as S.
    cbn [id with_status] in S. rewrite S, R. now repeat split.
  - assert (G : forall r, given = Some r -> (r =? 0) = false).
    { intros r ->. cbn in Hr. apply Z.eqb_neq. lia. }
    assert (Hg : forall r, given = Some r -> rating_ok (PInt r) = true).
    { intros r ->. cbn in Hr. cbn [rating_ok]. apply andb_true_iff.
      split; apply Z.leb_le; lia. }
    assert (Hi : truthy (total_pages b) = true ->
                 is_integer (total_pages b) = true).
    { destruct (total_pages b); try discriminate; reflexivity. }
    cbn [with_status total_pages].
    destruct (truthy (total_pages b)) eqn:Tp; destruct given as [r|];
      try rewrite (G r eq_refl);
      match goal with
      | |- context [save_book db ?c] =>
          let S := fresh "S" in
          let R := fresh "R" in
          pose proof (save_book_stored db b c E) as S;
          cbn [id with_status with_current_page with_rating] in S;
          assert (R : BookResponse c = true)
            by (lifecycle_response b; auto);
          unfold respond; rewrite S, R
      end; (eexists; split; [reflexivity|now repeat split]).
Qed.

Lemma start_and_finish_set_the_status_witness :
  exists b2,
    fst (finish_reading 1 (Some 7) (session_on emma_catalog)) = Answer b2
    /\ get_book 1 (snd (finish_reading 1 (Some 7) (session_on emma_catalog)))
       = Answer b2
    /\ status b2 = PStr (status_value FINISHED)
    /\ rating b2 = PInt 7.
Proof.
  destruct (start_and_finish_set_the_status 1 (session_on emma_catalog) _
              (Some 7) eq_refl eq_refl ltac:(cbn; lia))
    as (_ & b2 & H1 & H2 & H3 & _ & H5).
  exists b2. now repeat split.
Defined.
